(** * LOTL-APEX agent gateway: a shallow embedding of the Python sources

    The development follows [apps/lotlops-agent]:
    - [shell_planner/task_engine.py]  ->  [TaskEngine]
    - [memory/semantic_store.py]      ->  [SemanticStore]
    - [core/llm_orchestrator.py]      ->  [LlmOrchestrator]
    - [main.py]                       ->  [Main]

    Conventions.
    - A Python [str] is represented by its UTF-8 encoding, a [string] of
      bytes.  [s.encode()] is therefore the identity, string literals of the
      source are written as they stand, and every separator the code looks for
      (space, quote, backslash, slash, comma) is a single ASCII byte.  A
      [str] with a lone surrogate has no UTF-8 encoding: the strings of
      this development are Unicode text without lone surrogates.
    - A Python [float] is an IEEE 754 binary64 number, and the arithmetic
      of the limiter is the binary64 arithmetic of the Standard Library's
      [SpecFloat], rounding to nearest, ties to even ([F64]).  The reading
      of [time.time()] that [verify_signature] truncates to an [int] is
      given by its exact value, a rational.
    - A function that may raise returns an [outcome]; state that survives the
      call is threaded explicitly.  Python does not undo what a call did
      before it raised, and neither does [Main.bind].
    - Library and operating-system services ([shlex.split], [int],
      [hmac.new(...).hexdigest()], the child process behind
      [subprocess.run], the HTTP call to the Ollama server, the FTS5 matcher,
      the Redis pipeline) are parameters of the definitions that call them;
      the reference models in [PyStr], [Shlex] and [Sha256] instantiate the
      first three.
    - The host is Linux and the locale's encoding, in which
      [subprocess.run(text=True)] decodes what a child wrote, is UTF-8.
    - The process environment is the same for every call: the [.env] file
      that [/partner] loads sets nothing that was not set at start-up.
    - The SQLite file is assumed to be reachable: an operation of the store
      raises only what its arguments make it raise. *)

From Stdlib Require Import ZArith QArith List String Ascii Bool Lia.
From Stdlib Require Import Permutation Sorted SpecFloat.
From stdpp Require Import gmap strings.
Import ListNotations.

Local Open Scope string_scope.
Local Open Scope Z_scope.

(* ===================================================================== *)
(** * Part I: definitions                                                 *)
(* ===================================================================== *)

(** ** Exceptions and results *)

Inductive exn : Type :=
| ValueError
| TypeError
| OSError
| OperationalError
| OverflowError
| UnicodeDecodeError
| TimeoutExpired
| CalledProcessError (returncode : Z) (stdout stderr : string)
| HTTPException (status_code : Z) (detail : string).

Inductive outcome (A : Type) : Type :=
| Return (a : A)
| Raise (e : exn).

Arguments Return {A} a.
Arguments Raise {A} e.

(** ** Python string primitives on the UTF-8 representation *)

Module PyStr.

Definition byte_of (n : N) : ascii := ascii_of_N n.

(** UTF-8 encoding of one code point (surrogates are not in the domain). *)
Definition utf8 (cp : N) : string :=
  if (cp <? 128)%N then String (byte_of cp) ""
  else if (cp <? 2048)%N then
    String (byte_of (192 + cp / 64)) (String (byte_of (128 + cp mod 64)) "")
  else if (cp <? 65536)%N then
    String (byte_of (224 + cp / 4096))
      (String (byte_of (128 + (cp / 64) mod 64))
         (String (byte_of (128 + cp mod 64)) ""))
  else
    String (byte_of (240 + cp / 262144))
      (String (byte_of (128 + (cp / 4096) mod 64))
         (String (byte_of (128 + (cp / 64) mod 64))
            (String (byte_of (128 + cp mod 64)) ""))).

(** The code points for which [str.isspace] holds. *)
Definition whitespace_codepoints : list N :=
  [9; 10; 11; 12; 13; 28; 29; 30; 31; 32; 133; 160; 5760;
   8192; 8193; 8194; 8195; 8196; 8197; 8198; 8199; 8200; 8201; 8202;
   8232; 8233; 8239; 8287; 12288]%N.

Definition whitespace : list string := map utf8 whitespace_codepoints.

Fixpoint drop_prefix (p s : string) : option string :=
  match p, s with
  | EmptyString, _ => Some s
  | String a p', String b s' =>
      if Ascii.eqb a b then drop_prefix p' s' else None
  | String _ _, EmptyString => None
  end.

Fixpoint first_match (ps : list string) (s : string) : option string :=
  match ps with
  | [] => None
  | p :: ps' =>
      match drop_prefix p s with
      | Some r => Some r
      | None => first_match ps' s
      end
  end.

Fixpoint lstrip_with (ws : list string) (fuel : nat) (s : string) : string :=
  match fuel with
  | O => s
  | S fuel' =>
      match first_match ws s with
      | Some r => lstrip_with ws fuel' r
      | None => s
      end
  end.

Fixpoint rev_string (acc s : string) : string :=
  match s with
  | EmptyString => acc
  | String c s' => rev_string (String c acc) s'
  end.

Definition reverse (s : string) : string := rev_string "" s.

Definition lstrip_of (ws : list string) (s : string) : string :=
  lstrip_with ws (String.length s) s.

Definition rstrip_of (ws : list string) (s : string) : string :=
  reverse (lstrip_with (map reverse ws) (String.length s) (reverse s)).

(** [s.strip()] *)
Definition strip (s : string) : string :=
  rstrip_of whitespace (lstrip_of whitespace s).

(** [s.rfind(c)], -1 when [c] does not occur. *)
Fixpoint rfind (c : ascii) (s : string) : Z :=
  match s with
  | EmptyString => -1
  | String a s' =>
      let i := rfind c s' in
      if i =? -1 then (if Ascii.eqb a c then 0 else -1) else i + 1
  end.

(** [s[i:]] for [0 <= i]. *)
Fixpoint slice_from (i : nat) (s : string) : string :=
  match i, s with
  | O, _ => s
  | S i', String _ s' => slice_from i' s'
  | S _, EmptyString => EmptyString
  end.

(** [posixpath.basename]:  [i = p.rfind('/') + 1; return p[i:]]. *)
Definition basename (p : string) : string :=
  let i := rfind "/"%char p + 1 in
  slice_from (Z.to_nat i) p.

(** [s.split(sep)] for a one-byte separator. *)
Fixpoint split_on (sep : ascii) (cur : string) (s : string) : list string :=
  match s with
  | EmptyString => [reverse cur]
  | String c s' =>
      if Ascii.eqb c sep then reverse cur :: split_on sep "" s'
      else split_on sep (String c cur) s'
  end.

Definition split (sep : ascii) (s : string) : list string := split_on sep "" s.

(** [s.startswith(p)] *)
Definition startswith (s p : string) : bool :=
  match drop_prefix p s with Some _ => true | None => false end.

(** Truthiness of a [str]. *)
Definition truthy (s : string) : bool :=
  match s with EmptyString => false | _ => true end.

(** Truthiness of a [str | None]. *)
Definition truthy_opt (o : option string) : bool :=
  match o with Some s => truthy s | None => false end.

Definition is_digit (c : ascii) : bool :=
  let n := N_of_ascii c in ((48 <=? n) && (n <=? 57))%N.

Definition digit_val (c : ascii) : Z := Z.of_N (N_of_ascii c) - 48.

(** Decimal digits, single underscores allowed between two digits. *)
Fixpoint digits (acc : Z) (after_underscore : bool) (s : string) : option Z :=
  match s with
  | EmptyString => if after_underscore then None else Some acc
  | String c s' =>
      if is_digit c then digits (10 * acc + digit_val c) false s'
      else if Ascii.eqb c "_" then
        if after_underscore then None else digits acc true s'
      else None
  end.

Definition unsigned (s : string) : option Z :=
  match s with
  | String c _ => if is_digit c then digits 0 false s else None
  | EmptyString => None
  end.

(** The characters [int] skips at both ends: the whitespace of the C
    locale and the whitespace code points outside ASCII. *)
Definition int_whitespace : list string :=
  map utf8 (filter (fun cp => (cp <? 28) || (31 <? cp))%N whitespace_codepoints).

(** Reference model of [int(s)] on a [str] whose digits are ASCII:
    surrounding whitespace, an optional sign, decimal digits.  [None]
    stands for [ValueError].  The interpreter's limit on the number of
    digits is not modelled. *)
Definition int (s : string) : option Z :=
  match rstrip_of int_whitespace (lstrip_of int_whitespace s) with
  | String "+" r => unsigned r
  | String "-" r => option_map Z.opp (unsigned r)
  | t => unsigned t
  end.

Definition is_ascii_char (c : ascii) : bool := (N_of_ascii c <? 128)%N.

Fixpoint isascii (s : string) : bool :=
  match s with
  | EmptyString => true
  | String c s' => is_ascii_char c && isascii s'
  end.

(** [int(x)] on a finite float of value [x]: truncation toward zero. *)
Definition int_of_float (x : Q) : Z := Z.quot (Qnum x) (Zpos (Qden x)).

Definition in_range (lo hi : N) (c : ascii) : bool :=
  let n := N_of_ascii c in ((lo <=? n) && (n <=? hi))%N.

Definition is_byte (n : N) (c : ascii) : bool := (N_of_ascii c =? n)%N.

(** Well-formed UTF-8: shortest forms only, no surrogates, nothing above
    U+10FFFF. *)
Fixpoint valid_utf8 (s : string) : bool :=
  match s with
  | EmptyString => true
  | String a s1 =>
      if in_range 0 127 a then valid_utf8 s1
      else
        match s1 with
        | EmptyString => false
        | String b s2 =>
            if in_range 194 223 a then in_range 128 191 b && valid_utf8 s2
            else
              match s2 with
              | EmptyString => false
              | String c s3 =>
                  if in_range 224 239 a then
                    in_range (if is_byte 224 a then 160 else 128)
                             (if is_byte 237 a then 159 else 191) b
                    && in_range 128 191 c && valid_utf8 s3
                  else
                    match s3 with
                    | EmptyString => false
                    | String d s4 =>
                        in_range 240 244 a
                        && in_range (if is_byte 240 a then 144 else 128)
                                    (if is_byte 244 a then 143 else 191) b
                        && in_range 128 191 c && in_range 128 191 d
                        && valid_utf8 s4
                    end
              end
        end
  end.

(** [data.decode("utf-8")], errors strict: [None] stands for
    [UnicodeDecodeError]. *)
Definition decode (data : string) : option string :=
  if valid_utf8 data then Some data else None.

(** [s.replace("\r\n", "\n").replace("\r", "\n")] *)
Fixpoint translate_newlines (s : string) : string :=
  match s with
  | EmptyString => EmptyString
  | String c s' =>
      if Ascii.eqb c "013" then
        match s' with
        | String c' s'' =>
            if Ascii.eqb c' "010" then String "010" (translate_newlines s'')
            else String "010" (translate_newlines s')
        | EmptyString => String "010" EmptyString
        end
      else String c (translate_newlines s')
  end.

Fixpoint has_nul (s : string) : bool :=
  match s with
  | EmptyString => false
  | String c s' => Ascii.eqb c "000" || has_nul s'
  end.

End PyStr.

(** ** Python floats: IEEE 754 binary64 *)

Module F64.

Definition prec : Z := 53.
Definition emax : Z := 1024.

Definition float : Type := spec_float.

Definition add : float -> float -> float := SFadd prec emax.
Definition sub : float -> float -> float := SFsub prec emax.
Definition mul : float -> float -> float := SFmul prec emax.

(** [x < y] and [x <= y]; both are false when an operand is NaN. *)
Definition ltb : float -> float -> bool := SFltb.
Definition leb : float -> float -> bool := SFleb.

(** [float(n)] for an [int]: the nearest float, ties to even. *)
Definition of_Z (n : Z) : float := binary_normalize prec emax n 0 false.

Definition zero : float := of_Z 0.
Definition one : float := of_Z 1.

Definition is_finite (x : float) : bool :=
  match x with
  | S754_zero _ | S754_finite _ _ _ => true
  | S754_infinity _ | S754_nan => false
  end.

(** [min(a, b)]: [b] when [b < a], else [a]. *)
Definition py_min (a b : float) : float := if ltb b a then b else a.

(** [p] shifted left by [k] bits, and the number of bits of [p]. *)
Definition shl (p : positive) (k : Z) : positive :=
  match k with Zpos n => Pos.iter xO p n | _ => p end.

Definition dig (p : positive) : Z := Zpos (digits2_pos p).

(** The float whose value is the whole number [p], for [p] below 2^53:
    the bits of [p] moved to the top of the 53-bit mantissa. *)
Definition canon (p : positive) : float :=
  S754_finite false (shl p (53 - dig p)) (dig p - 53).

End F64.

(** ** [shlex.split(s)]: POSIX mode, [whitespace_split], no commenters *)

Module Shlex.

(** The lexer's [state] attribute: [' '], ['a'], an opening quote, or the
    escape character together with [escapedstate]. *)
Inductive state : Type :=
| Blank
| Word
| Quoted (q : ascii)
| Escaped (escapedstate : option ascii).

Definition is_whitespace (c : ascii) : bool :=
  Ascii.eqb c " " || Ascii.eqb c "009" || Ascii.eqb c "013" || Ascii.eqb c "010".

Definition is_quote (c : ascii) : bool :=
  Ascii.eqb c "'" || Ascii.eqb c "034".

Definition is_escape (c : ascii) : bool := Ascii.eqb c "\".

Definition in_escapedquotes (c : ascii) : bool := Ascii.eqb c "034".

Definition push (token : string) (c : ascii) : string := token ++ String c "".

(** The token handed out by [read_token]: [None] when it is empty and
    nothing was quoted. *)
Definition emit (token : string) (quoted : bool) (rest : list string) : list string :=
  if negb quoted && negb (PyStr.truthy token) then rest else token :: rest.

(** One pass over the input; [None] stands for [ValueError] (no closing
    quotation, or no escaped character). *)
Fixpoint lex (st : state) (token : string) (quoted : bool) (s : string)
  : option (list string) :=
  match s with
  | EmptyString =>
      match st with
      | Blank => Some []
      | Word => Some (emit token quoted [])
      | Quoted _ => None
      | Escaped _ => None
      end
  | String c s' =>
      match st with
      | Blank =>
          if is_whitespace c then lex Blank "" false s'
          else if is_escape c then lex (Escaped None) "" false s'
          else if is_quote c then lex (Quoted c) "" true s'
          else lex Word (String c "") false s'
      | Word =>
          if is_whitespace c then
            option_map (emit token quoted) (lex Blank "" false s')
          else if is_quote c then lex (Quoted c) token true s'
          else if is_escape c then lex (Escaped None) token quoted s'
          else lex Word (push token c) quoted s'
      | Quoted q =>
          if Ascii.eqb c q then lex Word token true s'
          else if is_escape c && in_escapedquotes q then
            lex (Escaped (Some q)) token true s'
          else lex (Quoted q) (push token c) true s'
      | Escaped None =>
          lex Word (push token c) quoted s'
      | Escaped (Some q) =>
          let token' :=
            if negb (is_escape c) && negb (Ascii.eqb c q)
            then push token "\" else token in
          lex (Quoted q) (push token' c) quoted s'
      end
  end.

Definition split (s : string) : option (list string) := lex Blank "" false s.

End Shlex.

(** ** Reference model of [hmac.new(key, msg, sha256).hexdigest()]
    (FIPS 180-4 and RFC 2104), on byte strings *)

Module Sha256.

Definition w32 (x : Z) : Z := Z.land x 0xffffffff.
Definition add32 (a b : Z) : Z := w32 (a + b).
Definition rotr (n x : Z) : Z := Z.lor (Z.shiftr x n) (w32 (Z.shiftl x (32 - n))).
Definition shr (n x : Z) : Z := Z.shiftr x n.
Definition xor3 (a b c : Z) : Z := Z.lxor a (Z.lxor b c).

Definition Ch (x y z : Z) : Z := Z.lxor (Z.land x y) (Z.land (w32 (Z.lnot x)) z).
Definition Maj (x y z : Z) : Z := xor3 (Z.land x y) (Z.land x z) (Z.land y z).
Definition Sigma0 (x : Z) : Z := xor3 (rotr 2 x) (rotr 13 x) (rotr 22 x).
Definition Sigma1 (x : Z) : Z := xor3 (rotr 6 x) (rotr 11 x) (rotr 25 x).
Definition sigma0 (x : Z) : Z := xor3 (rotr 7 x) (rotr 18 x) (shr 3 x).
Definition sigma1 (x : Z) : Z := xor3 (rotr 17 x) (rotr 19 x) (shr 10 x).

(** The round constants are the first 32 bits of the fractional parts of
    the cube roots of the first 64 primes, the initial hash value those of
    the square roots of the first 8. *)
Definition is_prime (n : Z) : bool :=
  forallb (fun d => negb (n mod Z.of_nat d =? 0)) (seq 2 (Z.to_nat n - 2)).

Definition primes : list Z := filter is_prime (map Z.of_nat (seq 2 310)).

(** The integer cube root, one bit at a time from the top. *)
Definition cube_root (n : Z) : Z :=
  fold_left (fun r i => let r' := r + 2 ^ Z.of_nat i in
                        if r' * r' * r' <=? n then r' else r)
    (rev (seq 0 44)) 0.

Definition K : list Z :=
  Eval vm_compute in map (fun p => w32 (cube_root (p * 2 ^ 96))) primes.

Definition H0 : list Z :=
  Eval vm_compute in map (fun p => w32 (Z.sqrt (p * 2 ^ 64))) (firstn 8 primes).

Definition bytes_of (s : string) : list Z :=
  map (fun c => Z.of_N (N_of_ascii c)) (list_ascii_of_string s).

(** Big-endian bytes of [x], [n] of them. *)
Fixpoint be_bytes (n : nat) (x : Z) : list Z :=
  match n with
  | O => []
  | S n' => Z.land (Z.shiftr x (8 * Z.of_nat n')) 255 :: be_bytes n' x
  end.

Definition pad (msg : list Z) : list Z :=
  let len := Z.of_nat (List.length msg) in
  let zeros := Z.to_nat ((55 - len) mod 64) in
  msg ++ [128] ++ repeat 0 zeros ++ be_bytes 8 (8 * len).

Fixpoint words (fuel : nat) (bs : list Z) : list Z :=
  match fuel, bs with
  | S fuel', a :: b :: c :: d :: bs' =>
      (a * 16777216 + b * 65536 + c * 256 + d) :: words fuel' bs'
  | _, _ => []
  end.

Fixpoint chunks (fuel : nat) (ws : list Z) : list (list Z) :=
  match fuel, ws with
  | S fuel', _ :: _ => firstn 16 ws :: chunks fuel' (skipn 16 ws)
  | _, _ => []
  end.

(** The message schedule, most recent word first. *)
Fixpoint schedule (n : nat) (rev_w : list Z) : list Z :=
  match n with
  | O => rev_w
  | S n' =>
      let w := add32 (add32 (sigma1 (nth 1 rev_w 0)) (nth 6 rev_w 0))
                     (add32 (sigma0 (nth 14 rev_w 0)) (nth 15 rev_w 0)) in
      schedule n' (w :: rev_w)
  end.

Definition round (st : list Z) (kw : Z * Z) : list Z :=
  match st with
  | [a; b; c; d; e; f; g; h] =>
      let t1 := add32 (add32 (add32 h (Sigma1 e)) (add32 (Ch e f g) (fst kw))) (snd kw) in
      let t2 := add32 (Sigma0 a) (Maj a b c) in
      [add32 t1 t2; a; b; c; add32 d t1; e; f; g]
  | _ => st
  end.

Definition compress (h : list Z) (block : list Z) : list Z :=
  let w := rev (schedule 48 (rev block)) in
  let st := fold_left round (combine K w) h in
  map (fun p => add32 (fst p) (snd p)) (combine h st).

Definition digest (msg : list Z) : list Z :=
  let padded := pad msg in
  let ws := words (List.length padded) padded in
  let h := fold_left compress (chunks (List.length ws) ws) H0 in
  List.concat (map (be_bytes 4) h).

Definition xor_pad (p : Z) (key : list Z) : list Z :=
  map (Z.lxor p) (key ++ repeat 0 (64 - List.length key)).

Definition hmac (key msg : list Z) : list Z :=
  let key := if (64 <? List.length key)%nat then digest key else key in
  digest (xor_pad 0x5c key ++ digest (xor_pad 0x36 key ++ msg)).

Definition hex_digit (n : Z) : ascii :=
  if n <? 10 then ascii_of_N (Z.to_N (48 + n)) else ascii_of_N (Z.to_N (87 + n)).

Fixpoint hex (bs : list Z) : string :=
  match bs with
  | [] => EmptyString
  | b :: bs' => String (hex_digit (b / 16)) (String (hex_digit (b mod 16)) (hex bs'))
  end.

Definition hexdigest (msg : string) : string := hex (digest (bytes_of msg)).

Definition hmac_hexdigest (key msg : string) : string :=
  hex (hmac (bytes_of key) (bytes_of msg)).

End Sha256.

(** ** The process environment ([os.getenv]) *)

Definition getenv (environ : gmap string string) (key default_value : string) : string :=
  default default_value (environ !! key).

(** ** [shell_planner/task_engine.py] *)

Module TaskEngine.

Record ShellExecutor : Type := {
  allowed_commands : list string;
  timeout_seconds : Z
}.

(** What becomes of the child that [subprocess.run(args, shell=False,
    capture_output=True, timeout=t)] starts: it ran to its end, with an
    exit code and the bytes it wrote to its standard output and standard
    error; it was killed at the timeout; or it could not be started. *)
Inductive proc_result : Type :=
| Exited (returncode : Z) (stdout stderr : string)
| Expired
| NotStarted.

Definition denied_message : string := "❌ Command not allowed by policy".
Definition timeout_message : string := "❌ Error: command timeout".
Definition error_prefix : string := "❌ Error: ".

Definition default_allowed_env : string :=
  "git,ls,cat,echo,python,python3,pip,pip3,uv,rg,rgp,ruff,black".

Section Executor.
Variable int : string -> option Z.
Variable shlex_split : string -> option (list string).
Variable os_exec : list string -> Z -> proc_result.

(** [ShellExecutor.__init__] *)
Definition __init__ (environ : gmap string string)
    (allowed_commands : option (list string)) (timeout_seconds : option Z)
  : outcome ShellExecutor :=
  let allowed_env := getenv environ "ALLOWED_COMMANDS" default_allowed_env in
  let source :=
    match allowed_commands with
    | Some (c :: cs) => c :: cs
    | _ => PyStr.split "," allowed_env
    end in
  let allowed :=
    map PyStr.strip (filter (fun c => PyStr.truthy (PyStr.strip c)) source) in
  let from_env :=
    match int (getenv environ "COMMAND_TIMEOUT_SECONDS" "30") with
    | Some t => Return {| allowed_commands := allowed; timeout_seconds := t |}
    | None => Raise ValueError
    end in
  match timeout_seconds with
  | Some t =>
      if t =? 0 then from_env
      else Return {| allowed_commands := allowed; timeout_seconds := t |}
  | None => from_env
  end.

(** [ShellExecutor._is_allowed] *)
Definition _is_allowed (self : ShellExecutor) (command : string) : bool :=
  match shlex_split command with
  | None => false
  | Some [] => false
  | Some (part0 :: _) =>
      let base := PyStr.basename part0 in
      bool_decide (base ∈ allowed_commands self)
  end.

(** The [str] a text-mode pipe makes of the bytes read from it: decoded
    in the locale's encoding, errors strict, with universal newlines. *)
Definition text_of (data : string) : option string :=
  option_map PyStr.translate_newlines (PyStr.decode data).

(** The longest wait, in whole seconds, that [poll] takes: its argument is
    a C [int] of milliseconds. *)
Definition poll_max_seconds : Z := 2147483.

(** The least [int] that does not convert to a [float]. *)
Definition float_overflow : Z := 2 ^ 1024 - 2 ^ 970.

(** The timeouts that [Popen.communicate] cannot wait for: the deadline
    [time() + timeout] is not a float, or the wait does not fit [poll]. *)
Definition timeout_overflows (timeout : Z) : bool :=
  (poll_max_seconds <? timeout) || (timeout <=? - float_overflow).

(** [subprocess.run(args, check=True, text=True, capture_output=True,
    timeout=t)], [t] an [int].  An argument with a NUL byte is refused with
    [ValueError] before any child is started.  Once the child is started,
    a timeout out of range raises [OverflowError], and with a timeout that
    is not positive the deadline has passed before anything is read.
    What the child wrote is decoded when it has ended, standard output
    first, before its exit code is looked at; a child killed at the
    timeout is reported without decoding. *)
Definition subprocess_run (args : list string) (timeout : Z) : outcome string :=
  if existsb PyStr.has_nul args then Raise ValueError
  else
    match os_exec args timeout with
    | NotStarted => Raise OSError
    | Expired =>
        if timeout_overflows timeout then Raise OverflowError
        else Raise TimeoutExpired
    | Exited returncode out err =>
        if timeout_overflows timeout then Raise OverflowError
        else if timeout <=? 0 then Raise TimeoutExpired
        else
          match text_of out, text_of err with
          | Some stdout, Some stderr =>
              if returncode =? 0 then Return stdout
              else Raise (CalledProcessError returncode stdout stderr)
          | _, _ => Raise UnicodeDecodeError
          end
    end.

(** [ShellExecutor.run].  The second component lists the argument vectors
    handed to [subprocess.run], in call order. *)
Definition run (self : ShellExecutor) (command : string)
  : outcome string * list (list string) :=
  if negb (_is_allowed self command) then (Return denied_message, [])
  else
    match shlex_split command with
    | None => (Raise ValueError, [])
    | Some args =>
        match subprocess_run args (timeout_seconds self) with
        | Return stdout => (Return (PyStr.strip stdout), [args])
        | Raise TimeoutExpired => (Return timeout_message, [args])
        | Raise (CalledProcessError _ _ stderr) =>
            (Return (error_prefix ++ PyStr.strip stderr), [args])
        | Raise e => (Raise e, [args])
        end
    end.

End Executor.

End TaskEngine.

(** ** [core/llm_orchestrator.py] *)

Module LlmOrchestrator.

Section Ollama.
(** Results of [_invoke_http] and [_invoke_cli] for a model name and a
    prompt; both catch every exception themselves. *)
Variable _invoke_http : string -> string -> option string.
Variable _invoke_cli : string -> string -> string.

(** [OllamaModel.invoke] *)
Definition invoke (model_name prompt : string) : string :=
  match _invoke_http model_name prompt with
  | None => _invoke_cli model_name prompt
  | Some result =>
      if PyStr.startswith result "❌" then _invoke_cli model_name prompt
      else result
  end.

(** Whether [invoke] goes on to [_invoke_cli]. *)
Definition falls_back (model_name prompt : string) : bool :=
  match _invoke_http model_name prompt with
  | None => true
  | Some result => PyStr.startswith result "❌"
  end.
End Ollama.

End LlmOrchestrator.

(** ** [core/llm_orchestrator.py]: the command-line fallback *)

Module OllamaCli.

Import TaskEngine.

Definition cli_error_prefix : string := "❌ Ollama CLI error: ".

(** The argument vector of [_invoke_cli]: the prompt is pasted between
    double quotes into the command line that [bash -lc] interprets. *)
Definition cli_argv (model_name prompt : string) : list string :=
  ["bash"; "-lc";
   "printf %s " ++ String "034" prompt ++ String "034" " | ollama run " ++ model_name].

Section Cli.
Variable os_exec : list string -> Z -> proc_result.
(** [str(exc)] *)
Variable exc_str : exn -> string.

(** [OllamaModel._invoke_cli] *)
Definition _invoke_cli (model_name prompt : string) : string :=
  match subprocess_run os_exec (cli_argv model_name prompt) 120 with
  | Return stdout => PyStr.strip stdout
  | Raise (CalledProcessError _ _ stderr) => cli_error_prefix ++ PyStr.strip stderr
  | Raise e => cli_error_prefix ++ exc_str e
  end.
End Cli.

End OllamaCli.

(** ** [memory/semantic_store.py] *)

Module SemanticStore.

Record MemoryEntry : Type := {
  content : string;
  metadata : string;
  created_at : string
}.

Record Task : Type := {
  id : Z;
  title : string;
  description : string;
  status : string;
  priority : Z;
  task_created_at : string;
  updated_at : option string
}.

(** The SQLite file: the rows of [memory_fts] and of [tasks] in insertion
    order, and the AUTOINCREMENT counter of [tasks] ([sqlite_sequence]).
    A database without the tables is the one with no rows. *)
Record DB : Type := {
  memory_fts : list MemoryEntry;
  tasks : list Task;
  sqlite_sequence : Z
}.

Definition empty_db : DB :=
  {| memory_fts := []; tasks := []; sqlite_sequence := 0 |}.

Definition int64_max : Z := 9223372036854775807.
Definition int64_min : Z := -9223372036854775808.

(** An [int] parameter binds to an SQLite INTEGER only in the 64-bit range. *)
Definition fits_int64 (n : Z) : bool := (int64_min <=? n) && (n <=? int64_max).

(** [CREATE ... IF NOT EXISTS]: existing tables and rows are kept. *)
Definition ensure_schema (db : DB) : DB := db.

Definition max_rowid (rows : list Task) : Z :=
  fold_right (fun t m => Z.max (id t) m) 0 rows.

(** [add_task(title, description, priority)], at UTC time [utcnow]. *)
Definition add_task (db : DB) (title description : string) (priority : Z)
    (utcnow : string) : outcome Z * DB :=
  let db := ensure_schema db in
  if negb (fits_int64 priority) then (Raise OverflowError, db)
  else
    let last := Z.max (sqlite_sequence db) (max_rowid (tasks db)) in
    if int64_max <=? last then (Raise OperationalError, db)
    else
      let rowid := last + 1 in
      let row := {| id := rowid; title := title; description := description;
                    status := "queued"; priority := priority;
                    task_created_at := utcnow; updated_at := None |} in
      (Return rowid,
       {| memory_fts := memory_fts db;
          tasks := tasks db ++ [row];
          sqlite_sequence := rowid |}).

(** [ORDER BY priority ASC, id ASC] *)
Definition order_leb (a b : Task) : bool :=
  (priority a <? priority b) ||
  ((priority a =? priority b) && (id a <=? id b)).

Definition ordered (a b : Task) : Prop :=
  priority a < priority b \/ (priority a = priority b /\ id a <= id b).

Fixpoint insert_row (t : Task) (rows : list Task) : list Task :=
  match rows with
  | [] => [t]
  | r :: rows' =>
      if order_leb t r then t :: r :: rows' else r :: insert_row t rows'
  end.

Definition order_by (rows : list Task) : list Task :=
  fold_right insert_row [] rows.

(** [list_tasks(status)] *)
Definition list_tasks (db : DB) (status_filter : option string) : list Task :=
  let db := ensure_schema db in
  if PyStr.truthy_opt status_filter then
    order_by (filter (fun t => String.eqb (status t) (default "" status_filter))
                (tasks db))
  else order_by (tasks db).

Definition set_status (new_status utcnow : string) (t : Task) : Task :=
  {| id := id t; title := title t; description := description t;
     status := new_status; priority := priority t;
     task_created_at := task_created_at t; updated_at := Some utcnow |}.

(** [update_task_status(task_id, status)], at UTC time [utcnow]:
    [UPDATE tasks SET status=?, updated_at=? WHERE id=?]. *)
Definition update_task_status (db : DB) (task_id : Z) (new_status utcnow : string)
  : outcome unit * DB :=
  let db := ensure_schema db in
  if negb (fits_int64 task_id) then (Raise OverflowError, db)
  else
    (Return tt,
     {| memory_fts := memory_fts db;
        tasks := map (fun t => if id t =? task_id
                               then set_status new_status utcnow t else t)
                   (tasks db);
        sqlite_sequence := sqlite_sequence db |}).

(** [LIMIT ?]: a negative bound is no bound. *)
Definition sql_limit {A : Type} (limit : Z) (rows : list A) : list A :=
  if limit <? 0 then rows else firstn (Z.to_nat limit) rows.

Section Fts.
(** The FTS5 engine: the rows of the table matching a query, best rank
    first; [None] when the query is not valid FTS5 syntax. *)
Variable fts5_match : list MemoryEntry -> string -> option (list MemoryEntry).
(** [str(d)] for a dictionary. *)
Variable dict_str : list (string * string) -> string.

(** [upsert_memory(content, metadata)], at UTC time [utcnow]. *)
Definition upsert_memory (db : DB) (content : string)
    (metadata : option (list (string * string))) (utcnow : string) : DB :=
  let db := ensure_schema db in
  let meta :=
    match metadata with
    | Some (kv :: kvs) =>
        let s := dict_str (kv :: kvs) in
        if PyStr.truthy s then s else "{}"
    | _ => "{}"
    end in
  {| memory_fts := memory_fts db ++
                   [{| content := content; metadata := meta;
                       created_at := utcnow |}];
     tasks := tasks db;
     sqlite_sequence := sqlite_sequence db |}.

(** [search_memory(query, limit)] *)
Definition search_memory (db : DB) (query : string) (limit : Z)
  : outcome (list MemoryEntry) :=
  let db := ensure_schema db in
  if negb (fits_int64 limit) then Raise OverflowError
  else
    match fts5_match (memory_fts db) query with
    | None => Raise OperationalError
    | Some rows => Return (sql_limit limit rows)
    end.
End Fts.

End SemanticStore.

(** ** [agents/lotl.py] and [main.py] *)

Module Main.

Import TaskEngine SemanticStore.

(** *** Request models *)

Record PromptRequest : Type := { prompt : string; model : option string }.
Record ShellRequest : Type := { command : string }.
Record PartnerRequest : Type := { instruction : string }.
Record MemoryQuery : Type := { q : string; limit : option Z }.

(** What a handler sees of an inbound call whose JSON body FastAPI has
    validated against the endpoint's model [B]: the peer address, the two
    optional headers, the raw body bytes and the parsed body. *)
Record Request (B : Type) : Type := {
  client_host : option string;
  x_timestamp : option string;
  x_signature : option string;
  raw_body : string;
  req : B
}.

Arguments client_host {B} _.
Arguments x_timestamp {B} _.
Arguments x_signature {B} _.
Arguments raw_body {B} _.
Arguments req {B} _.

(** The clock readings taken while one request is served: [time.time()]
    in [rate_limit], [time.time()] in [verify_signature], and
    [datetime.utcnow().isoformat()] in the store. *)
Record Clock : Type := {
  admit_time : F64.float;
  verify_time : Q;
  utcnow : string
}.

(** *** Process configuration (module-level constants) *)

Record Config : Type := {
  environ : gmap string string;
  AGENT_SHARED_SECRET : string;
  RATE_LIMIT_RPS : F64.float;
  shell : ShellExecutor
}.

(** *** Mutable state of the process and its surroundings *)

Inductive LogRecord : Type :=
| LogInvoke (model : string) (bytes : nat)
| LogShell (cmd : string).

(** [last_seen] is the limiter's dictionary, from client address to the
    instant of the last admitted call and the tokens then left; [db] is the
    SQLite file; [spawned] lists the argument vectors the process handed to
    [subprocess.run], from the executor and from the command-line fallback
    of the Ollama client; [records] is what [logger.info] was called
    with. *)
Record World : Type := {
  last_seen : gmap string (F64.float * F64.float);
  db : DB;
  spawned : list (list string);
  records : list LogRecord
}.

Definition with_last_seen (m : gmap string (F64.float * F64.float)) (w : World)
  : World :=
  {| last_seen := m; db := db w; spawned := spawned w; records := records w |}.

Definition with_db (d : DB) (w : World) : World :=
  {| last_seen := last_seen w; db := d; spawned := spawned w; records := records w |}.

Definition with_spawned (calls : list (list string)) (w : World) : World :=
  {| last_seen := last_seen w; db := db w;
     spawned := spawned w ++ calls; records := records w |}.

Definition with_record (r : LogRecord) (w : World) : World :=
  {| last_seen := last_seen w; db := db w; spawned := spawned w;
     records := records w ++ [r] |}.

(** *** Computations that read and write the world and may raise *)

Definition M (A : Type) : Type := World -> outcome A * World.

Definition ret {A : Type} (a : A) : M A := fun w => (Return a, w).

Definition bind {A B : Type} (m : M A) (k : A -> M B) : M B :=
  fun w =>
    match m w with
    | (Return a, w') => k a w'
    | (Raise e, w') => (Raise e, w')
    end.

Definition lift {A : Type} (o : outcome A) : M A := fun w => (o, w).

Declare Scope gateway_scope.
Delimit Scope gateway_scope with gateway.
Notation "'let*' x ':=' m 'in' k" := (bind m (fun x => k))
  (at level 10, x name, m at level 100, k at level 200) : gateway_scope.
Notation "m '>>' k" := (bind m (fun _ => k))
  (at level 65, right associativity) : gateway_scope.

(** *** Response bodies *)

Inductive Body : Type :=
| Status (s : string)
| Output (output : string)
| Streaming (url model prompt : string)
| Partner (task_id : Z) (plan : string) (context : list MemoryEntry)
| Tasks (tasks : list Task)
| Results (results : list MemoryEntry).

(** The status line FastAPI sends for a handler's outcome. *)
Definition http_status (o : outcome Body) : Z :=
  match o with
  | Return _ => 200
  | Raise (HTTPException status_code _) => status_code
  | Raise _ => 500
  end.

(** [hmac.compare_digest(a, b)] on two [str]: [TypeError] unless both are
    ASCII. *)
Definition compare_digest (a b : string) : outcome bool :=
  if PyStr.isascii a && PyStr.isascii b then Return (String.eqb a b)
  else Raise TypeError.

Definition newline : string := String "010" "".

(** [s.split(" ")[0]] *)
Definition first_word (s : string) : string := hd "" (PyStr.split " " s).

Definition is_continuation (c : ascii) : bool :=
  let n := N_of_ascii c in ((128 <=? n) && (n <? 192))%N.

(** [s[:n]]: the first [n] code points. *)
Fixpoint take_codepoints (n : nat) (s : string) : string :=
  match s with
  | EmptyString => EmptyString
  | String c s' =>
      if is_continuation c then String c (take_codepoints n s')
      else
        match n with
        | O => EmptyString
        | S n' => String c (take_codepoints n' s')
        end
  end.

(** *** Inbound calls, by route *)

Inductive Call : Type :=
| GET_health
| POST_invoke (r : Request PromptRequest)
| POST_shell (r : Request ShellRequest)
| POST_stream (r : Request PromptRequest)
| POST_partner (r : Request PartnerRequest)
| GET_tasks (r : Request unit)
| POST_memory_search (r : Request MemoryQuery).

(** The routes declared with [_rl = Depends(rate_limit)] whose body starts
    with [verify_signature]. *)
Definition privileged (c : Call) : bool :=
  match c with
  | POST_invoke _ | POST_shell _ | POST_stream _ | POST_partner _ => true
  | _ => false
  end.

Definition peer (c : Call) : option string :=
  match c with
  | GET_health => None
  | POST_invoke r => client_host r
  | POST_shell r => client_host r
  | POST_stream r => client_host r
  | POST_partner r => client_host r
  | GET_tasks r => client_host r
  | POST_memory_search r => client_host r
  end.

Definition timestamp_header (c : Call) : option string :=
  match c with
  | GET_health => None
  | POST_invoke r => x_timestamp r
  | POST_shell r => x_timestamp r
  | POST_stream r => x_timestamp r
  | POST_partner r => x_timestamp r
  | GET_tasks r => x_timestamp r
  | POST_memory_search r => x_timestamp r
  end.

Definition signature_header (c : Call) : option string :=
  match c with
  | GET_health => None
  | POST_invoke r => x_signature r
  | POST_shell r => x_signature r
  | POST_stream r => x_signature r
  | POST_partner r => x_signature r
  | GET_tasks r => x_signature r
  | POST_memory_search r => x_signature r
  end.

Definition body_bytes_of (c : Call) : string :=
  match c with
  | GET_health => ""
  | POST_invoke r => raw_body r
  | POST_shell r => raw_body r
  | POST_stream r => raw_body r
  | POST_partner r => raw_body r
  | GET_tasks r => raw_body r
  | POST_memory_search r => raw_body r
  end.

Section Gateway.
Variable int : string -> option Z.
Variable hmac_sha256_hexdigest : string -> string -> string.
Variable shlex_split : string -> option (list string).
Variable os_exec : list string -> Z -> proc_result.
Variable _invoke_http : string -> string -> option string.
(** [str(exc)] *)
Variable exc_str : exn -> string.
Variable fts5_match : list MemoryEntry -> string -> option (list MemoryEntry).
(** The Redis-backed limiter, present when [REDIS_URL] is set: whether the
    pipeline block of [rate_limit] lets the call pass for a key at an
    instant ([false]: it raises 429; any other failure inside the block is
    swallowed and the call passes).  Its buckets live in the Redis server,
    outside the process. *)
Variable redis_client : option (string -> F64.float -> bool).
Variable cfg : Config.

(** [verify_signature(x_timestamp, x_signature, body_bytes)], with [now]
    the value of [int(time.time())]. *)
Definition verify_signature (now : Z) (x_timestamp x_signature : option string)
    (body_bytes : string) : outcome unit :=
  if negb (PyStr.truthy_opt x_timestamp) || negb (PyStr.truthy_opt x_signature)
  then Raise (HTTPException 401 "missing auth headers")
  else
    let x_timestamp := default "" x_timestamp in
    let x_signature := default "" x_signature in
    match int x_timestamp with
    | None => Raise (HTTPException 401 "invalid timestamp")
    | Some ts =>
        if Z.abs (now - ts) >? 300
        then Raise (HTTPException 401 "stale request")
        else
          let mac := hmac_sha256_hexdigest (AGENT_SHARED_SECRET cfg)
                       (x_timestamp ++ "." ++ body_bytes) in
          match compare_digest mac x_signature with
          | Raise e => Raise e
          | Return true => Return tt
          | Return false => Raise (HTTPException 401 "bad signature")
          end
    end.

(** [rate_limit(request)], with [now] the value of [time.time()]. *)
Definition rate_limit (now : F64.float) (client : option string) : M unit :=
  fun w =>
    if F64.leb (RATE_LIMIT_RPS cfg) F64.zero then (Return tt, w)
    else
      let ip := default "unknown" client in
      match redis_client with
      | Some pipeline =>
          if pipeline ("rl:" ++ ip) now then (Return tt, w)
          else (Raise (HTTPException 429 "rate limit"), w)
      | None =>
          let '(bucket_ts, tokens) :=
            default (now, RATE_LIMIT_RPS cfg) (last_seen w !! ip) in
          let tokens :=
            F64.py_min (RATE_LIMIT_RPS cfg)
              (F64.add tokens (F64.mul (F64.sub now bucket_ts) (RATE_LIMIT_RPS cfg))) in
          if F64.ltb tokens F64.one
          then (Raise (HTTPException 429 "rate limit"), w)
          else (Return tt,
                with_last_seen (<[ip := (now, F64.sub tokens F64.one)]> (last_seen w)) w)
      end.

(** [shell.run(command)] on the process-wide executor. *)
Definition shell_run (command : string) : M string :=
  fun w =>
    let '(o, calls) := run shlex_split os_exec (shell cfg) command in
    (o, with_spawned calls w).

Definition logger_info (r : LogRecord) : M unit :=
  fun w => (Return tt, with_record r w).

(** [OllamaModel(model_name).invoke(prompt)] in the gateway's process: when
    the HTTP call gives nothing usable, [_invoke_cli] hands its [bash]
    command line to [subprocess.run]. *)
Definition llm_invoke (model_name prompt : string) : M string :=
  fun w =>
    (Return (LlmOrchestrator.invoke _invoke_http
               (OllamaCli._invoke_cli os_exec exc_str) model_name prompt),
     with_spawned
       (if LlmOrchestrator.falls_back _invoke_http model_name prompt
        then [OllamaCli.cli_argv model_name prompt] else []) w).

(** [req.model or os.getenv("OLLAMA_MODEL", "llama3")] *)
Definition model_or_default (m : option string) : string :=
  if PyStr.truthy_opt m then default "" m
  else getenv (environ cfg) "OLLAMA_MODEL" "llama3".

Local Open Scope gateway_scope.

(** The part every privileged handler starts with: the dependency
    [_rl = Depends(rate_limit)] is resolved before the handler body runs,
    and the body starts with [verify_signature]. *)
Definition guarded {B : Type} (r : Request B) (clk : Clock) : M unit :=
  rate_limit (admit_time clk) (client_host r) >>
  lift (verify_signature (PyStr.int_of_float (verify_time clk))
          (x_timestamp r) (x_signature r) (raw_body r)).

(** [GET /health] *)
Definition health : M Body := ret (Status "ok").

(** [POST /invoke] *)
Definition invoke (r : Request PromptRequest) (clk : Clock) : M Body :=
  guarded r clk >>
  let model := model_or_default (model (req r)) in
  let* output := llm_invoke model (prompt (req r)) in
  logger_info (LogInvoke model (String.length output)) >>
  ret (Output output).

(** [POST /shell] *)
Definition run_shell (r : Request ShellRequest) (clk : Clock) : M Body :=
  guarded r clk >>
  let* output := shell_run (command (req r)) in
  logger_info (LogShell (if PyStr.truthy (command (req r))
                         then first_word (command (req r)) else "")) >>
  ret (Output output).

(** [POST /stream]: the response streams what the Ollama server sends. *)
Definition stream (r : Request PromptRequest) (clk : Clock) : M Body :=
  guarded r clk >>
  let model := model_or_default (model (req r)) in
  let ollama_url :=
    getenv (environ cfg) "OLLAMA_URL" "http://localhost:11434/api/generate" in
  ret (Streaming ollama_url model (prompt (req r))).

Definition store_add_task (title description : string) (priority : Z)
    (now : string) : M Z :=
  fun w =>
    let '(o, d) := add_task (db w) title description priority now in
    (o, with_db d w).

Definition store_search_memory (query : string) (limit : Z)
  : M (list MemoryEntry) :=
  fun w => (search_memory fts5_match (db w) query limit, w).

(** [LotlOpsDaemon.partner(instruction)].  The daemon object is built
    for the call and dropped after it, and so is what it appends to
    its own [ContextStore]. *)
Definition daemon_partner (instruction now : string) : M Body :=
  let* task_id := store_add_task (take_codepoints 80 instruction) instruction 5 now in
  let* recalls := store_search_memory instruction 3 in
  let context := String.concat newline (map content recalls) in
  let* plan :=
    llm_invoke (getenv (environ cfg) "OLLAMA_MODEL" "llama3")
      ("You are APEX partner. Instruction: " ++ instruction ++ newline ++
       "Relevant context:" ++ newline ++ context ++ newline ++
       "Plan concise next steps as a numbered list.") in
  ret (Partner task_id plan recalls).

(** [POST /partner] *)
Definition partner (r : Request PartnerRequest) (clk : Clock) : M Body :=
  guarded r clk >>
  daemon_partner (instruction (req r)) (utcnow clk).

(** [GET /tasks] *)
Definition tasks (r : Request unit) : M Body :=
  fun w => (Return (Tasks (list_tasks (db w) None)), w).

(** [req.limit or 5] *)
Definition limit_or_5 (l : option Z) : Z :=
  match l with
  | Some n => if n =? 0 then 5 else n
  | None => 5
  end.

(** [POST /memory/search] *)
Definition memory_search (r : Request MemoryQuery) : M Body :=
  let* results := store_search_memory (q (req r)) (limit_or_5 (limit (req r))) in
  ret (Results results).

(** *** The routes *)

(** [@app.get(...)] / [@app.post(...)]: the handler of each route. *)
Definition serve (c : Call) (clk : Clock) : M Body :=
  match c with
  | GET_health => health
  | POST_invoke r => invoke r clk
  | POST_shell r => run_shell r clk
  | POST_stream r => stream r clk
  | POST_partner r => partner r clk
  | GET_tasks r => tasks r
  | POST_memory_search r => memory_search r
  end.

(** [n] calls of [rate_limit] from one client, all at the instant [now]. *)
Fixpoint burst (n : nat) (now : F64.float) (client : option string) (w : World)
  : list (outcome unit) * World :=
  match n with
  | O => ([], w)
  | S n' =>
      let '(o, w1) := rate_limit now client w in
      let '(os, w2) := burst n' now client w1 in
      (o :: os, w2)
  end.

End Gateway.

End Main.

(** ** Concrete services, configuration and requests used in the examples *)

Module Reference.

Import TaskEngine SemanticStore Main.

Definition executor : ShellExecutor :=
  {| allowed_commands := ["git"; "ls"; "cat"; "echo"; "python"; "python3";
                          "pip"; "pip3"; "uv"; "rg"; "rgp"; "ruff"; "black"];
     timeout_seconds := 30 |}.

Definition cfg : Config :=
  {| environ := ∅;
     AGENT_SHARED_SECRET := "change-me";
     RATE_LIMIT_RPS := F64.of_Z 5;
     shell := executor |}.

Definition db_two_tasks : DB :=
  snd (add_task (snd (add_task empty_db "t1" "d1" 1 "2023-11-14T22:13:30"))
         "t2" "d2" 5 "2023-11-14T22:13:31").

Definition db_three_tasks : DB :=
  snd (add_task
         (snd (add_task (snd (add_task empty_db "first" "" 5 "2023-11-14T22:13:30"))
                 "second" "" 5 "2023-11-14T22:13:31"))
         "urgent" "" 1 "2023-11-14T22:13:32").

Definition world0 : World :=
  {| last_seen := ∅; db := empty_db; spawned := []; records := [] |}.

(** A host on which every command prints [hello] and exits with 0. *)
Definition os_hello (args : list string) (timeout : Z) : proc_result :=
  Exited 0 ("hello" ++ newline) "".

(** A host on which every command fails with the given exit code. *)
Definition os_fail (returncode : Z) (stdout stderr : string)
    (args : list string) (timeout : Z) : proc_result :=
  Exited returncode stdout stderr.

Definition no_http (model prompt : string) : option string := None.
Definition cli_echo (model prompt : string) : string := "echo: " ++ prompt.
Definition exc_text (e : exn) : string := "failed".

(** An engine that matches the rows containing the query verbatim. *)
Definition fts_exact (rows : list MemoryEntry) (query : string)
  : option (list MemoryEntry) :=
  Some (filter (fun e => String.eqb (content e) query) rows).

(** The JSON body [{"command": "..."}] as the client sends it. *)
Definition json_command (command : string) : string :=
  "{" ++ String "034" "command" ++ String "034" ": " ++
  String "034" command ++ String "034" "}".

Definition shell_body : string := json_command "echo hello".

(** [hmac.new(b"change-me", b"1700000000." + shell_body, sha256).hexdigest()] *)
Definition shell_signature : string :=
  "0e9f749e753e6a1f1fe3080b2c51a5b4032c6ba1f825e127ef81109d6a2b306d".

Definition signed_shell : Request ShellRequest :=
  {| client_host := Some "10.0.0.1";
     x_timestamp := Some "1700000000";
     x_signature := Some shell_signature;
     raw_body := shell_body;
     req := {| command := "echo hello" |} |}.

Definition unsigned_shell : Request ShellRequest :=
  {| client_host := Some "10.0.0.1";
     x_timestamp := None;
     x_signature := None;
     raw_body := shell_body;
     req := {| command := "echo hello" |} |}.

Definition clock (seconds : Z) : Clock :=
  {| admit_time := F64.of_Z seconds;
     verify_time := inject_Z seconds;
     utcnow := "2023-11-14T22:13:30" |}.

Definition serve_ref (os_exec : list string -> Z -> proc_result) : Call -> Clock -> M Body :=
  serve PyStr.int Sha256.hmac_hexdigest Shlex.split os_exec
    no_http exc_text fts_exact None cfg.

End Reference.

(** ** [memory/context_store.py] *)

Module ContextStore.

(** [ContextStore.remember]: [self.logs.append(entry)] *)
Definition remember (logs : list string) (entry : string) : list string :=
  logs ++ [entry].

(** [l[-5:]] *)
Definition last_five {A : Type} (l : list A) : list A :=
  skipn (List.length l - 5) l.

(** [ContextStore.recall]: [self.logs[-5:]] *)
Definition recall (logs : list string) : list string := last_five logs.

End ContextStore.

(** ** [agents/lotl.py]: the console daemon *)

Module Lotl.

Import TaskEngine SemanticStore.

(** What the console session works on: the daemon's [ContextStore], the
    SQLite file, the argument vectors its executor handed to
    [subprocess.run], and what it printed. *)
Record Console : Type := {
  logs : list string;
  store : DB;
  launched : list (list string);
  printed : list string
}.

Section Daemon.
Variable shlex_split : string -> option (list string).
Variable os_exec : list string -> Z -> proc_result.
Variable _invoke_http : string -> string -> option string.
Variable _invoke_cli : string -> string -> string.
Variable dict_str : list (string * string) -> string.
(** [self.executor] and the model name of [self.llm]. *)
Variable executor : ShellExecutor.
Variable model_name : string.

(** [LotlOpsDaemon.execute(cmd)], at UTC time [utcnow]. *)
Definition execute (cmd utcnow : string) (c : Console) : outcome unit * Console :=
  let '(o, calls) :=
    if PyStr.startswith cmd "!" then
      let prompt := PyStr.strip (PyStr.slice_from 1 cmd) in
      (Return (LlmOrchestrator.invoke _invoke_http _invoke_cli model_name prompt), [])
    else run shlex_split os_exec executor cmd in
  match o with
  | Raise e =>
      (Raise e,
       {| logs := logs c; store := store c;
          launched := launched c ++ calls; printed := printed c |})
  | Return output =>
      (Return tt,
       {| logs := ContextStore.remember (logs c)
                    ("$ " ++ cmd ++ String "010" output);
          store := upsert_memory dict_str (store c) output
                     (Some [("source", "console"); ("cmd", cmd)]) utcnow;
          launched := launched c ++ calls;
          printed := printed c ++ [output] |})
  end.

End Daemon.

End Lotl.

(** ** [core/daemon.py]: what the background jobs remember *)

Module CoreDaemon.

(** [_nightly(memory)] *)
Definition _nightly (logs : list string) : list string :=
  ContextStore.remember logs "[SCHEDULE] nightly consolidation complete".

(** [f.readlines()] on a text stream that reads as [text]: the lines, each
    with its newline, the last one possibly without. *)
Fixpoint readlines_from (cur : string) (text : string) : list string :=
  match text with
  | EmptyString => if PyStr.truthy cur then [PyStr.reverse cur] else []
  | String c rest =>
      if Ascii.eqb c "010" then PyStr.reverse (String c cur) :: readlines_from "" rest
      else readlines_from (String c cur) rest
  end.

Definition readlines (text : string) : list string := readlines_from "" text.

(** [_HistoryHandler.on_modified(event)]: [file] is what the modified path
    reads as, [None] when opening or reading it raises. *)
Definition on_modified (path_label : string) (is_directory : bool)
    (file : option string) (logs : list string) : list string :=
  if is_directory then logs
  else
    match file with
    | None => logs
    | Some text =>
        let tail := ContextStore.last_five (readlines text) in
        ContextStore.remember logs
          ("[HISTORY][" ++ path_label ++ "]" ++ String "010" (String.concat "" tail))
    end.

End CoreDaemon.

(** ** Sequences of calls *)

Module Traces.

Import SemanticStore Main.

(** A call of one of the writing operations of the store. *)
Inductive StoreOp : Type :=
| AddTask (title description : string) (priority : Z) (utcnow : string)
| UpdateTaskStatus (task_id : Z) (status utcnow : string)
| UpsertMemory (content : string) (metadata : option (list (string * string)))
    (utcnow : string).

Definition apply_op (dict_str : list (string * string) -> string)
    (d : DB) (op : StoreOp) : DB :=
  match op with
  | AddTask title description priority utcnow =>
      snd (add_task d title description priority utcnow)
  | UpdateTaskStatus task_id status utcnow =>
      snd (update_task_status d task_id status utcnow)
  | UpsertMemory content metadata utcnow =>
      upsert_memory dict_str d content metadata utcnow
  end.

Definition run_ops (dict_str : list (string * string) -> string)
    (ops : list StoreOp) (d : DB) : DB :=
  fold_left (apply_op dict_str) ops d.

(** The rows of the task table have distinct positive ids, none above the
    AUTOINCREMENT counter. *)
Definition store_ok (d : DB) : Prop :=
  List.NoDup (map id (SemanticStore.tasks d)) /\
  List.Forall (fun t => 0 < id t <= sqlite_sequence d) (SemanticStore.tasks d).

(** Calls of the in-process [rate_limit], each with its instant and its
    client address, in order. *)
Fixpoint admit_all (cfg : Config) (calls : list (F64.float * option string))
    (w : World)
  : list (outcome unit) * World :=
  match calls with
  | [] => ([], w)
  | (now, client) :: calls' =>
      let '(o, w1) := rate_limit None cfg now client w in
      let '(os, w2) := admit_all cfg calls' w1 in
      (o :: os, w2)
  end.

(** The bucket key of a client. *)
Definition bucket_key (client : option string) : string := default "unknown" client.

End Traces.

(** ** More concrete inputs for the examples *)

Module Samples.

Import TaskEngine SemanticStore Main.

Definition dict_text (d : list (string * string)) : string := "{...}".

Definition console0 : Lotl.Console :=
  {| Lotl.logs := []; Lotl.store := empty_db; Lotl.launched := []; Lotl.printed := [] |}.

(** An engine that rejects every query. *)
Definition fts_reject (rows : list MemoryEntry) (query : string)
  : option (list MemoryEntry) := None.

Definition partner_body : string :=
  "{" ++ String "034" "instruction" ++ String "034" ": " ++
  String "034" "tidy logs" ++ String "034" "}".

(** [hmac.new(b"change-me", b"1700000000." + partner_body, sha256).hexdigest()] *)
Definition partner_signature : string :=
  Eval vm_compute in
    Sha256.hmac_hexdigest "change-me" ("1700000000" ++ "." ++ partner_body).

Definition signed_partner : Request PartnerRequest :=
  {| client_host := Some "10.0.0.1";
     x_timestamp := Some "1700000000";
     x_signature := Some partner_signature;
     raw_body := partner_body;
     req := {| instruction := "tidy logs" |} |}.

(** The reference configuration with [RATE_LIMIT_RPS=0.5]. *)
Definition cfg_half : Config :=
  {| environ := ∅;
     AGENT_SHARED_SECRET := "change-me";
     RATE_LIMIT_RPS := S754_finite false 4503599627370496 (-53);
     shell := Reference.executor |}.

(** The reference configuration with [RATE_LIMIT_RPS=18014398509481984],
    which is 2^54. *)
Definition cfg_large : Config :=
  {| environ := ∅;
     AGENT_SHARED_SECRET := "change-me";
     RATE_LIMIT_RPS := F64.of_Z (2 ^ 54);
     shell := Reference.executor |}.

Definition invoke_body : string :=
  "{" ++ String "034" "prompt" ++ String "034" ": " ++
  String "034" "hi" ++ String "034" "}".

(** [hmac.new(b"change-me", b"1700000000." + invoke_body, sha256).hexdigest()] *)
Definition invoke_signature : string :=
  Eval vm_compute in
    Sha256.hmac_hexdigest "change-me" ("1700000000" ++ "." ++ invoke_body).

Definition signed_invoke : Request PromptRequest :=
  {| client_host := Some "10.0.0.1";
     x_timestamp := Some "1700000000";
     x_signature := Some invoke_signature;
     raw_body := invoke_body;
     req := {| prompt := "hi"; model := None |} |}.

(** A host on which no command can be started. *)
Definition os_down (args : list string) (timeout : Z) : proc_result := NotStarted.

(** A database holding seven memory entries that read [hello]. *)
Definition db_hello : DB :=
  Traces.run_ops dict_text
    (repeat (Traces.UpsertMemory "hello" None "2023-11-14T22:13:30") 7) empty_db.

Definition world_hello : World :=
  {| last_seen := ∅; db := db_hello; spawned := []; records := [] |}.

Definition search_hello (limit : option Z) : Request MemoryQuery :=
  {| client_host := Some "10.0.0.1"; x_timestamp := None; x_signature := None;
     raw_body := ""; req := {| q := "hello"; limit := limit |} |}.

End Samples.

(** ** Proof steps *)

(** The two powers of two of binary64, as numerals for [lia]. *)
Ltac pow53 :=
  change (2 ^ 53) with 9007199254740992 in *;
  change (2 ^ 52) with 4503599627370496 in *.

Ltac zlia := pow53; lia.

(* ===================================================================== *)
(** * Part II: properties                                                 *)
(* ===================================================================== *)

Local Open Scope list_scope.

(** ** The reference models against known values *)

Module ModelChecks.

Import TaskEngine Main.

(** FIPS 180-4, the one-block message. *)
Example sha256_abc :
  Sha256.hexdigest "abc"
  = "ba7816bf8f01cfea414140de5dae2223b00361a396177a9cb410ff61f20015ad".
Proof. vm_compute. reflexivity. Qed.

(** FIPS 180-4, the two-block message. *)
Example sha256_two_blocks :
  Sha256.hexdigest "abcdbcdecdefdefgefghfghighijhijkijkljklmklmnlmnomnopnopq"
  = "248d6a61d20638b8e5c026930c3e6039a33ce45964ff2167f6ecedd419db06c1".
Proof. vm_compute. reflexivity. Qed.

(** RFC 4231, test case 2. *)
Example hmac_sha256_rfc4231 :
  Sha256.hmac_hexdigest "Jefe" "what do ya want for nothing?"
  = "5bdcc146bf60754e6a042426089575c75a003f089d2739839dec58b964ec3843".
Proof. vm_compute. reflexivity. Qed.

Example hmac_sha256_shell_request :
  Sha256.hmac_hexdigest "change-me" ("1700000000" ++ "." ++ Reference.shell_body)%string
  = Reference.shell_signature.
Proof. vm_compute. reflexivity. Qed.

Example shlex_quotes :
  Shlex.split "git commit -m 'two words' a\ b"
  = Some ["git"; "commit"; "-m"; "two words"; "a b"].
Proof. reflexivity. Qed.

Example shlex_adjacent_quotes :
  Shlex.split "cat  pre'mid'post  ''" = Some ["cat"; "premidpost"; ""].
Proof. reflexivity. Qed.

Example shlex_no_closing_quotation : Shlex.split "echo 'open" = None.
Proof. reflexivity. Qed.

Example shlex_no_escaped_character : Shlex.split "echo open\" = None.
Proof. reflexivity. Qed.

Example shlex_blank : Shlex.split "   " = Some [].
Proof. reflexivity. Qed.

Example basename_path :
  map PyStr.basename ["/usr/bin/git"; "git"; "bin/"; "./a/b"] = ["git"; "git"; ""; "b"].
Proof. reflexivity. Qed.

Example int_accepts :
  map PyStr.int [" 1700000000 "; "+12"; "-7"; "1_000"; "007"]
  = [Some 1700000000; Some 12; Some (-7); Some 1000; Some 7].
Proof. reflexivity. Qed.

Example int_rejects :
  map PyStr.int [""; "12a"; "1__0"; "_1"; "1_"; "+-1"; "1 2"; "1e3"; "0x10";
                 String "028" "5"]
  = [None; None; None; None; None; None; None; None; None; None].
Proof. reflexivity. Qed.

Example int_skips_wide_whitespace :
  PyStr.int (PyStr.utf8 160 ++ "12" ++ PyStr.utf8 133)%string = Some 12.
Proof. reflexivity. Qed.

Example strip_both_ends :
  PyStr.strip (String "009" " hello world " ++ Main.newline)%string = "hello world".
Proof. reflexivity. Qed.

(** The executor of an empty environment. *)
Example init_default : __init__ PyStr.int ∅ None None = Return Reference.executor.
Proof. reflexivity. Qed.

Example init_from_environment :
  __init__ PyStr.int
    (<["ALLOWED_COMMANDS" := " ls , ,cat"]> (<["COMMAND_TIMEOUT_SECONDS" := "5"]> ∅))
    None None
  = Return {| allowed_commands := ["ls"; "cat"]; timeout_seconds := 5 |}.
Proof. vm_compute. reflexivity. Qed.

Example init_bad_timeout :
  __init__ PyStr.int (<["COMMAND_TIMEOUT_SECONDS" := "soon"]> ∅) None None
  = Raise ValueError.
Proof. vm_compute. reflexivity. Qed.

(** Well-formed: U+10000, U+10FFFF, U+D7FF, U+0800.  Not well-formed: a
    surrogate, a code point above U+10FFFF, two overlong forms, a cut
    sequence. *)
Example valid_utf8_accepts :
  map PyStr.valid_utf8
    [PyStr.utf8 65536; PyStr.utf8 1114111; PyStr.utf8 55295; PyStr.utf8 2048; "abc"]
  = [true; true; true; true; true].
Proof. reflexivity. Qed.

Example valid_utf8_rejects :
  map PyStr.valid_utf8
    [String "237" (String "160" (String "128" ""));
     String "244" (String "144" (String "128" (String "128" "")));
     String "192" (String "128" "");
     String "224" (String "159" (String "191" ""));
     String "226" (String "157" "");
     String "255" ""]
  = [false; false; false; false; false; false].
Proof. reflexivity. Qed.

Example take_codepoints_multibyte :
  take_codepoints 2 "❌ Error" = "❌ ".
Proof. reflexivity. Qed.

End ModelChecks.

(** ** The allowlisted executor *)

Module TaskEngineFacts.

Import TaskEngine.

Section Executor.
Variable shlex_split : string -> option (list string).
Variable os_exec : list string -> Z -> proc_result.

Abbreviation _is_allowed := (TaskEngine._is_allowed shlex_split).
Abbreviation run := (TaskEngine.run shlex_split os_exec).

(** [_is_allowed] holds exactly for a command that tokenizes to a
    non-empty vector whose first token's base name is on the list. *)
Lemma is_allowed_iff (self : ShellExecutor) (command : string) :
  _is_allowed self command = true <->
  exists part0 rest,
    shlex_split command = Some (part0 :: rest) /\
    PyStr.basename part0 ∈ allowed_commands self.
Proof.
  unfold TaskEngine._is_allowed.
  destruct (shlex_split command) as [[|part0 rest]|]; split.
  - discriminate.
  - intros (p & r & H & _). discriminate.
  - intros H. apply bool_decide_eq_true in H. eauto.
  - intros (p & r & H & Hin). injection H as <- <-.
    now apply bool_decide_eq_true.
  - discriminate.
  - intros (p & r & H & _). discriminate.
Qed.

Lemma run_not_allowed (self : ShellExecutor) (command : string) :
  _is_allowed self command = false ->
  run self command = (Return denied_message, []).
Proof. intros H. unfold TaskEngine.run. now rewrite H. Qed.

(** C2.  A command line that does not tokenize, or tokenizes to nothing,
    or whose first token's base name is not literally on the allowlist,
    gets the policy denial, and [subprocess.run] is never called. *)
Theorem run_denied (self : ShellExecutor) (command : string) :
  shlex_split command = None \/
  shlex_split command = Some [] \/
  (exists part0 rest,
      shlex_split command = Some (part0 :: rest) /\
      PyStr.basename part0 ∉ allowed_commands self) ->
  run self command = (Return denied_message, []).
Proof.
  intros H. apply run_not_allowed.
  destruct (TaskEngine._is_allowed shlex_split self command) eqn:A; [|reflexivity].
  apply is_allowed_iff in A as (p & r & Hs & Hin).
  destruct H as [H | [H | (p' & r' & H & Hout)]]; rewrite Hs in H;
    try discriminate.
  injection H as <- <-. contradiction.
Qed.

(** An allowed command is tokenized again and handed to
    [subprocess.run] exactly once. *)
Lemma run_allowed (self : ShellExecutor) (command : string) :
  _is_allowed self command = true ->
  exists args,
    shlex_split command = Some args /\
    run self command =
      (match subprocess_run os_exec args (timeout_seconds self) with
       | Return stdout => Return (PyStr.strip stdout)
       | Raise TimeoutExpired => Return timeout_message
       | Raise (CalledProcessError _ _ stderr) =>
           Return ((error_prefix ++ PyStr.strip stderr)%string)
       | Raise e => Raise e
       end, [args]).
Proof.
  intros A. unfold TaskEngine.run. rewrite A. simpl.
  apply is_allowed_iff in A as (p & r & Hs & _). rewrite Hs.
  exists (p :: r). split; [reflexivity|].
  destruct (subprocess_run os_exec (p :: r) (timeout_seconds self)) as [out|[]];
    reflexivity.
Qed.

(** C3, as the code has it.  For an allowlisted command [run] hands the
    token vector to [subprocess.run] once, and what it then returns or
    raises is settled by the tokens, the configured timeout and what
    becomes of the child.  It returns a string when no token holds a NUL
    byte, the child can be started, the timeout is in range, and either
    the child ends within a positive timeout having written well-formed
    UTF-8 (the stripped standard output on exit code 0, the error
    diagnostic built from the stripped standard error alone on any other
    exit code), or the child is killed at the timeout or the timeout is
    zero or negative (the timeout diagnostic).  It raises [ValueError] for
    a token with a NUL byte, [OSError] when the child cannot be started,
    [OverflowError] when the child is started and the timeout is out of
    range, and [UnicodeDecodeError] when the child has ended within the
    timeout and its standard output or standard error is not well-formed
    UTF-8. *)
Theorem run_allowed_result (self : ShellExecutor) (command : string) :
  _is_allowed self command = true ->
  exists args,
    shlex_split command = Some args /\
    snd (run self command) = [args] /\
    (existsb PyStr.has_nul args = true ->
     fst (run self command) = Raise ValueError) /\
    (existsb PyStr.has_nul args = false ->
     (os_exec args (timeout_seconds self) = NotStarted ->
      fst (run self command) = Raise OSError) /\
     (os_exec args (timeout_seconds self) <> NotStarted ->
      timeout_overflows (timeout_seconds self) = true ->
      fst (run self command) = Raise OverflowError) /\
     (os_exec args (timeout_seconds self) <> NotStarted ->
      timeout_overflows (timeout_seconds self) = false ->
      timeout_seconds self <= 0 ->
      fst (run self command) = Return timeout_message) /\
     (timeout_overflows (timeout_seconds self) = false ->
      os_exec args (timeout_seconds self) = Expired ->
      fst (run self command) = Return timeout_message) /\
     (timeout_overflows (timeout_seconds self) = false ->
      0 < timeout_seconds self ->
      (forall returncode out err stdout stderr,
          os_exec args (timeout_seconds self) = Exited returncode out err ->
          text_of out = Some stdout -> text_of err = Some stderr ->
          fst (run self command) =
            Return (if returncode =? 0 then PyStr.strip stdout
                    else (error_prefix ++ PyStr.strip stderr)%string)) /\
      (forall returncode out err,
          os_exec args (timeout_seconds self) = Exited returncode out err ->
          text_of out = None \/ text_of err = None ->
          fst (run self command) = Raise UnicodeDecodeError))).
Proof.
  intros A. destruct (run_allowed self command A) as (args & Hs & Hr).
  exists args. split; [exact Hs|]. rewrite Hr. cbn [fst snd].
  split; [reflexivity|]. unfold subprocess_run. split.
  - now intros ->.
  - intros ->. split; [now intros ->|]. split; [|split; [|split]].
    + intros Hstarted ->.
      destruct (os_exec args (timeout_seconds self)); [reflexivity|reflexivity|].
      contradiction.
    + intros Hstarted -> Hle.
      destruct (os_exec args (timeout_seconds self)); [|reflexivity|contradiction].
      now replace (timeout_seconds self <=? 0) with true
        by (symmetry; apply Z.leb_le; exact Hle).
    + now intros -> ->.
    + intros -> Hpos.
      replace (timeout_seconds self <=? 0) with false
        by (symmetry; apply Z.leb_gt; exact Hpos).
      split.
      * intros rc out err stdout stderr -> -> ->. now destruct (rc =? 0).
      * intros rc out err -> [-> | ->]; [reflexivity|].
        now destruct (text_of out).
Qed.

End Executor.

(** The allowlist is matched literally: [LS] is not [ls]. *)
Lemma run_denied_witness :
  run Shlex.split Reference.os_hello Reference.executor "LS -la"
  = (Return denied_message, []).
Proof.
  apply run_denied. right. right. exists "LS", ["-la"].
  split; [reflexivity|]. vm_compute.
  intros H. apply list_elem_of_In in H. simpl in H.
  repeat (destruct H as [H|H]; [discriminate H|]). exact H.
Defined.

Example run_unbalanced_quote :
  run Shlex.split Reference.os_hello Reference.executor "echo 'hello"
  = (Return denied_message, []).
Proof. reflexivity. Qed.

Example run_blank_line :
  run Shlex.split Reference.os_hello Reference.executor "   "
  = (Return denied_message, []).
Proof. reflexivity. Qed.

Example run_path_to_allowed :
  run Shlex.split Reference.os_hello Reference.executor "/bin/echo hello"
  = (Return "hello", [["/bin/echo"; "hello"]]).
Proof. reflexivity. Qed.

Lemma run_allowed_result_witness :
  fst (run Shlex.split (Reference.os_fail 2 "partial" "ls: /nope: No such file")
         Reference.executor "ls /nope")
  = Return "❌ Error: ls: /nope: No such file".
Proof.
  destruct (run_allowed_result Shlex.split
              (Reference.os_fail 2 "partial" "ls: /nope: No such file")
              Reference.executor "ls /nope" eq_refl)
    as (args & Hsplit & _ & _ & Hstarted).
  injection Hsplit as <-.
  destruct (Hstarted eq_refl) as (_ & _ & _ & _ & Hended).
  assert (Hpos : 0 < timeout_seconds Reference.executor) by reflexivity.
  destruct (Hended eq_refl Hpos) as (Hexit & _).
  exact (Hexit 2 "partial" "ls: /nope: No such file"
           "partial" "ls: /nope: No such file" eq_refl eq_refl eq_refl).
Defined.

(** C3, as stated, fails.  Two runs of an allowlisted command that exit
    with different nonzero codes and different standard outputs, but the
    same standard error, return the same value: the exit code and the
    standard output are not part of what [run] returns. *)
Lemma run_nonzero_exit_drops_stdout_and_code :
  run Shlex.split (Reference.os_fail 2 "partial listing" "boom")
    Reference.executor "ls /nope"
  = (Return "❌ Error: boom", [["ls"; "/nope"]]) /\
  run Shlex.split (Reference.os_fail 1 "" "boom")
    Reference.executor "ls /nope"
  = (Return "❌ Error: boom", [["ls"; "/nope"]]).
Proof. split; reflexivity. Qed.

(** A command that cannot be started: the [OSError] of [subprocess.run]
    is not caught by [run]. *)
Example run_not_started :
  run Shlex.split (fun _ _ => NotStarted) Reference.executor "rgp pattern"
  = (Raise OSError, [["rgp"; "pattern"]]).
Proof. reflexivity. Qed.

(** [cat] of a file whose first byte is 0xff: the decoding error of
    [subprocess.run] is not caught by [run] either. *)
Example run_undecodable_output :
  run Shlex.split (Reference.os_fail 0 (String "255" "ELF") "")
    Reference.executor "cat /bin/true"
  = (Raise UnicodeDecodeError, [["cat"; "/bin/true"]]).
Proof. reflexivity. Qed.

(** A token with a NUL byte. *)
Example run_nul_argument :
  run Shlex.split Reference.os_hello Reference.executor
    ("echo a" ++ String "000" "b")%string
  = (Raise ValueError, [["echo"; String "a" (String "000" "b")]]).
Proof. reflexivity. Qed.

(** [COMMAND_TIMEOUT_SECONDS=2147484]: a wait that [poll] does not take. *)
Example run_timeout_out_of_range :
  run Shlex.split Reference.os_hello
    {| allowed_commands := ["echo"]; timeout_seconds := 2147484 |} "echo hello"
  = (Raise OverflowError, [["echo"; "hello"]]).
Proof. reflexivity. Qed.

(** [COMMAND_TIMEOUT_SECONDS=-1]: every command times out. *)
Example run_timeout_negative :
  run Shlex.split Reference.os_hello
    {| allowed_commands := ["echo"]; timeout_seconds := -1 |} "echo hello"
  = (Return timeout_message, [["echo"; "hello"]]).
Proof. reflexivity. Qed.

(** Text mode: carriage returns read as newlines. *)
Example run_universal_newlines :
  run Shlex.split
    (Reference.os_fail 0 ("a" ++ String "013" (String "010" ("b" ++ String "013" "c"))) "")
    Reference.executor "cat notes"
  = (Return ("a" ++ String "010" ("b" ++ String "010" "c"))%string,
     [["cat"; "notes"]]).
Proof. reflexivity. Qed.

End TaskEngineFacts.

(** ** The task table *)

Module SemanticStoreFacts.

Import SemanticStore.

(** *** [ORDER BY priority ASC, id ASC] *)

Lemma order_leb_ordered (a b : Task) : order_leb a b = true <-> ordered a b.
Proof. unfold order_leb, ordered. lia. Qed.

Lemma order_leb_total (a b : Task) : order_leb a b = false -> ordered b a.
Proof. unfold order_leb, ordered. lia. Qed.

Lemma ordered_trans (a b c : Task) : ordered a b -> ordered b c -> ordered a c.
Proof. unfold ordered. lia. Qed.

Lemma insert_row_perm (t : Task) (rows : list Task) :
  Permutation (insert_row t rows) (t :: rows).
Proof.
  induction rows as [|r rows IH]; simpl.
  - reflexivity.
  - destruct (order_leb t r).
    + reflexivity.
    + rewrite IH. apply perm_swap.
Qed.

Lemma insert_row_hd (t r : Task) (rows : list Task) :
  ordered r t -> HdRel ordered r rows -> HdRel ordered r (insert_row t rows).
Proof.
  intros Hrt Hhd. destruct rows as [|r' rows]; simpl.
  - now constructor.
  - destruct (order_leb t r'); constructor; [assumption|].
    now inversion Hhd.
Qed.

Lemma insert_row_sorted (t : Task) (rows : list Task) :
  Sorted ordered rows -> Sorted ordered (insert_row t rows).
Proof.
  induction 1 as [|r rows Hs IH Hhd]; simpl.
  - repeat constructor.
  - destruct (order_leb t r) eqn:E.
    + constructor; [now constructor|].
      constructor. now apply order_leb_ordered.
    + constructor; [exact IH|].
      apply insert_row_hd; [|exact Hhd]. now apply order_leb_total.
Qed.

Lemma order_by_perm (rows : list Task) : Permutation (order_by rows) rows.
Proof.
  induction rows as [|r rows IH]; simpl.
  - reflexivity.
  - rewrite insert_row_perm. now constructor.
Qed.

Lemma order_by_sorted (rows : list Task) : StronglySorted ordered (order_by rows).
Proof.
  apply Sorted_StronglySorted.
  - intros a b c. apply ordered_trans.
  - induction rows as [|r rows IH]; simpl.
    + constructor.
    + now apply insert_row_sorted.
Qed.

Lemma sorted_suffix (l1 l2 : list Task) :
  StronglySorted ordered (l1 ++ l2) -> StronglySorted ordered l2.
Proof.
  induction l1 as [|x l1 IH]; simpl; [trivial|].
  intros H. inversion H; subst. now apply IH.
Qed.

(** In a sorted list, an element strictly greater in the order stands
    later. *)
Lemma sorted_before (l : list Task) (a b : Task) :
  StronglySorted ordered l -> In a l -> In b l -> ~ ordered b a ->
  exists l1 l2 l3, l = (l1 ++ a :: l2 ++ b :: l3)%list.
Proof.
  intros Hs Ha Hb Hnot.
  destruct (in_split _ _ Ha) as (l1 & l2 & ->).
  apply in_app_or in Hb. destruct Hb as [Hb | [Hb | Hb]].
  - exfalso. destruct (in_split _ _ Hb) as (m1 & m2 & ->).
    rewrite <- app_assoc in Hs. simpl in Hs.
    apply sorted_suffix in Hs.
    inversion Hs as [|? ? _ Hall]; subst.
    rewrite List.Forall_forall in Hall. apply Hnot, Hall.
    apply in_or_app. right. now left.
  - subst b. exfalso. apply Hnot. unfold ordered. lia.
  - destruct (in_split _ _ Hb) as (m1 & m2 & ->).
    now exists l1, m1, m2.
Qed.

(** *** [add_task] *)

Lemma max_rowid_bound (rows : list Task) (t : Task) :
  In t rows -> id t <= max_rowid rows.
Proof.
  induction rows as [|r rows IH]; simpl; [contradiction|].
  intros [<- | H]; [lia|]. specialize (IH H). lia.
Qed.

Lemma add_task_inv (d : DB) (title description : string) (priority : Z)
    (now : string) (i : Z) (d' : DB) :
  add_task d title description priority now = (Return i, d') ->
  Z.max (sqlite_sequence d) (max_rowid (tasks d)) < i /\
  tasks d' = tasks d ++
    [{| id := i; title := title; description := description;
        status := "queued"; priority := priority;
        task_created_at := now; updated_at := None |}] /\
  memory_fts d' = memory_fts d /\
  sqlite_sequence d' = i.
Proof.
  unfold add_task, ensure_schema.
  destruct (negb (fits_int64 priority)); [discriminate|].
  destruct (int64_max <=? _); [discriminate|].
  intros H. injection H as <- <-. simpl. repeat split; lia.
Qed.

(** *** [update_task_status] *)

Lemma map_update_absent (task_id : Z) (f : Task -> Task) (rows : list Task) :
  (forall t, In t rows -> id t <> task_id) ->
  map (fun t => if id t =? task_id then f t else t) rows = rows.
Proof.
  induction rows as [|r rows IH]; simpl; intros H; [reflexivity|].
  rewrite IH by (intros t Ht; apply H; now right).
  destruct (Z.eqb_spec (id r) task_id) as [E|E]; [|reflexivity].
  exfalso. apply (H r); [now left|exact E].
Qed.

Lemma map_lookup (f : Task -> Task) (rows : list Task) (i : nat) (t : Task) :
  rows !! i = Some t -> map f rows !! i = Some (f t).
Proof.
  revert i. induction rows as [|r rows IH]; intros [|i]; simpl; try discriminate.
  - now intros [= ->].
  - apply IH.
Qed.

(** *** The order of the result does not depend on how the rows are sorted *)

Lemma ordered_refl (a : Task) : ordered a a.
Proof. unfold ordered. lia. Qed.

Lemma same_id_same_row (rows : list Task) (a b : Task) :
  List.NoDup (map id rows) -> In a rows -> In b rows -> id a = id b -> a = b.
Proof.
  induction rows as [|r rows IH]; simpl; [contradiction|].
  intros Hnd Ha Hb E. inversion Hnd as [|? ? Hnot Hnd']; subst.
  destruct Ha as [<- | Ha], Hb as [<- | Hb].
  - reflexivity.
  - exfalso. apply Hnot. rewrite E. now apply in_map.
  - exfalso. apply Hnot. rewrite <- E. now apply in_map.
  - now apply IH.
Qed.

(** Two sorted listings of the same rows, whose ids are distinct, are
    equal. *)
Lemma sorted_listing_unique (l l' : list Task) :
  List.NoDup (map id l) -> Permutation l l' ->
  StronglySorted ordered l -> StronglySorted ordered l' -> l = l'.
Proof.
  revert l'. induction l as [|a l IH]; intros l' Hnd Hp Hs Hs'.
  - now apply Permutation_nil in Hp.
  - destruct l' as [|b l'].
    + apply Permutation_sym, Permutation_nil in Hp. discriminate.
    + assert (Hab : a = b).
      { apply (same_id_same_row (a :: l)); [exact Hnd|now left| |].
        - apply (Permutation_in b (Permutation_sym Hp)). now left.
        - assert (H1 : ordered a b).
          { pose proof (Permutation_in b (Permutation_sym Hp) (or_introl eq_refl)) as [<-|Hb].
            - apply ordered_refl.
            - inversion Hs as [|? ? _ Hall]; subst.
              rewrite List.Forall_forall in Hall. now apply Hall. }
          assert (H2 : ordered b a).
          { pose proof (Permutation_in a Hp (or_introl eq_refl)) as [<-|Ha].
            - apply ordered_refl.
            - inversion Hs' as [|? ? _ Hall]; subst.
              rewrite List.Forall_forall in Hall. now apply Hall. }
          unfold ordered in H1, H2. lia. }
      subst b. f_equal. apply IH.
      * now inversion Hnd.
      * now apply Permutation_cons_inv in Hp.
      * now inversion Hs.
      * now inversion Hs'.
Qed.

(** [add_task] keeps the ids of the table distinct, and
    [update_task_status] keeps them as they are. *)
Lemma add_task_distinct_ids (d : DB) (title description : string) (priority : Z)
    (now : string) (i : Z) (d' : DB) :
  List.NoDup (map id (tasks d)) ->
  add_task d title description priority now = (Return i, d') ->
  List.NoDup (map id (tasks d')).
Proof.
  intros Hnd H. apply add_task_inv in H as (Hlt & -> & _ & _).
  rewrite map_app. simpl. apply List.NoDup_app; [exact Hnd| |].
  - repeat constructor. intros [].
  - intros x Hx [<-|[]].
    apply in_map_iff in Hx as (t & E & Ht).
    pose proof (max_rowid_bound _ _ Ht). lia.
Qed.

Lemma update_task_status_ids (d : DB) (task_id : Z) (new_status now : string) :
  map id (tasks (snd (update_task_status d task_id new_status now)))
  = map id (tasks d).
Proof.
  unfold update_task_status, ensure_schema.
  destruct (negb (fits_int64 task_id)); simpl; [reflexivity|].
  rewrite map_map. apply map_ext. intros t. now destruct (id t =? task_id).
Qed.

(** However the engine sorts, a listing of the table sorted by priority
    and id is the one [list_tasks] returns. *)
Lemma list_tasks_unique (d : DB) (listing : list Task) :
  List.NoDup (map id (tasks d)) ->
  Permutation listing (tasks d) ->
  StronglySorted ordered listing ->
  listing = list_tasks d None.
Proof.
  intros Hnd Hp Hs. symmetry. apply sorted_listing_unique.
  - apply (Permutation_NoDup (l := map id (tasks d))); [|exact Hnd].
    apply Permutation_map, Permutation_sym, order_by_perm.
  - rewrite Hp. apply order_by_perm.
  - apply order_by_sorted.
  - exact Hs.
Qed.

(** C4, as stated, fails.  Updating the status of an id that is not in
    the table raises nothing: the call returns normally (and the table is
    as before). *)
Lemma update_task_status_missing_id_returns :
  update_task_status Reference.db_two_tasks 7 "completed" "2023-11-14T22:20:00"
  = (Return tt, Reference.db_two_tasks).
Proof. reflexivity. Qed.

(** C4, as the code has it.  For every task id that SQLite can bind,
    [update_task_status] returns normally whether or not the id exists and
    whatever the new status is.  When no row has the id, the database is
    unchanged; otherwise every row with that id gets the new status and
    [updated_at], and every other row is kept. *)
Theorem update_task_status_spec (d : DB) (task_id : Z) (new_status now : string) :
  fits_int64 task_id = true ->
  exists d',
    update_task_status d task_id new_status now = (Return tt, d') /\
    ((forall t, In t (tasks d) -> id t <> task_id) -> d' = d) /\
    (forall i t, tasks d !! i = Some t ->
                 tasks d' !! i =
                 Some (if id t =? task_id
                       then {| id := id t; title := title t;
                               description := description t;
                               status := new_status; priority := priority t;
                               task_created_at := task_created_at t;
                               updated_at := Some now |}
                       else t)) /\
    length (tasks d') = length (tasks d) /\
    memory_fts d' = memory_fts d /\
    sqlite_sequence d' = sqlite_sequence d.
Proof.
  intros Hfit. unfold update_task_status, ensure_schema. rewrite Hfit. simpl.
  eexists. split; [reflexivity|]. simpl. repeat split.
  - intros Habs. rewrite map_update_absent by exact Habs. now destruct d.
  - intros i t Hi. now rewrite (map_lookup _ _ _ _ Hi).
  - apply length_map.
Qed.

Lemma update_task_status_spec_witness :
  exists d',
    update_task_status Reference.db_two_tasks 2 "completed" "2023-11-14T22:20:00"
    = (Return tt, d') /\
    map status (tasks d') = ["queued"; "completed"] /\
    map updated_at (tasks d') = [None; Some "2023-11-14T22:20:00"].
Proof.
  destruct (update_task_status_spec Reference.db_two_tasks 2 "completed"
              "2023-11-14T22:20:00" eq_refl) as (d' & Hr & _).
  exists d'. split; [exact Hr|].
  injection Hr as <-. split; reflexivity.
Defined.

(** C9.  [list_tasks] returns the rows (all of them, or those with the
    given status) sorted by priority and then by id; [add_task] gives the
    new row an id above every id in the table; and [t1] added with
    priority 1 is listed before [t2] added after it with priority 5. *)
Theorem list_tasks_ordered :
  (forall d status_filter,
      StronglySorted ordered (list_tasks d status_filter)) /\
  (forall d, Permutation (list_tasks d None) (tasks d)) /\
  (forall d s, s <> "" ->
      Permutation (list_tasks d (Some s))
        (filter (fun t => String.eqb (status t) s) (tasks d))) /\
  (forall d title description priority now i d',
      add_task d title description priority now = (Return i, d') ->
      (forall t, In t (tasks d) -> id t < i) /\
      exists row, tasks d' = tasks d ++ [row] /\ id row = i) /\
  (forall d now1 now2 i1 d1 i2 d2,
      add_task d "t1" "d1" 1 now1 = (Return i1, d1) ->
      add_task d1 "t2" "d2" 5 now2 = (Return i2, d2) ->
      i1 < i2 /\
      exists l1 l2 l3 r1 r2,
        list_tasks d2 None = l1 ++ r1 :: l2 ++ r2 :: l3 /\
        id r1 = i1 /\ title r1 = "t1" /\ priority r1 = 1 /\
        id r2 = i2 /\ title r2 = "t2" /\ priority r2 = 5).
Proof.
  split; [|split; [|split; [|split]]].
  - intros d f. unfold list_tasks. destruct (PyStr.truthy_opt f);
      apply order_by_sorted.
  - intros d. apply order_by_perm.
  - intros d s Hs. unfold list_tasks. simpl.
    destruct s; [contradiction|]. simpl. apply order_by_perm.
  - intros d ti de pr now i d' H.
    apply add_task_inv in H as (Hlt & Htasks & _ & _). split.
    + intros t Ht. pose proof (max_rowid_bound _ _ Ht). lia.
    + eexists. split; [exact Htasks|reflexivity].
  - intros d now1 now2 i1 d1 i2 d2 H1 H2.
    apply add_task_inv in H1 as (Hlt1 & Ht1 & _ & Hs1).
    apply add_task_inv in H2 as (Hlt2 & Ht2 & _ & _).
    split; [lia|].
    set (r1 := {| id := i1; title := "t1"; description := "d1";
                  status := "queued"; priority := 1;
                  task_created_at := now1; updated_at := None |}) in *.
    set (r2 := {| id := i2; title := "t2"; description := "d2";
                  status := "queued"; priority := 5;
                  task_created_at := now2; updated_at := None |}) in *.
    assert (Hin : forall r, In r [r1; r2] -> In r (list_tasks d2 None)).
    { intros r Hr. apply (Permutation_in r (Permutation_sym (order_by_perm (tasks d2)))).
      rewrite Ht2, Ht1, <- app_assoc. apply in_or_app. now right. }
    destruct (sorted_before (list_tasks d2 None) r1 r2) as (l1 & l2 & l3 & E).
    + apply order_by_sorted.
    + apply Hin. now left.
    + apply Hin. right. now left.
    + unfold ordered. simpl. lia.
    + exists l1, l2, l3, r1, r2. now rewrite E.
Qed.

Lemma list_tasks_ordered_witness :
  exists d2,
    snd (add_task (snd (add_task empty_db "t1" "d1" 1 "2023-11-14T22:13:30"))
           "t2" "d2" 5 "2023-11-14T22:13:31") = d2 /\
    exists l1 l2 l3 r1 r2,
      list_tasks d2 None = l1 ++ r1 :: l2 ++ r2 :: l3 /\
      id r1 = 1 /\ title r1 = "t1" /\ priority r1 = 1 /\
      id r2 = 2 /\ title r2 = "t2" /\ priority r2 = 5.
Proof.
  eexists. split; [reflexivity|].
  destruct list_tasks_ordered as (_ & _ & _ & _ & H).
  apply (H empty_db "2023-11-14T22:13:30" "2023-11-14T22:13:31" 1 _ 2 _
           eq_refl eq_refl).
Defined.

(** A later task of higher priority overtakes; equal priorities keep
    insertion order. *)
Example list_tasks_overtake :
  map title (list_tasks Reference.db_three_tasks None) = ["urgent"; "first"; "second"].
Proof. reflexivity. Qed.

End SemanticStoreFacts.

(** ** The signed-request authenticator *)

Module AuthFacts.

Import TaskEngine SemanticStore Main.

Section Verify.
Variable int : string -> option Z.
Variable hmac_sha256_hexdigest : string -> string -> string.
Variable cfg : Config.

(** [int("")] raises [ValueError]. *)
Hypothesis int_empty : int "" = None.

Abbreviation verify := (verify_signature int hmac_sha256_hexdigest cfg).

Abbreviation expected x_timestamp body_bytes :=
  (hmac_sha256_hexdigest (AGENT_SHARED_SECRET cfg)
     (x_timestamp ++ "." ++ body_bytes)%string).

(** A timestamp header that parses is not empty. *)
Lemma parsed_timestamp_truthy (x_timestamp : string) (ts : Z) :
  int x_timestamp = Some ts -> PyStr.truthy x_timestamp = true.
Proof.
  destruct x_timestamp; [|reflexivity].
  rewrite int_empty. discriminate.
Qed.

(** The checks of [verify_signature] that remain, in the order the code
    makes them, for a request whose timestamp header parses and whose
    signature header is present. *)
Lemma verify_signature_present (now ts : Z) (x_timestamp x_signature body : string) :
  int x_timestamp = Some ts ->
  PyStr.truthy x_signature = true ->
  verify now (Some x_timestamp) (Some x_signature) body =
  if Z.abs (now - ts) >? 300
  then Raise (HTTPException 401 "stale request")
  else
    match compare_digest (expected x_timestamp body) x_signature with
    | Raise e => Raise e
    | Return true => Return tt
    | Return false => Raise (HTTPException 401 "bad signature")
    end.
Proof.
  intros Hint Hs. unfold verify_signature. simpl.
  now rewrite (parsed_timestamp_truthy _ _ Hint), Hs, Hint.
Qed.

Lemma compare_digest_ascii (a b : string) :
  PyStr.isascii a = true -> PyStr.isascii b = true ->
  compare_digest a b = Return (String.eqb a b).
Proof. intros Ha Hb. unfold compare_digest. now rewrite Ha, Hb. Qed.

Lemma compare_digest_true (a b : string) :
  compare_digest a b = Return true -> a = b.
Proof.
  unfold compare_digest. destruct (_ && _); [|discriminate].
  intros [= H]. now apply String.eqb_eq.
Qed.

(** C5, as the code has it.  A request that carries a signature header
    and whose timestamp header parses as [ts] is rejected as stale
    exactly when [now] and [ts] are more than 300 seconds apart, in
    either direction; so it is when replayed 301 seconds or more after
    [ts]. *)
Theorem verify_signature_stale (now ts : Z) (x_timestamp x_signature body : string) :
  PyStr.truthy x_signature = true ->
  int x_timestamp = Some ts ->
  (verify now (Some x_timestamp) (Some x_signature) body
   = Raise (HTTPException 401 "stale request")
   <-> Z.abs (now - ts) > 300) /\
  (ts + 301 <= now ->
   verify now (Some x_timestamp) (Some x_signature) body
   = Raise (HTTPException 401 "stale request")) /\
  (now + 301 <= ts ->
   verify now (Some x_timestamp) (Some x_signature) body
   = Raise (HTTPException 401 "stale request")).
Proof.
  intros Hs Hint.
  rewrite (verify_signature_present now ts _ _ body Hint Hs).
  destruct (Z.abs (now - ts) >? 300) eqn:E.
  - apply Z.gtb_lt in E. repeat split; auto; lia.
  - assert (Hle : Z.abs (now - ts) <= 300).
    { rewrite Z.gtb_ltb in E. now apply Z.ltb_ge in E. }
    split; [|split; intros; lia].
    split; [|lia]. intros H. exfalso.
    destruct (compare_digest _ _) as [[]|e] eqn:C; try discriminate.
    unfold compare_digest in C.
    destruct (_ && _); [discriminate|].
    injection C as <-. discriminate.
Qed.

(** C6, as the code has it.  A request that carries a signature header,
    whose timestamp parses and lies within the 300-second window, is
    accepted exactly when its signature header equals the hex digest (a
    string of ASCII characters) of the HMAC, keyed by the shared secret, of
    [timestamp ++ "." ++ body]; an ASCII signature that differs from it is
    answered "bad signature", and so is a signature computed over another
    body whose digest differs. *)
Theorem verify_signature_hmac (now ts : Z) (x_timestamp x_signature body : string) :
  PyStr.truthy x_signature = true ->
  int x_timestamp = Some ts ->
  Z.abs (now - ts) <= 300 ->
  PyStr.isascii (expected x_timestamp body) = true ->
  (verify now (Some x_timestamp) (Some x_signature) body = Return tt
   <-> x_signature = expected x_timestamp body) /\
  (PyStr.isascii x_signature = true ->
   x_signature <> expected x_timestamp body ->
   verify now (Some x_timestamp) (Some x_signature) body
   = Raise (HTTPException 401 "bad signature")) /\
  (forall signed_body,
      x_signature = expected x_timestamp signed_body ->
      PyStr.isascii x_signature = true ->
      expected x_timestamp body <> expected x_timestamp signed_body ->
      verify now (Some x_timestamp) (Some x_signature) body
      = Raise (HTTPException 401 "bad signature")).
Proof.
  intros Hs Hint Hfresh Hhex.
  rewrite (verify_signature_present now ts _ _ body Hint Hs).
  assert (E : (Z.abs (now - ts) >? 300) = false).
  { rewrite Z.gtb_ltb. apply Z.ltb_ge. lia. }
  rewrite E.
  assert (Hbad : PyStr.isascii x_signature = true ->
                 x_signature <> expected x_timestamp body ->
                 match compare_digest (expected x_timestamp body) x_signature with
                 | Raise e => Raise e
                 | Return true => Return tt
                 | Return false => Raise (HTTPException 401 "bad signature")
                 end = Raise (HTTPException 401 "bad signature")).
  { intros Hasc Hne. rewrite compare_digest_ascii by assumption.
    destruct (String.eqb_spec (expected x_timestamp body) x_signature);
      [congruence|reflexivity]. }
  split; [|split].
  - split.
    + destruct (compare_digest _ _) as [[]|] eqn:C; try discriminate.
      intros _. symmetry. now apply compare_digest_true.
    + intros ->. rewrite compare_digest_ascii by assumption.
      now rewrite String.eqb_refl.
  - exact Hbad.
  - intros signed_body Hsig Hasc Hne. apply Hbad; [exact Hasc|]. congruence.
Qed.

End Verify.

(** C5, as stated, fails.  The timestamp parses and is 400 seconds old,
    but the request has no signature header: the answer is "missing auth
    headers", not "stale request". *)
Lemma verify_signature_unsigned_not_stale :
  PyStr.int "1700000000" = Some 1700000000 /\
  Z.abs (1700000400 - 1700000000) > 300 /\
  verify_signature PyStr.int Sha256.hmac_hexdigest Reference.cfg
    1700000400 (Some "1700000000") None Reference.shell_body
  = Raise (HTTPException 401 "missing auth headers").
Proof. repeat split. Qed.

Lemma verify_signature_stale_witness :
  verify_signature PyStr.int Sha256.hmac_hexdigest Reference.cfg
    1700000301 (Some "1700000000") (Some Reference.shell_signature)
    Reference.shell_body
  = Raise (HTTPException 401 "stale request").
Proof.
  destruct (verify_signature_stale PyStr.int Sha256.hmac_hexdigest Reference.cfg
              eq_refl 1700000301 1700000000 "1700000000" Reference.shell_signature
              Reference.shell_body eq_refl eq_refl) as (_ & Hreplay & _).
  apply Hreplay. lia.
Defined.

(** C6, as stated, fails.  The signature is the HMAC of the timestamp and
    the body, yet the request is not accepted: it is 301 seconds old. *)
Lemma verify_signature_valid_hmac_rejected :
  Reference.shell_signature
  = Sha256.hmac_hexdigest "change-me"
      ("1700000000" ++ "." ++ Reference.shell_body)%string /\
  verify_signature PyStr.int Sha256.hmac_hexdigest Reference.cfg
    1700000301 (Some "1700000000") (Some Reference.shell_signature)
    Reference.shell_body
  = Raise (HTTPException 401 "stale request").
Proof. split; vm_compute; reflexivity. Qed.

Lemma verify_signature_hmac_witness :
  verify_signature PyStr.int Sha256.hmac_hexdigest Reference.cfg
    1700000010 (Some "1700000000") (Some Reference.shell_signature)
    Reference.shell_body
  = Return tt.
Proof.
  assert (Hfresh : Z.abs (1700000010 - 1700000000) <= 300) by lia.
  assert (Hhex : PyStr.isascii
                   (Sha256.hmac_hexdigest (AGENT_SHARED_SECRET Reference.cfg)
                      ("1700000000" ++ "." ++ Reference.shell_body)%string) = true)
    by (vm_compute; reflexivity).
  destruct (verify_signature_hmac PyStr.int Sha256.hmac_hexdigest Reference.cfg
              eq_refl 1700000010 1700000000 "1700000000" Reference.shell_signature
              Reference.shell_body eq_refl eq_refl Hfresh Hhex)
    as ((_ & Haccept) & _).
  apply Haccept. vm_compute. reflexivity.
Defined.

(** The same signature over a tampered body. *)
Example verify_signature_tampered_body :
  verify_signature PyStr.int Sha256.hmac_hexdigest Reference.cfg
    1700000010 (Some "1700000000") (Some Reference.shell_signature)
    (Reference.json_command "cat /etc/passwd")
  = Raise (HTTPException 401 "bad signature").
Proof. vm_compute. reflexivity. Qed.

(** A signature header with a byte outside ASCII: [compare_digest]
    raises. *)
Example verify_signature_non_ascii :
  verify_signature PyStr.int Sha256.hmac_hexdigest Reference.cfg
    1700000010 (Some "1700000000") (Some "é") Reference.shell_body
  = Raise TypeError.
Proof. vm_compute. reflexivity. Qed.

End AuthFacts.

(** ** Binary64 arithmetic on whole numbers *)

Module F64Facts.

Abbreviation shl := F64.shl.
Abbreviation dig := F64.dig.
Abbreviation canon := F64.canon.

Lemma digits2_size (p : positive) : digits2_pos p = Pos.size p.
Proof. induction p; simpl; congruence. Qed.

Lemma dig_log2 (p : positive) : dig p = Z.log2 (Zpos p) + 1.
Proof.
  unfold dig. rewrite digits2_size.
  destruct p; simpl; rewrite ?Pos2Z.inj_succ; try reflexivity; lia.
Qed.

Lemma dig_pos (p : positive) : 1 <= dig p.
Proof. unfold dig. lia. Qed.

Lemma dig_bound (p : positive) (k : Z) : 0 <= k -> (dig p <= k <-> Zpos p < 2 ^ k).
Proof.
  intros Hk. rewrite dig_log2.
  rewrite (Z.log2_lt_pow2 (Zpos p) k) by lia. lia.
Qed.

Lemma dig_mono (p q : positive) : (p <= q)%positive -> dig p <= dig q.
Proof.
  intros H. rewrite !dig_log2.
  assert (Z.log2 (Zpos p) <= Z.log2 (Zpos q)) by (apply Z.log2_le_mono; lia).
  lia.
Qed.

Lemma iter_xO_val (p n : positive) : Zpos (Pos.iter xO p n) = Zpos p * 2 ^ Zpos n.
Proof.
  induction n as [|n IH] using Pos.peano_ind.
  - simpl. lia.
  - rewrite Pos.iter_succ, Pos2Z.inj_succ, Z.pow_succ_r by lia.
    rewrite Pos2Z.inj_xO, IH. lia.
Qed.

Lemma shl_val (p : positive) (k : Z) : 0 <= k -> Zpos (shl p k) = Zpos p * 2 ^ k.
Proof.
  intros Hk. destruct k as [|n|n]; simpl; [lia| |lia]. apply iter_xO_val.
Qed.

Lemma shl_shl (p : positive) (a b : Z) :
  0 <= a -> 0 <= b -> shl (shl p a) b = shl p (a + b).
Proof.
  intros Ha Hb. apply Pos2Z.inj.
  rewrite !shl_val by lia. rewrite Z.pow_add_r by lia. lia.
Qed.

Lemma dig_shl (p : positive) (k : Z) : 0 <= k -> dig (shl p k) = dig p + k.
Proof.
  intros Hk. rewrite !dig_log2, shl_val by lia.
  rewrite Z.log2_mul_pow2 by lia. lia.
Qed.

Lemma iter_shr_1 (n m : positive) :
  SpecFloat.iter_pos shr_1 n
    {| shr_m := Zpos (Pos.iter xO m n); shr_r := false; shr_s := false |}
  = {| shr_m := Zpos m; shr_r := false; shr_s := false |}.
Proof.
  revert m. induction n as [n IH|n IH|]; intros m; simpl.
  - now rewrite !IH.
  - now rewrite !IH.
  - reflexivity.
Qed.

(** Rounding a mantissa of 53 bits followed by [t] zero bits is exact. *)
Lemma binary_round_aux_shl (m : positive) (t e : Z) :
  dig m = 53 -> 0 <= t -> -1074 <= e <= 971 ->
  binary_round_aux 53 1024 false (Zpos (shl m t)) (e - t) loc_Exact
  = S754_finite false m e.
Proof.
  intros Hm Ht He. unfold binary_round_aux.
  assert (Hshift : shr_fexp 53 1024 (Zpos (shl m t)) (e - t) loc_Exact
                   = ({| shr_m := Zpos m; shr_r := false; shr_s := false |}, e)).
  { unfold shr_fexp. cbn [Zdigits2 shr_record_of_loc].
    change (Zpos (digits2_pos (shl m t))) with (dig (shl m t)).
    rewrite dig_shl, Hm by lia.
    replace (fexp 53 1024 (53 + t + (e - t)) - (e - t)) with t
      by (unfold fexp, emin; lia).
    destruct t as [|n|n]; simpl; [f_equal; lia| |lia].
    rewrite iter_shr_1. f_equal. lia. }
  rewrite Hshift. cbn [shr_m loc_of_shr_record round_nearest_even].
  assert (Hnone : shr_fexp 53 1024 (Zpos m) e loc_Exact
                  = ({| shr_m := Zpos m; shr_r := false; shr_s := false |}, e)).
  { unfold shr_fexp. cbn [Zdigits2 shr_record_of_loc].
    change (Zpos (digits2_pos m)) with (dig m). rewrite Hm.
    replace (fexp 53 1024 (53 + e) - e) with 0 by (unfold fexp, emin; lia).
    reflexivity. }
  rewrite Hnone. cbn [shr_m].
  replace (e <=? 1024 - 53) with true by (symmetry; apply Z.leb_le; lia).
  reflexivity.
Qed.

(** A mantissa below 2^53 followed by [k] zero bits, at the exponent
    [- k], rounds to the whole number it stands for. *)
Lemma binary_round_shl (p : positive) (k : Z) :
  dig p <= 53 -> 0 <= k -> k <= 1000 ->
  binary_round 53 1024 false (shl p k) (- k) = canon p.
Proof.
  intros Hp Hk Hk'. pose proof (dig_pos p) as Hd. unfold binary_round, canon.
  change (Zpos (digits2_pos (shl p k))) with (dig (shl p k)).
  rewrite dig_shl by lia.
  replace (fexp 53 1024 (dig p + k + - k)) with (dig p - 53)
    by (unfold fexp, emin; lia).
  unfold shl_align.
  destruct (dig p - 53 - - k) as [|c|c] eqn:E.
  - replace (- k) with (dig p - 53 - (dig p + k - 53)) by lia.
    replace (shl p k) with (shl (shl p (53 - dig p)) (dig p + k - 53))
      by (rewrite shl_shl by lia; f_equal; lia).
    apply binary_round_aux_shl; [rewrite dig_shl by lia; lia|lia|lia].
  - replace (- k) with (dig p - 53 - (dig p + k - 53)) by lia.
    replace (shl p k) with (shl (shl p (53 - dig p)) (dig p + k - 53))
      by (rewrite shl_shl by lia; f_equal; lia).
    apply binary_round_aux_shl; [rewrite dig_shl by lia; lia|lia|lia].
  - change (Pos.iter xO (shl p k) c) with (shl (shl p k) (Zpos c)).
    rewrite shl_shl by lia.
    replace (k + Zpos c) with (53 - dig p) by lia.
    pose proof (binary_round_aux_shl (shl p (53 - dig p)) 0 (dig p - 53)) as H.
    rewrite Z.sub_0_r in H. apply H; [rewrite dig_shl by lia; lia|lia|lia].
Qed.

(** An integer below 2^53 is a float. *)
Lemma of_Z_pos (p : positive) : Zpos p < 2 ^ 53 -> F64.of_Z (Zpos p) = canon p.
Proof.
  intros Hp. apply (dig_bound p 53) in Hp; [|zlia].
  exact (binary_round_shl p 0 Hp ltac:(zlia) ltac:(zlia)).
Qed.

Lemma one_canon : F64.one = S754_finite false 4503599627370496 (-52).
Proof. reflexivity. Qed.

(** Taking one from an integer between 1 and 2^53 is exact. *)
Lemma sub_one (j : Z) :
  1 <= j <= 2 ^ 53 -> F64.sub (F64.of_Z j) F64.one = F64.of_Z (j - 1).
Proof.
  intros Hj. destruct (Z.eq_dec j (2 ^ 53)) as [->|Hne]; [vm_compute; reflexivity|].
  destruct (Z.eq_dec j 1) as [->|Hne1]; [vm_compute; reflexivity|].
  destruct j as [|p|p]; try zlia.
  rewrite of_Z_pos by zlia. rewrite one_canon.
  assert (Hp : dig p <= 53) by (apply dig_bound; zlia).
  pose proof (dig_pos p) as Hd.
  unfold F64.sub, SFsub, canon.
  replace (Z.min (dig p - 53) (-52)) with (-52) by zlia.
  assert (Hx : fst (shl_align (shl p (53 - dig p)) (dig p - 53) (-52)) = shl p 52).
  { unfold shl_align. destruct (-52 - (dig p - 53)) as [|c|c] eqn:E; cbn [fst].
    - f_equal. zlia.
    - zlia.
    - change (Pos.iter xO (shl p (53 - dig p)) c) with (shl (shl p (53 - dig p)) (Zpos c)).
      rewrite shl_shl by zlia. f_equal. zlia. }
  rewrite Hx.
  change (fst (shl_align 4503599627370496 (-52) (-52))) with 4503599627370496%positive.
  cbn [cond_Zopp].
  assert (Hdiff : Zpos (shl p 52) - Zpos 4503599627370496 = Zpos (shl (p - 1) 52)).
  { rewrite !shl_val by zlia. rewrite Pos2Z.inj_sub by zlia.
    change (Zpos 4503599627370496) with (2 ^ 52). lia. }
  rewrite Hdiff. cbn [binary_normalize].
  change (-52) with (- 52).
  rewrite binary_round_shl; [|apply dig_bound; zlia|zlia|zlia].
  replace (Zpos p - 1) with (Zpos (p - 1)) by zlia.
  symmetry. apply of_Z_pos. zlia.
Qed.

Lemma ltb_of_Z (j n : Z) :
  0 <= j < n -> n <= 2 ^ 53 -> F64.ltb (F64.of_Z j) (F64.of_Z n) = true.
Proof.
  intros Hj Hn. destruct n as [|q|q]; try zlia.
  assert (Hq : exists m e, F64.of_Z (Zpos q) = S754_finite false m e /\
                           (Zpos q < 2 ^ 53 -> m = shl q (53 - dig q) /\ e = dig q - 53) /\
                           (Zpos q = 2 ^ 53 -> e = 1)).
  { destruct (Z.eq_dec (Zpos q) (2 ^ 53)) as [E|E].
    - injection E as ->. eexists. eexists. split; [vm_compute; reflexivity|].
      split; [zlia|reflexivity].
    - rewrite of_Z_pos by zlia. eexists. eexists. split; [reflexivity|].
      split; [auto|contradiction]. }
  destruct Hq as (m & e & -> & Hsmall & Hbig).
  destruct j as [|p|p]; try zlia; [reflexivity|].
  rewrite of_Z_pos by zlia. unfold canon, F64.ltb, SFltb, SFcompare.
  pose proof (dig_pos p) as Hd.
  assert (Hp : dig p <= 53) by (apply dig_bound; zlia).
  destruct (Z.eq_dec (Zpos q) (2 ^ 53)) as [E|E].
  - rewrite (Hbig E). destruct (Z.compare_spec (dig p - 53) 1); try zlia; reflexivity.
  - destruct Hsmall as [-> ->]; [zlia|].
    assert (Hpq : dig p <= dig q) by (apply dig_mono; zlia).
    destruct (Z.compare_spec (dig p - 53) (dig q - 53)) as [Heq|Hlt|Hgt];
      [|reflexivity|zlia].
    change (Pos.compare_cont Eq ?a ?b) with (Pos.compare a b).
    replace (dig q) with (dig p) by zlia.
    assert (Hlt : (shl p (53 - dig p) < shl q (53 - dig p))%positive).
      { assert (Hz : Zpos (shl p (53 - dig p)) < Zpos (shl q (53 - dig p))).
        { rewrite !shl_val by zlia.
          apply Z.mul_lt_mono_pos_r; [apply Z.pow_pos_nonneg; zlia|zlia]. }
        lia. }
    now rewrite Hlt.
Qed.

Lemma ltb_one (j : Z) : 1 <= j <= 2 ^ 53 -> F64.ltb (F64.of_Z j) F64.one = false.
Proof.
  intros Hj. destruct (Z.eq_dec j (2 ^ 53)) as [->|Hne]; [vm_compute; reflexivity|].
  destruct j as [|p|p]; try zlia.
  rewrite of_Z_pos by zlia. rewrite one_canon.
  unfold canon, F64.ltb, SFltb, SFcompare.
  pose proof (dig_pos p) as Hd.
  destruct (Z.compare_spec (dig p - 53) (-52)) as [Heq|Hlt|Hgt]; [|zlia|reflexivity].
  assert (Hp1 : dig p = 1) by zlia. rewrite Hp1.
  change (Pos.compare_cont Eq ?a ?b) with (Pos.compare a b).
  destruct (Pos.compare_spec (shl p (53 - 1)) 4503599627370496) as [H|H|H];
    try reflexivity.
  exfalso.
  assert (Hz : Zpos (shl p (53 - 1)) < Zpos 4503599627370496) by lia.
  rewrite shl_val in Hz by lia. change (53 - 1) with 52 in Hz.
  change (Zpos 4503599627370496) with (2 ^ 52) in Hz.
  assert (0 < 2 ^ 52) by reflexivity. nia.
Qed.

(** A whole number from 1 to 2^53 is a positive finite float. *)
Lemma of_Z_finite (n : Z) :
  1 <= n <= 2 ^ 53 -> exists m e, F64.of_Z n = S754_finite false m e.
Proof.
  intros Hn. destruct (Z.eq_dec n (2 ^ 53)) as [->|Hne].
  - eexists. eexists. vm_compute. reflexivity.
  - destruct n as [|p|p]; try zlia. rewrite of_Z_pos by zlia.
    eexists. eexists. reflexivity.
Qed.

Lemma sub_self (x : F64.float) : F64.is_finite x = true -> F64.sub x x = F64.zero.
Proof.
  destruct x as [[]|[]| |s m e]; try discriminate; try reflexivity.
  intros _. unfold F64.sub, SFsub.
  rewrite Z.min_id. unfold shl_align. rewrite !Z.sub_diag. reflexivity.
Qed.

(** The refill of a bucket at the instant of its last admitted call. *)
Lemma refill_nothing (n j : Z) (now : F64.float) :
  1 <= n <= 2 ^ 53 -> 0 <= j <= n -> F64.is_finite now = true ->
  F64.py_min (F64.of_Z n)
    (F64.add (F64.of_Z j) (F64.mul (F64.sub now now) (F64.of_Z n)))
  = F64.of_Z j.
Proof.
  intros Hn Hj Hnow. rewrite sub_self by exact Hnow.
  destruct (of_Z_finite n Hn) as (m & e & En).
  assert (Hadd : F64.add (F64.of_Z j) (F64.mul F64.zero (F64.of_Z n)) = F64.of_Z j).
  { rewrite En. change (F64.mul F64.zero (S754_finite false m e)) with F64.zero.
    destruct (Z.eq_dec j 0) as [->|Hj0]; [reflexivity|].
    destruct (of_Z_finite j ltac:(lia)) as (mj & ej & ->). reflexivity. }
  rewrite Hadd. unfold F64.py_min.
  destruct (Z.eq_dec j n) as [->|Hne].
  - now destruct (F64.ltb _ _).
  - now rewrite ltb_of_Z by lia.
Qed.

Lemma leb_zero (n : Z) : 1 <= n <= 2 ^ 53 -> F64.leb (F64.of_Z n) F64.zero = false.
Proof. intros Hn. destruct (of_Z_finite n Hn) as (m & e & ->). reflexivity. Qed.

(** [<] on floats is transitive. *)
Lemma ltb_trans (x y z : F64.float) :
  F64.ltb x y = true -> F64.ltb y z = true -> F64.ltb x z = true.
Proof.
  unfold F64.ltb, SFltb.
  destruct x as [sx|sx| |sx mx ex], y as [sy|sy| |sy my ey], z as [sz|sz| |sz mz ez];
    cbn [SFcompare]; try discriminate; try reflexivity;
    repeat match goal with s : bool |- _ => destruct s end;
    try discriminate; try reflexivity.
  - change (Pos.compare_cont Eq ?a ?b) with (Pos.compare a b).
    destruct (Z.compare_spec ex ey), (Z.compare_spec ey ez), (Z.compare_spec ex ez);
      try discriminate; try reflexivity; try lia; subst.
    destruct (Pos.compare_spec mx my), (Pos.compare_spec my mz), (Pos.compare_spec mx mz);
      try discriminate; try reflexivity; lia.
  - change (Pos.compare_cont Eq ?a ?b) with (Pos.compare a b).
    destruct (Z.compare_spec ex ey), (Z.compare_spec ey ez), (Z.compare_spec ex ez);
      try discriminate; try reflexivity; try lia; subst.
    destruct (Pos.compare_spec mx my), (Pos.compare_spec my mz), (Pos.compare_spec mx mz);
      try discriminate; try reflexivity; lia.
Qed.

Lemma ltb_zero_leb (r : F64.float) :
  F64.ltb F64.zero r = true -> F64.leb r F64.zero = false.
Proof. destruct r as [[]|[]| |[] m e]; try discriminate; reflexivity. Qed.

End F64Facts.

(** ** The rate limiter *)

Module RateLimitFacts.

Import TaskEngine SemanticStore Main.

Section Limiter.
Variable cfg : Config.

Abbreviation rps := (RATE_LIMIT_RPS cfg).
Abbreviation rate_limit := (Main.rate_limit None cfg).
Abbreviation burst := (Main.burst None cfg).
Abbreviation too_many := (HTTPException 429 "rate limit").

(** The bucket a call finds: the stored one, or a full one stamped with
    the present instant. *)
Abbreviation bucket now client w :=
  (default (now, rps) (last_seen w !! default "unknown" client)).

Abbreviation refill now bucket :=
  (F64.py_min rps
     (F64.add (snd bucket) (F64.mul (F64.sub now (fst bucket)) rps))).

(** One call of the in-process limiter, when limiting is on. *)
Lemma rate_limit_step (now : F64.float) (client : option string) (w : World) :
  F64.leb rps F64.zero = false ->
  rate_limit now client w =
  if F64.ltb (refill now (bucket now client w)) F64.one
  then (Raise too_many, w)
  else (Return tt,
        with_last_seen
          (<[default "unknown" client :=
               (now, F64.sub (refill now (bucket now client w)) F64.one)]>
             (last_seen w)) w).
Proof.
  intros Hon. unfold Main.rate_limit. rewrite Hon.
  now destruct (default (now, rps) (last_seen w !! default "unknown" client)).
Qed.

(** A call leaves the world alone when it raises, and raises nothing
    but 429. *)
Lemma rate_limit_raise (now : F64.float) (client : option string) (w w' : World)
    (e : exn) :
  rate_limit now client w = (Raise e, w') -> w' = w /\ e = too_many.
Proof.
  unfold Main.rate_limit. destruct (F64.leb rps F64.zero); [discriminate|].
  destruct (default (now, rps) _) as [ts tok].
  destruct (F64.ltb _ _); [|discriminate].
  intros [= <- <-]. auto.
Qed.

(** An admitted call stores the refilled count less one, stamped with
    the present instant. *)
Lemma rate_limit_admit (now : F64.float) (client : option string) (w w' : World) :
  F64.leb rps F64.zero = false ->
  rate_limit now client w = (Return tt, w') ->
  F64.ltb (refill now (bucket now client w)) F64.one = false /\
  last_seen w' !! default "unknown" client
  = Some (now, F64.sub (refill now (bucket now client w)) F64.one) /\
  (forall other, other <> default "unknown" client ->
                 last_seen w' !! other = last_seen w !! other) /\
  db w' = db w /\ spawned w' = spawned w /\ records w' = records w.
Proof.
  intros Hon. rewrite rate_limit_step by exact Hon.
  destruct (F64.ltb _ _) eqn:E; [discriminate|].
  intros [= <-]. simpl.
  repeat split; [apply lookup_insert_eq|].
  intros other Hne. now apply lookup_insert_ne.
Qed.

Lemma burst_app (a b : nat) (now : F64.float) (client : option string) (w : World) :
  burst (a + b) now client w
  = (fst (burst a now client w)
       ++ fst (burst b now client (snd (burst a now client w))),
     snd (burst b now client (snd (burst a now client w)))).
Proof.
  revert w. induction a as [|a IH]; intros w; simpl.
  - now destruct (burst b now client w).
  - destruct (Main.rate_limit None cfg now client w) as [o w1].
    rewrite IH. destruct (burst a now client w1) as [os w2]. reflexivity.
Qed.

Section Whole.
(** The capacity is the whole number [R], and the calls are made at one
    instant. *)
Variable R : Z.
Variable now : F64.float.
Hypothesis R_range : 1 <= R <= 2 ^ 53.
Hypothesis rps_R : rps = F64.of_Z R.
Hypothesis now_finite : F64.is_finite now = true.

Lemma limiting_on : F64.leb rps F64.zero = false.
Proof. rewrite rps_R. now apply F64Facts.leb_zero. Qed.

(** A call that finds [j] whole tokens, stamped with its own instant:
    admitted, leaving [j - 1], when there is one; refused otherwise. *)
Lemma rate_limit_whole (j : Z) (client : option string) (w : World) :
  0 <= j <= R ->
  bucket now client w = (now, F64.of_Z j) ->
  rate_limit now client w =
  if 1 <=? j
  then (Return tt,
        with_last_seen
          (<[default "unknown" client := (now, F64.of_Z (j - 1))]> (last_seen w)) w)
  else (Raise too_many, w).
Proof.
  intros Hj Hb. rewrite rate_limit_step by exact limiting_on.
  rewrite Hb. cbn [fst snd]. rewrite rps_R.
  rewrite F64Facts.refill_nothing by (exact R_range || exact Hj || exact now_finite).
  destruct (Z.leb_spec 1 j) as [H1|H1].
  - rewrite F64Facts.ltb_one by (pow53; lia).
    rewrite F64Facts.sub_one by (pow53; lia). reflexivity.
  - replace j with 0 by lia. reflexivity.
Qed.

(** With no whole token left and no time passing every call is refused. *)
Lemma burst_empty (k : nat) (client : option string) (w : World) :
  bucket now client w = (now, F64.of_Z 0) ->
  burst k now client w = (repeat (Raise too_many) k, w).
Proof.
  intros Hb. induction k as [|k IH]; [reflexivity|].
  simpl. rewrite (rate_limit_whole 0 client w) by (lia || exact Hb).
  cbn [Z.leb Z.compare]. now rewrite IH.
Qed.

(** With [j] whole tokens in the bucket the next [m <= j] calls are
    admitted and leave [j - m]. *)
Lemma burst_admitted (m : nat) (j : Z) (client : option string) (w : World) :
  Z.of_nat m <= j <= R ->
  bucket now client w = (now, F64.of_Z j) ->
  fst (burst m now client w) = repeat (Return tt) m /\
  bucket now client (snd (burst m now client w)) = (now, F64.of_Z (j - Z.of_nat m)).
Proof.
  revert j w. induction m as [|m IH]; intros j w Hj Hb.
  - simpl. rewrite Z.sub_0_r. now split.
  - simpl. rewrite (rate_limit_whole j client w) by (lia || exact Hb).
    replace (1 <=? j) with true by (symmetry; apply Z.leb_le; lia).
    match goal with
    | |- context [burst m now client ?w1] =>
        destruct (IH (j - 1) w1) as (Hos & Hb');
        [lia|simpl; now rewrite lookup_insert_eq|];
        destruct (burst m now client w1) as [os w2]
    end.
    simpl in *. split; [now rewrite Hos|].
    rewrite Hb'. do 2 f_equal. lia.
Qed.

End Whole.

(** C7, as the code has it.  With a whole capacity [R] from 1 to 2^53 and
    no bucket yet for the client, a burst of [R + k] calls at one instant
    has its first [R] calls admitted and its last [k] refused with 429,
    and each admitted call takes exactly one token: the bucket found
    after [j] calls holds [R - j].  In general an admitted call stores the
    refilled count less one as binary64 arithmetic computes them, the
    refill being the stored count plus the elapsed time times the rate,
    capped at the capacity; a refused call stores nothing. *)
Theorem burst_admits_capacity (R : Z) (k : nat) (now : F64.float)
    (client : option string) (w : World) :
  0 < R <= 2 ^ 53 ->
  rps = F64.of_Z R ->
  F64.is_finite now = true ->
  last_seen w !! default "unknown" client = None ->
  fst (burst (Z.to_nat R + k) now client w)
  = repeat (Return tt) (Z.to_nat R) ++ repeat (Raise too_many) k /\
  (forall j, (j <= Z.to_nat R)%nat ->
      bucket now client (snd (burst j now client w))
      = (now, F64.of_Z (R - Z.of_nat j))) /\
  (forall t w1 w2,
      rate_limit t client w1 = (Return tt, w2) ->
      F64.ltb (refill t (bucket t client w1)) F64.one = false /\
      last_seen w2 !! default "unknown" client
      = Some (t, F64.sub (refill t (bucket t client w1)) F64.one)) /\
  (forall t w1 w2 e,
      rate_limit t client w1 = (Raise e, w2) -> w2 = w1 /\ e = too_many).
Proof.
  intros HR Hrps Hnow Hnone.
  assert (HR' : 1 <= R <= 2 ^ 53) by lia.
  assert (Hb : bucket now client w = (now, F64.of_Z R)).
  { rewrite Hnone. simpl. now rewrite Hrps. }
  split; [|split; [|split]].
  - rewrite burst_app.
    destruct (burst_admitted R now HR' Hrps Hnow (Z.to_nat R) R client w) as (Hos & Hb');
      [lia|exact Hb|].
    cbn [fst]. rewrite Hos. f_equal.
    rewrite (burst_empty R now HR' Hrps Hnow k client); [reflexivity|].
    rewrite Hb'. do 2 f_equal. lia.
  - intros j Hj.
    now destruct (burst_admitted R now HR' Hrps Hnow j R client w) as (_ & Hb');
      [lia|exact Hb|].
  - intros t w1 w2 H.
    assert (Hon : F64.leb rps F64.zero = false)
      by exact (limiting_on R HR' Hrps).
    destruct (rate_limit_admit t client w1 w2 Hon H) as (H1 & H2 & _).
    now split.
  - intros t w1 w2 e. apply rate_limit_raise.
Qed.

End Limiter.

Lemma burst_admits_capacity_witness :
  fst (burst None Reference.cfg (Z.to_nat 5 + 2) (F64.of_Z 1700000000)
         (Some "10.0.0.1") Reference.world0)
  = repeat (Return tt) (Z.to_nat 5)
    ++ repeat (Raise (HTTPException 429 "rate limit")) 2.
Proof.
  assert (HR : 0 < 5 <= 2 ^ 53) by (split; [lia|discriminate]).
  destruct (burst_admits_capacity Reference.cfg 5 2 (F64.of_Z 1700000000)
              (Some "10.0.0.1") Reference.world0 HR eq_refl eq_refl eq_refl)
    as (Hburst & _).
  exact Hburst.
Defined.

(** C7, as stated, fails.  At the whole capacity 2^54 a token taken from
    the full bucket leaves the bucket full, since 2^54 - 1 rounds to 2^54:
    the stored count after an admitted call is 2^54 again, and however
    long the burst, no call of it is refused. *)
Lemma burst_never_refused_at_large_capacity :
  F64.sub (F64.of_Z (2 ^ 54)) F64.one = F64.of_Z (2 ^ 54) /\
  forall n,
    fst (burst None Samples.cfg_large n (F64.of_Z 1700000000)
           (Some "10.0.0.1") Reference.world0)
    = repeat (Return tt) n.
Proof.
  split; [vm_compute; reflexivity|].
  assert (Hstep : forall w,
             last_seen w !! "10.0.0.1" = None \/
             last_seen w !! "10.0.0.1"
             = Some (F64.of_Z 1700000000, F64.of_Z (2 ^ 54)) ->
             exists w',
               Main.rate_limit None Samples.cfg_large (F64.of_Z 1700000000)
                 (Some "10.0.0.1") w = (Return tt, w') /\
               last_seen w' !! "10.0.0.1"
               = Some (F64.of_Z 1700000000, F64.of_Z (2 ^ 54))).
  { intros w Hw. rewrite rate_limit_step by reflexivity.
    change (default "unknown" (Some "10.0.0.1")) with "10.0.0.1".
    assert (Hb : default (F64.of_Z 1700000000, RATE_LIMIT_RPS Samples.cfg_large)
                   (last_seen w !! "10.0.0.1")
                 = (F64.of_Z 1700000000, F64.of_Z (2 ^ 54)))
      by (destruct Hw as [-> | ->]; reflexivity).
    rewrite Hb.
    match goal with
    | |- context [F64.py_min ?a ?b] =>
        assert (Hfull : F64.py_min a b = F64.of_Z (2 ^ 54))
          by (vm_compute; reflexivity)
    end.
    rewrite Hfull.
    replace (F64.ltb (F64.of_Z (2 ^ 54)) F64.one) with false
      by (vm_compute; reflexivity).
    replace (F64.sub (F64.of_Z (2 ^ 54)) F64.one) with (F64.of_Z (2 ^ 54))
      by (vm_compute; reflexivity).
    eexists. split; [reflexivity|]. simpl. apply lookup_insert_eq. }
  assert (Hall : forall n w,
             last_seen w !! "10.0.0.1" = None \/
             last_seen w !! "10.0.0.1"
             = Some (F64.of_Z 1700000000, F64.of_Z (2 ^ 54)) ->
             fst (burst None Samples.cfg_large n (F64.of_Z 1700000000)
                    (Some "10.0.0.1") w) = repeat (Return tt) n).
  { induction n as [|n IH]; intros w Hw; [reflexivity|].
    cbn [Main.burst]. destruct (Hstep w Hw) as (w' & -> & Hw').
    specialize (IH w' (or_intror Hw')).
    destruct (burst None Samples.cfg_large n _ _ w') as [os w2].
    cbn [fst repeat] in *. now rewrite IH. }
  intros n. apply Hall. now left.
Qed.

(** The refill is rounded: the float nearest to a tenth of a second, at
    three tokens a second, gives the float above three tenths. *)
Example refill_is_rounded :
  F64.mul (S754_finite false 7205759403792794 (-56)) (F64.of_Z 3)
  = S754_finite false 5404319552844596 (-54).
Proof. vm_compute. reflexivity. Qed.

End RateLimitFacts.

(** ** The gateway *)

Module GatewayFacts.

Import TaskEngine SemanticStore Main.

Section Pipeline.
Variable int : string -> option Z.
Variable hmac_sha256_hexdigest : string -> string -> string.
Variable shlex_split : string -> option (list string).
Variable os_exec : list string -> Z -> proc_result.
Variable _invoke_http : string -> string -> option string.
Variable exc_str : exn -> string.
Variable fts5_match : list MemoryEntry -> string -> option (list MemoryEntry).
Variable redis_client : option (string -> F64.float -> bool).
Variable cfg : Config.

Abbreviation serve :=
  (Main.serve int hmac_sha256_hexdigest shlex_split os_exec
     _invoke_http exc_str fts5_match redis_client cfg).

(** The limiter's check and the authenticator's check for a call. *)
Abbreviation admission c clk :=
  (rate_limit redis_client cfg (admit_time clk) (peer c)).

Abbreviation authenticate c clk :=
  (verify_signature int hmac_sha256_hexdigest cfg
     (PyStr.int_of_float (verify_time clk))
     (timestamp_header c) (signature_header c) (body_bytes_of c)).

Lemma rate_limit_frame (now : F64.float) (client : option string) (w : World) :
  db (snd (rate_limit redis_client cfg now client w)) = db w /\
  spawned (snd (rate_limit redis_client cfg now client w)) = spawned w /\
  records (snd (rate_limit redis_client cfg now client w)) = records w.
Proof.
  unfold rate_limit. destruct (F64.leb _ _); [auto|].
  destruct redis_client as [pipeline|]; [destruct (pipeline _ _); auto|].
  destruct (default (now, RATE_LIMIT_RPS cfg) _) as [ts tok].
  destruct (F64.ltb _ _); auto.
Qed.

Lemma rate_limit_refuses (now : F64.float) (client : option string) (w w' : World)
    (e : exn) :
  rate_limit redis_client cfg now client w = (Raise e, w') ->
  w' = w /\ e = HTTPException 429 "rate limit".
Proof.
  unfold rate_limit. destruct (F64.leb _ _); [discriminate|].
  destruct redis_client as [pipeline|].
  - destruct (pipeline _ _); [discriminate|]. now intros [= <- <-].
  - destruct (default (now, RATE_LIMIT_RPS cfg) _) as [ts tok].
    destruct (F64.ltb _ _); [|discriminate].
    now intros [= <- <-].
Qed.

(** [verify_signature] raises 401, or [TypeError] from
    [compare_digest]. *)
Lemma verify_signature_raises (now : Z) (ts sig : option string) (body : string) (e : exn) :
  verify_signature int hmac_sha256_hexdigest cfg now ts sig body = Raise e ->
  e = TypeError \/ exists detail, e = HTTPException 401 detail.
Proof.
  unfold verify_signature.
  destruct (_ || _); [intros [= <-]; eauto|].
  destruct (int _); [|intros [= <-]; eauto].
  destruct (_ >? _); [intros [= <-]; eauto|].
  unfold compare_digest. destruct (_ && _).
  - destruct (String.eqb _ _); [discriminate|intros [= <-]; eauto].
  - intros [= <-]. auto.
Qed.

(** [TypeError] comes from [compare_digest], and from it alone: both
    headers are there and not empty, the timestamp parses and is fresh, and
    the signature header or the digest is not ASCII. *)
Lemma verify_signature_type_error (now : Z) (ts sig : option string) (body : string) :
  verify_signature int hmac_sha256_hexdigest cfg now ts sig body = Raise TypeError <->
  exists x_timestamp x_signature t,
    ts = Some x_timestamp /\ sig = Some x_signature /\
    x_timestamp <> "" /\ x_signature <> "" /\
    int x_timestamp = Some t /\ Z.abs (now - t) <= 300 /\
    (PyStr.isascii x_signature = false \/
     PyStr.isascii (hmac_sha256_hexdigest (AGENT_SHARED_SECRET cfg)
                      (x_timestamp ++ "." ++ body)%string) = false).
Proof.
  assert (Htruthy : forall x, PyStr.truthy x = true <-> x <> "").
  { intros [|c x]; simpl; split; congruence. }
  unfold verify_signature. split.
  - destruct ts as [x_timestamp|], sig as [x_signature|];
      cbn [PyStr.truthy_opt negb orb default from_option Datatypes.id];
      try (rewrite orb_true_r); try discriminate.
    destruct (PyStr.truthy x_timestamp) eqn:Ht; [|discriminate].
    destruct (PyStr.truthy x_signature) eqn:Hs; [|discriminate].
    cbn [negb orb].
    destruct (int x_timestamp) as [t|] eqn:Hint; [|discriminate].
    destruct (Z.abs (now - t) >? 300) eqn:E; [discriminate|].
    rewrite Z.gtb_ltb in E. apply Z.ltb_ge in E.
    apply Htruthy in Ht, Hs.
    unfold compare_digest.
    destruct (PyStr.isascii (hmac_sha256_hexdigest _ _)) eqn:Ha;
      destruct (PyStr.isascii x_signature) eqn:Hb; cbn [andb].
    + destruct (String.eqb _ _); discriminate.
    + intros _. exists x_timestamp, x_signature, t. auto 12.
    + intros _. exists x_timestamp, x_signature, t. auto 12.
    + intros _. exists x_timestamp, x_signature, t. auto 12.
  - intros (x_timestamp & x_signature & t & -> & -> & Ht & Hs & Hint & Hw & Hascii).
    apply Htruthy in Ht, Hs.
    cbn [PyStr.truthy_opt default from_option Datatypes.id]. rewrite Ht, Hs.
    cbn [negb orb]. rewrite Hint.
    assert (E : (Z.abs (now - t) >? 300) = false).
    { rewrite Z.gtb_ltb. apply Z.ltb_ge. lia. }
    rewrite E. unfold compare_digest.
    destruct Hascii as [H|H]; rewrite H; [now rewrite andb_false_r|reflexivity].
Qed.

(** A privileged call that the limiter refuses is answered with the
    limiter's error. *)
Lemma serve_refused (c : Call) (clk : Clock) (w w' : World) (e : exn) :
  privileged c = true ->
  admission c clk w = (Raise e, w') ->
  serve c clk w = (Raise e, w').
Proof.
  intros Hp H. destruct c; try discriminate; simpl in *;
    unfold invoke, run_shell, stream, partner, guarded, bind;
    now rewrite H.
Qed.

(** A privileged call that the limiter admits and the authenticator
    rejects is answered with the authenticator's error, in the world the
    limiter left. *)
Lemma serve_unauthorized (c : Call) (clk : Clock) (w w1 : World) (e : exn) :
  privileged c = true ->
  admission c clk w = (Return tt, w1) ->
  authenticate c clk = Raise e ->
  serve c clk w = (Raise e, w1).
Proof.
  intros Hp H A. destruct c; try discriminate; simpl in *;
    unfold invoke, run_shell, stream, partner, guarded, bind, lift;
    now rewrite H, A.
Qed.

(** C1, as the code has it.  On every privileged route the limiter's
    admission check, a dependency of the handler, runs before the
    signature check.  A call the limiter refuses gets the limiter's error
    (429) whatever its headers, and nothing changes.  A call the limiter
    admits and the authenticator rejects gets the authenticator's error in
    the world as the limiter left it, the store, the processes started and
    the log being untouched.  That error is 401, or else [TypeError], which
    the server answers with 500 and which is raised exactly when both
    headers are there and not empty, the timestamp parses and is fresh, and
    the signature header or the digest is not ASCII.  With the in-process limiter switched on
    (no Redis client, and [RATE_LIMIT_RPS <= 0] false) the client's bucket
    then holds the refilled count less one token, as binary64 arithmetic
    computes them, stamped with the instant of the call. *)
Theorem limiter_runs_before_verification (c : Call) (clk : Clock) (w : World) :
  privileged c = true ->
  (forall e w',
      admission c clk w = (Raise e, w') ->
      serve c clk w = (Raise e, w) /\ e = HTTPException 429 "rate limit") /\
  (forall e w1,
      admission c clk w = (Return tt, w1) ->
      authenticate c clk = Raise e ->
      serve c clk w = (Raise e, w1) /\
      (e = TypeError \/ exists detail, e = HTTPException 401 detail) /\
      (http_status (fst (serve c clk w)) = 401 \/
       http_status (fst (serve c clk w)) = 500) /\
      (e = TypeError <->
       exists x_timestamp x_signature t,
         timestamp_header c = Some x_timestamp /\
         signature_header c = Some x_signature /\
         x_timestamp <> "" /\ x_signature <> "" /\
         int x_timestamp = Some t /\
         Z.abs (PyStr.int_of_float (verify_time clk) - t) <= 300 /\
         (PyStr.isascii x_signature = false \/
          PyStr.isascii (hmac_sha256_hexdigest (AGENT_SHARED_SECRET cfg)
                           (x_timestamp ++ "." ++ body_bytes_of c)%string) = false)) /\
      db w1 = db w /\ spawned w1 = spawned w /\ records w1 = records w) /\
  (forall e w1,
      redis_client = None ->
      F64.leb (RATE_LIMIT_RPS cfg) F64.zero = false ->
      admission c clk w = (Return tt, w1) ->
      authenticate c clk = Raise e ->
      let ip := default "unknown" (peer c) in
      let bucket := default (admit_time clk, RATE_LIMIT_RPS cfg) (last_seen w !! ip) in
      last_seen (snd (serve c clk w)) !! ip
      = Some (admit_time clk,
              F64.sub
                (F64.py_min (RATE_LIMIT_RPS cfg)
                   (F64.add (snd bucket)
                      (F64.mul (F64.sub (admit_time clk) (fst bucket))
                         (RATE_LIMIT_RPS cfg))))
                F64.one)).
Proof.
  intros Hp. split; [|split].
  - intros e w' H. rewrite (serve_refused c clk w w' e Hp H).
    now destruct (rate_limit_refuses _ _ _ _ _ H) as [-> ->].
  - intros e w1 H A. rewrite (serve_unauthorized c clk w w1 e Hp H A).
    split; [reflexivity|].
    pose proof (verify_signature_raises _ _ _ _ _ A) as He.
    split; [exact He|]. split.
    { cbn [fst]. destruct He as [-> | (detail & ->)]; [now right|now left]. }
    split.
    { rewrite <- verify_signature_type_error. rewrite A.
      split; [now intros ->|now intros [= ->]]. }
    pose proof (rate_limit_frame (admit_time clk) (peer c) w) as F.
    now rewrite H in F.
  - intros e w1 Hnone Hon H A ip bucket.
    rewrite (serve_unauthorized c clk w w1 e Hp H A). simpl.
    subst ip bucket. revert H. rewrite Hnone.
    intros H. now apply RateLimitFacts.rate_limit_admit in H as (_ & H & _).
Qed.

(** *** The store under [/shell] and [/invoke] *)

Lemma guarded_frame {B : Type} (r : Request B) (clk : Clock) (w : World) :
  db (snd (guarded int hmac_sha256_hexdigest redis_client cfg r clk w)) = db w /\
  records (snd (guarded int hmac_sha256_hexdigest redis_client cfg r clk w)) = records w.
Proof.
  unfold guarded, bind, lift.
  pose proof (rate_limit_frame (admit_time clk) (client_host r) w) as (Hd & _ & Hr).
  destruct (rate_limit _ _ _ _ _) as [[[]|e] w1]; simpl in *; auto.
Qed.

Lemma shell_run_frame (command : string) (w : World) :
  db (snd (shell_run shlex_split os_exec cfg command w)) = db w /\
  records (snd (shell_run shlex_split os_exec cfg command w)) = records w.
Proof.
  unfold shell_run. destruct (run _ _ _ _) as [o calls]. simpl. auto.
Qed.

(** C8, as the code has it.  Serving [/shell] or [/invoke] never touches
    the store, so no memory entry is written; what a successful call
    leaves behind is one log record (the first word of the command, or
    the model and the size of the output). *)
Theorem shell_and_invoke_leave_store :
  (forall r clk w, db (snd (serve (POST_shell r) clk w)) = db w) /\
  (forall r clk w, db (snd (serve (POST_invoke r) clk w)) = db w) /\
  (forall r clk w b w',
      serve (POST_shell r) clk w = (Return b, w') ->
      records w' = records w ++
        [LogShell (if PyStr.truthy (command (req r))
                   then first_word (command (req r)) else "")]) /\
  (forall r clk w b w',
      serve (POST_invoke r) clk w = (Return b, w') ->
      exists output,
        b = Output output /\
        records w' = records w ++
          [LogInvoke (model_or_default cfg (model (req r))) (String.length output)]).
Proof.
  split; [|split; [|split]].
  - intros r clk w. simpl. unfold run_shell, bind.
    pose proof (guarded_frame r clk w) as (Hd & _).
    destruct (guarded _ _ _ _ _ _ _) as [[[]|e] w1]; simpl in *; [|exact Hd].
    pose proof (shell_run_frame (command (req r)) w1) as (Hd' & _).
    destruct (shell_run _ _ _ _ _) as [[out|e] w2]; simpl in *; congruence.
  - intros r clk w. simpl. unfold invoke, bind, llm_invoke.
    pose proof (guarded_frame r clk w) as (Hd & _).
    destruct (guarded _ _ _ _ _ _ _) as [[[]|e] w1]; simpl in *; exact Hd.
  - intros r clk w b w'. simpl. unfold run_shell, bind.
    pose proof (guarded_frame r clk w) as (_ & Hr).
    destruct (guarded _ _ _ _ _ _ _) as [[[]|e] w1]; simpl in *; [|discriminate].
    pose proof (shell_run_frame (command (req r)) w1) as (_ & Hr').
    destruct (shell_run _ _ _ _ _) as [[out|e] w2]; simpl in *; [|discriminate].
    intros [= _ <-]. simpl. congruence.
  - intros r clk w b w'. simpl. unfold invoke, bind, llm_invoke.
    pose proof (guarded_frame r clk w) as (_ & Hr).
    destruct (guarded _ _ _ _ _ _ _) as [[[]|e] w1]; simpl in *; [|discriminate].
    intros [= <- <-]. eexists. split; [reflexivity|]. simpl. congruence.
Qed.

(** C10, as the code has it.  [GET /tasks] and [POST /memory/search]
    call neither [rate_limit] nor [verify_signature]: whatever headers the
    request carries, the status is never 401 or 429 and the world, the
    limiter's buckets included, is left as it was.  [/tasks] answers with
    the task list.  [/memory/search] answers with the search results when
    the limit fits SQLite's 64-bit integers and the full-text engine
    accepts the query; otherwise it fails, with [OverflowError] or
    [OperationalError], which the server answers with 500. *)
Theorem tasks_and_search_unguarded :
  (forall r clk w,
      serve (GET_tasks r) clk w = (Return (Tasks (list_tasks (db w) None)), w)) /\
  (forall r clk w rows,
      fits_int64 (limit_or_5 (limit (req r))) = true ->
      fts5_match (memory_fts (db w)) (q (req r)) = Some rows ->
      serve (POST_memory_search r) clk w
      = (Return (Results (sql_limit (limit_or_5 (limit (req r))) rows)), w)) /\
  (forall r clk w,
      fits_int64 (limit_or_5 (limit (req r))) = false \/
      fts5_match (memory_fts (db w)) (q (req r)) = None ->
      exists e,
        serve (POST_memory_search r) clk w = (Raise e, w) /\
        (e = OverflowError \/ e = OperationalError) /\
        http_status (fst (serve (POST_memory_search r) clk w)) = 500) /\
  (forall c clk w,
      (exists r, c = GET_tasks r) \/ (exists r, c = POST_memory_search r) ->
      http_status (fst (serve c clk w)) <> 401 /\
      http_status (fst (serve c clk w)) <> 429 /\
      snd (serve c clk w) = w).
Proof.
  assert (Hsearch : forall r clk w,
             serve (POST_memory_search r) clk w
             = (match search_memory fts5_match (db w) (q (req r))
                        (limit_or_5 (limit (req r))) with
                | Return rows => Return (Results rows)
                | Raise e => Raise e
                end, w)).
  { intros r clk w. simpl.
    unfold memory_search, bind, store_search_memory, ret.
    now destruct (search_memory _ _ _ _). }
  split; [reflexivity|]. split; [|split].
  - intros r clk w rows Hfit Hfts. rewrite Hsearch.
    unfold search_memory, ensure_schema. now rewrite Hfit, Hfts.
  - intros r clk w H. rewrite Hsearch. unfold search_memory, ensure_schema.
    destruct (fits_int64 _) eqn:Hfit; cbn [negb].
    + destruct H as [H|H]; [discriminate|]. rewrite H.
      exists OperationalError. auto.
    + exists OverflowError. auto.
  - intros c clk w [[r ->] | [r ->]].
    + simpl. unfold tasks. simpl. repeat split; discriminate.
    + rewrite Hsearch. simpl. unfold search_memory, ensure_schema.
      destruct (negb _); [simpl; repeat split; discriminate|].
      destruct (fts5_match _ _); simpl; repeat split; discriminate.
Qed.

End Pipeline.

(** C1, as stated, fails.  A first request without auth headers is
    answered 401, and the limiter has by then created the client's bucket
    and taken one of its five tokens. *)
Lemma unsigned_request_consumes_token :
  last_seen Reference.world0 !! "10.0.0.1" = None /\
  fst (Reference.serve_ref Reference.os_hello
         (POST_shell Reference.unsigned_shell) (Reference.clock 1700000000)
         Reference.world0)
  = Raise (HTTPException 401 "missing auth headers") /\
  last_seen
    (snd (Reference.serve_ref Reference.os_hello
            (POST_shell Reference.unsigned_shell) (Reference.clock 1700000000)
            Reference.world0)) !! "10.0.0.1"
  = Some (F64.of_Z 1700000000, F64.of_Z 4).
Proof. repeat split; vm_compute; reflexivity. Qed.

(** The same request from a client whose bucket is empty: 429, not 401. *)
Example unsigned_request_rate_limited :
  fst (Reference.serve_ref Reference.os_hello
         (POST_shell Reference.unsigned_shell) (Reference.clock 1700000000)
         (with_last_seen {[ "10.0.0.1" := (F64.of_Z 1700000000, F64.zero) ]}
            Reference.world0))
  = Raise (HTTPException 429 "rate limit").
Proof. reflexivity. Qed.

Lemma limiter_runs_before_verification_witness :
  Reference.serve_ref Reference.os_hello
    (POST_shell Reference.unsigned_shell) (Reference.clock 1700000000)
    Reference.world0
  = (Raise (HTTPException 401 "missing auth headers"),
     with_last_seen {[ "10.0.0.1" := (F64.of_Z 1700000000, F64.of_Z 4) ]} Reference.world0).
Proof.
  destruct (limiter_runs_before_verification
              PyStr.int Sha256.hmac_hexdigest Shlex.split Reference.os_hello
              Reference.no_http Reference.exc_text Reference.fts_exact None
              Reference.cfg (POST_shell Reference.unsigned_shell)
              (Reference.clock 1700000000) Reference.world0 eq_refl)
    as (_ & Hauth & _).
  assert (Hadmit :
            rate_limit None Reference.cfg (admit_time (Reference.clock 1700000000))
              (peer (POST_shell Reference.unsigned_shell)) Reference.world0
            = (Return tt,
               with_last_seen
                 {[ "10.0.0.1" := (F64.of_Z 1700000000, F64.of_Z 4) ]}
                 Reference.world0))
    by (vm_compute; reflexivity).
  destruct (Hauth (HTTPException 401 "missing auth headers")
              (with_last_seen {[ "10.0.0.1" := (F64.of_Z 1700000000, F64.of_Z 4) ]}
                 Reference.world0) Hadmit eq_refl) as (Hserve & _).
  exact Hserve.
Defined.

(** C8, as stated, fails.  A signed, admitted [/shell] request runs its
    command and is answered, and the memory table is as empty as before. *)
Lemma shell_request_writes_no_memory :
  fst (Reference.serve_ref Reference.os_hello
         (POST_shell Reference.signed_shell) (Reference.clock 1700000010)
         Reference.world0)
  = Return (Output "hello") /\
  spawned (snd (Reference.serve_ref Reference.os_hello
                  (POST_shell Reference.signed_shell) (Reference.clock 1700000010)
                  Reference.world0))
  = [["echo"; "hello"]] /\
  memory_fts (db (snd (Reference.serve_ref Reference.os_hello
                         (POST_shell Reference.signed_shell)
                         (Reference.clock 1700000010) Reference.world0)))
  = [].
Proof. repeat split; vm_compute; reflexivity. Qed.

Lemma shell_and_invoke_leave_store_witness :
  records (snd (Reference.serve_ref Reference.os_hello
                  (POST_shell Reference.signed_shell) (Reference.clock 1700000010)
                  Reference.world0))
  = [LogShell "echo"].
Proof.
  assert (Hserve :
            Reference.serve_ref Reference.os_hello
              (POST_shell Reference.signed_shell) (Reference.clock 1700000010)
              Reference.world0
            = (Return (Output "hello"),
               snd (Reference.serve_ref Reference.os_hello
                      (POST_shell Reference.signed_shell)
                      (Reference.clock 1700000010) Reference.world0)))
    by (vm_compute; reflexivity).
  destruct (shell_and_invoke_leave_store
              PyStr.int Sha256.hmac_hexdigest Shlex.split Reference.os_hello
              Reference.no_http Reference.exc_text Reference.fts_exact None
              Reference.cfg) as (_ & _ & Hlog & _).
  exact (Hlog Reference.signed_shell (Reference.clock 1700000010)
           Reference.world0 _ _ Hserve).
Defined.

Lemma tasks_and_search_unguarded_witness :
  Reference.serve_ref Reference.os_hello
    (POST_memory_search
       {| client_host := Some "10.0.0.1"; x_timestamp := None;
          x_signature := Some "forged"; raw_body := "";
          req := {| q := "hello"; limit := Some 2 |} |})
    (Reference.clock 1700000000) Samples.world_hello
  = (Return (Results (firstn 2 (memory_fts Samples.db_hello))), Samples.world_hello).
Proof.
  destruct (tasks_and_search_unguarded
              PyStr.int Sha256.hmac_hexdigest Shlex.split Reference.os_hello
              Reference.no_http Reference.exc_text Reference.fts_exact None
              Reference.cfg) as (_ & Hfound & _).
  exact (Hfound {| client_host := Some "10.0.0.1"; x_timestamp := None;
                   x_signature := Some "forged"; raw_body := "";
                   req := {| q := "hello"; limit := Some 2 |} |}
           (Reference.clock 1700000000) Samples.world_hello
           (memory_fts Samples.db_hello) eq_refl eq_refl).
Defined.

(** C10, as stated, fails.  A search with the limit 2^63, which the
    request model accepts as an [int], is not answered with search
    results: binding the limit raises [OverflowError] and the client gets
    500. *)
Lemma memory_search_without_results :
  Reference.serve_ref Reference.os_hello
    (POST_memory_search (Samples.search_hello (Some (2 ^ 63))))
    (Reference.clock 1700000000) Samples.world_hello
  = (Raise OverflowError, Samples.world_hello) /\
  http_status
    (fst (Reference.serve_ref Reference.os_hello
            (POST_memory_search (Samples.search_hello (Some (2 ^ 63))))
            (Reference.clock 1700000000) Samples.world_hello))
  = 500.
Proof. split; reflexivity. Qed.

(** [GET /tasks] without any header, from a client whose bucket is
    empty. *)
Example tasks_without_headers :
  Reference.serve_ref Reference.os_hello
    (GET_tasks {| client_host := Some "10.0.0.1"; x_timestamp := None;
                  x_signature := None; raw_body := ""; req := tt |})
    (Reference.clock 1700000000)
    (with_last_seen {[ "10.0.0.1" := (F64.of_Z 1700000000, F64.zero) ]} Reference.world0)
  = (Return (Tasks []),
     with_last_seen {[ "10.0.0.1" := (F64.of_Z 1700000000, F64.zero) ]} Reference.world0).
Proof. reflexivity. Qed.

End GatewayFacts.

(* ===================================================================== *)
(** * Part III: further properties of the code                            *)
(* ===================================================================== *)

(** ** The executor, beyond the denials *)

Module ExecutorExtras.

Import TaskEngine.

(** *** [posixpath.basename] on a joined path *)

Lemma append_cons (c : ascii) (a b : string) :
  (String c a ++ b)%string = String c (a ++ b)%string.
Proof. reflexivity. Qed.

Lemma append_assoc (a b c : string) :
  (a ++ b ++ c)%string = ((a ++ b) ++ c)%string.
Proof.
  induction a as [|x a IH]; [reflexivity|].
  now rewrite !append_cons, IH.
Qed.

Lemma length_append (a b : string) :
  String.length (a ++ b)%string = (String.length a + String.length b)%nat.
Proof.
  induction a as [|c a IH]; [reflexivity|].
  rewrite append_cons. simpl. now rewrite IH.
Qed.

Lemma slice_from_append (a b : string) :
  PyStr.slice_from (String.length a) (a ++ b)%string = b.
Proof.
  induction a as [|c a IH].
  - change ("" ++ b)%string with b. now destruct b.
  - rewrite append_cons. exact IH.
Qed.

Lemma rfind_bounds (c : ascii) (s : string) : -1 <= PyStr.rfind c s.
Proof.
  induction s as [|a s IH]; simpl; [lia|].
  destruct (PyStr.rfind c s =? -1); [destruct (Ascii.eqb a c)|]; lia.
Qed.

Lemma rfind_append (c : ascii) (a b : string) :
  0 <= PyStr.rfind c b ->
  PyStr.rfind c (a ++ b)%string = Z.of_nat (String.length a) + PyStr.rfind c b.
Proof.
  intros Hb. induction a as [|x a IH].
  - change ("" ++ b)%string with b. simpl. lia.
  - rewrite append_cons. cbn [PyStr.rfind String.length]. rewrite IH.
    destruct (Z.eqb_spec (Z.of_nat (String.length a) + PyStr.rfind c b) (-1)); lia.
Qed.

(** A name is free of slashes when [rfind] finds none. *)
Lemma basename_join (dir name : string) :
  PyStr.rfind "/" name = -1 ->
  PyStr.basename (dir ++ "/" ++ name)%string = name.
Proof.
  intros Hname. unfold PyStr.basename.
  assert (H0 : PyStr.rfind "/" ("/" ++ name)%string = 0).
  { change ("/" ++ name)%string with (String "/" name).
    cbn [PyStr.rfind]. now rewrite Hname. }
  rewrite rfind_append by lia. rewrite H0.
  replace (Z.to_nat (Z.of_nat (String.length dir) + 0 + 1))
    with (String.length (dir ++ "/")%string).
  - rewrite append_assoc. apply slice_from_append.
  - rewrite length_append. simpl. lia.
Qed.

Section Executor.
Variable shlex_split : string -> option (list string).
Variable os_exec : list string -> Z -> proc_result.

Abbreviation _is_allowed := (TaskEngine._is_allowed shlex_split).
Abbreviation run := (TaskEngine.run shlex_split os_exec).

(** X1.  Whatever [run] hands to [subprocess.run] is the token vector of
    the command line, handed over once, and the base name of its first
    token is on the allowlist. *)
Theorem run_spawns_only_allowed (self : ShellExecutor) (command : string)
    (args : list string) :
  In args (snd (run self command)) ->
  snd (run self command) = [args] /\
  shlex_split command = Some args /\
  exists part0 rest,
    args = part0 :: rest /\ PyStr.basename part0 ∈ allowed_commands self.
Proof.
  intros Hin.
  destruct (TaskEngine._is_allowed shlex_split self command) eqn:A.
  - destruct (TaskEngineFacts.run_allowed shlex_split os_exec self command A)
      as (args' & Hs & Hr).
    rewrite Hr in Hin |- *. simpl in *. destruct Hin as [<-|[]].
    split; [reflexivity|]. split; [exact Hs|].
    apply TaskEngineFacts.is_allowed_iff in A as (p & r & Hs' & Hp).
    exists p, r. split; [congruence|exact Hp].
  - rewrite (TaskEngineFacts.run_not_allowed shlex_split os_exec self command A) in Hin.
    destruct Hin.
Qed.

(** X2.  The allowlist looks at the base name only: a first token that
    puts any directory in front of an allowlisted name passes, and the
    path as written is what is executed. *)
Theorem run_accepts_any_directory (self : ShellExecutor) (command : string)
    (dir name : string) (rest : list string) :
  name ∈ allowed_commands self ->
  PyStr.rfind "/" name = -1 ->
  shlex_split command = Some ((dir ++ "/" ++ name)%string :: rest) ->
  _is_allowed self command = true /\
  snd (run self command) = [(dir ++ "/" ++ name)%string :: rest].
Proof.
  intros Hin Hname Hs.
  assert (A : TaskEngine._is_allowed shlex_split self command = true).
  { apply TaskEngineFacts.is_allowed_iff. exists (dir ++ "/" ++ name)%string, rest.
    split; [exact Hs|]. now rewrite basename_join. }
  split; [exact A|].
  destruct (TaskEngineFacts.run_allowed shlex_split os_exec self command A)
    as (args & Hs' & Hr).
  rewrite Hr. simpl. congruence.
Qed.

End Executor.

(** Every name [__init__] puts on the list is non-empty. *)
Lemma init_names_nonempty (int : string -> option Z) (environ : gmap string string)
    (allowed : option (list string)) (timeout : option Z) (self : ShellExecutor) :
  __init__ int environ allowed timeout = Return self ->
  forall c, In c (allowed_commands self) -> c <> "".
Proof.
  unfold __init__. intros H c Hc.
  assert (Hall : forall source : list string,
             In c (map PyStr.strip
                     (filter (fun c => PyStr.truthy (PyStr.strip c)) source)) ->
             c <> "").
  { intros source Hin. apply in_map_iff in Hin as (c0 & <- & Hin).
    apply list_elem_of_In, list_elem_of_filter in Hin as (Ht & _).
    now destruct (PyStr.strip c0). }
  destruct timeout as [t|]; [destruct (t =? 0)|];
    repeat match type of H with
      | context [match ?x with _ => _ end] => destruct x eqn:?
      end; try discriminate; injection H as <-; simpl in Hc;
    eapply Hall; exact Hc.
Qed.

(** X3.  An executor built by [__init__] never has the empty name on its
    list, so it denies every command whose first token ends with a slash
    (the base name of such a token is empty). *)
Theorem init_denies_directory_token (int : string -> option Z)
    (shlex_split : string -> option (list string))
    (os_exec : list string -> Z -> proc_result)
    (environ : gmap string string) (allowed : option (list string))
    (timeout : option Z) (self : ShellExecutor)
    (command dir : string) (rest : list string) :
  __init__ int environ allowed timeout = Return self ->
  shlex_split command = Some ((dir ++ "/")%string :: rest) ->
  run shlex_split os_exec self command = (Return denied_message, []).
Proof.
  intros Hinit Hs. apply TaskEngineFacts.run_not_allowed.
  destruct (TaskEngine._is_allowed shlex_split self command) eqn:A; [|reflexivity].
  apply TaskEngineFacts.is_allowed_iff in A as (p & r & Hs' & Hp).
  rewrite Hs in Hs'. injection Hs' as <- <-.
  replace (dir ++ "/")%string with (dir ++ "/" ++ "")%string in Hp by reflexivity.
  rewrite basename_join in Hp by reflexivity.
  apply list_elem_of_In in Hp.
  now apply (init_names_nonempty _ _ _ _ _ Hinit) in Hp.
Qed.

Lemma run_spawns_only_allowed_witness :
  snd (run Shlex.split Reference.os_hello Reference.executor "/bin/echo hello")
  = [["/bin/echo"; "hello"]] /\
  Shlex.split "/bin/echo hello" = Some ["/bin/echo"; "hello"] /\
  exists part0 rest,
    ["/bin/echo"; "hello"] = part0 :: rest /\
    PyStr.basename part0 ∈ allowed_commands Reference.executor.
Proof.
  apply (run_spawns_only_allowed Shlex.split Reference.os_hello Reference.executor
           "/bin/echo hello" ["/bin/echo"; "hello"]).
  simpl. left. reflexivity.
Defined.

Lemma run_accepts_any_directory_witness :
  _is_allowed Shlex.split Reference.executor "/tmp/upload/ls -la" = true /\
  snd (run Shlex.split Reference.os_hello Reference.executor "/tmp/upload/ls -la")
  = [["/tmp/upload/ls"; "-la"]].
Proof.
  apply (run_accepts_any_directory Shlex.split Reference.os_hello Reference.executor
           "/tmp/upload/ls -la" "/tmp/upload" "ls" ["-la"]).
  - apply list_elem_of_In. simpl. auto.
  - reflexivity.
  - reflexivity.
Defined.

Lemma init_denies_directory_token_witness :
  run Shlex.split Reference.os_hello Reference.executor "/usr/bin/ -la"
  = (Return denied_message, []).
Proof.
  apply (init_denies_directory_token PyStr.int Shlex.split Reference.os_hello
           ∅ None None Reference.executor "/usr/bin/ -la" "/usr/bin" ["-la"]);
    reflexivity.
Defined.

End ExecutorExtras.

(** ** The task table, operation after operation *)

Module StoreExtras.

Import SemanticStore SemanticStoreFacts Traces.

Lemma in_list_tasks_all (d : DB) (t : Task) :
  In t (list_tasks d None) <-> In t (tasks d).
Proof.
  split; apply Permutation_in; [|symmetry]; apply order_by_perm.
Qed.

Lemma in_list_tasks_status (d : DB) (s : string) (t : Task) :
  s <> "" ->
  In t (list_tasks d (Some s)) <-> In t (tasks d) /\ status t = s.
Proof.
  intros Hs. unfold list_tasks, ensure_schema. simpl.
  destruct s as [|c s]; [contradiction|]. simpl.
  split.
  - intros H. apply (Permutation_in t (order_by_perm _)) in H.
    apply list_elem_of_In, list_elem_of_filter in H as (Hst & H).
    split; [now apply list_elem_of_In|].
    apply Is_true_true in Hst. now apply String.eqb_eq.
  - intros (H & Hst).
    apply (Permutation_in t (Permutation_sym (order_by_perm _))).
    apply list_elem_of_In, list_elem_of_filter. split.
    + apply Is_true_true. now apply String.eqb_eq.
    + now apply list_elem_of_In.
Qed.

(** X4.  A task that [add_task] has inserted is listed, with the id
    returned and the status [queued], by [list_tasks()] and by
    [list_tasks("queued")]; the tasks listed before are still listed, and
    the listing is one longer. *)
Theorem add_task_then_list (d : DB) (title description : string) (priority : Z)
    (now : string) (i : Z) (d' : DB) :
  add_task d title description priority now = (Return i, d') ->
  let row := {| id := i; title := title; description := description;
                status := "queued"; priority := priority;
                task_created_at := now; updated_at := None |} in
  In row (list_tasks d' None) /\
  In row (list_tasks d' (Some "queued")) /\
  (forall t, In t (list_tasks d None) -> In t (list_tasks d' None)) /\
  List.length (list_tasks d' None) = S (List.length (list_tasks d None)).
Proof.
  intros H row. apply add_task_inv in H as (_ & Ht & _ & _). fold row in Ht.
  assert (Hrow : In row (tasks d')).
  { rewrite Ht. apply in_or_app. right. now left. }
  split; [now apply in_list_tasks_all|].
  split; [apply in_list_tasks_status; [discriminate|now split]|].
  split.
  - intros t Hin. apply in_list_tasks_all. rewrite Ht.
    apply in_or_app. left. now apply in_list_tasks_all.
  - change (list_tasks d' None) with (order_by (tasks d')).
    change (list_tasks d None) with (order_by (tasks d)).
    rewrite (Permutation_length (order_by_perm (tasks d'))),
      (Permutation_length (order_by_perm (tasks d))), Ht, length_app.
    simpl. lia.
Qed.

(** The row function of [UPDATE tasks SET status=?, updated_at=? WHERE
    id=?]. *)
Lemma update_task_status_rows (d : DB) (task_id : Z) (new_status now : string) :
  fits_int64 task_id = true ->
  tasks (snd (update_task_status d task_id new_status now))
  = map (fun t => if id t =? task_id then set_status new_status now t else t)
      (tasks d).
Proof.
  intros Hfit. unfold update_task_status, ensure_schema. now rewrite Hfit.
Qed.

(** X5.  After [update_task_status(task_id, s)] an existing task is listed
    under the status filter [s] with its new status and [updated_at], and
    under no other status filter. *)
Theorem update_then_list_by_status (d : DB) (task_id : Z) (s now : string) (t : Task) :
  fits_int64 task_id = true ->
  s <> "" ->
  In t (tasks d) -> id t = task_id ->
  let d' := snd (update_task_status d task_id s now) in
  In (set_status s now t) (list_tasks d' (Some s)) /\
  (forall s' r, s' <> "" -> s' <> s ->
                In r (list_tasks d' (Some s')) -> id r <> task_id).
Proof.
  intros Hfit Hs Hin Hid d'. split.
  - apply in_list_tasks_status; [exact Hs|]. split; [|reflexivity].
    unfold d'. rewrite update_task_status_rows by exact Hfit.
    apply in_map_iff. exists t. split; [|exact Hin].
    now rewrite Hid, Z.eqb_refl.
  - intros s' r Hs' Hne Hr E.
    apply in_list_tasks_status in Hr as (Hr & Hst); [|exact Hs'].
    unfold d' in Hr. rewrite update_task_status_rows in Hr by exact Hfit.
    apply in_map_iff in Hr as (t0 & Hr & _).
    destruct (Z.eqb_spec (id t0) task_id) as [E0|E0]; subst r.
    + simpl in Hst. congruence.
    + contradiction.
Qed.

Lemma insert_row_map (g : Task -> Task) (t : Task) (rows : list Task) :
  (forall a b, order_leb (g a) (g b) = order_leb a b) ->
  insert_row (g t) (map g rows) = map g (insert_row t rows).
Proof.
  intros Hg. induction rows as [|r rows IH]; simpl; [reflexivity|].
  rewrite Hg. destruct (order_leb t r); simpl; [reflexivity|now rewrite IH].
Qed.

Lemma order_by_map (g : Task -> Task) (rows : list Task) :
  (forall a b, order_leb (g a) (g b) = order_leb a b) ->
  order_by (map g rows) = map g (order_by rows).
Proof.
  intros Hg. induction rows as [|r rows IH]; simpl; [reflexivity|].
  change (fold_right insert_row [] (map g rows)) with (order_by (map g rows)).
  rewrite IH. now apply insert_row_map.
Qed.

(** X6.  A status update never reorders the listing: [list_tasks()] after
    the update is the listing before it with the affected row changed in
    place, so ids and priorities come in the same order. *)
Theorem update_keeps_listing_order (d : DB) (task_id : Z) (new_status now : string) :
  let d' := snd (update_task_status d task_id new_status now) in
  list_tasks d' None
  = map (fun t => if fits_int64 task_id && (id t =? task_id)
                  then set_status new_status now t else t)
      (list_tasks d None) /\
  map id (list_tasks d' None) = map id (list_tasks d None) /\
  map priority (list_tasks d' None) = map priority (list_tasks d None).
Proof.
  intros d'.
  assert (E : list_tasks d' None
              = map (fun t => if fits_int64 task_id && (id t =? task_id)
                              then set_status new_status now t else t)
                  (list_tasks d None)).
  { unfold d', list_tasks, update_task_status, ensure_schema. simpl.
    destruct (fits_int64 task_id); simpl.
    - apply order_by_map. intros a b. unfold order_leb.
      destruct (id a =? task_id), (id b =? task_id); reflexivity.
    - now rewrite map_id. }
  split; [exact E|]. rewrite E, !map_map. split; apply map_ext; intros t;
    destruct (fits_int64 task_id && (id t =? task_id)); reflexivity.
Qed.

Lemma db_eq (a b : DB) :
  memory_fts a = memory_fts b -> tasks a = tasks b ->
  sqlite_sequence a = sqlite_sequence b -> a = b.
Proof. destruct a, b. simpl. now intros -> -> ->. Qed.

(** X7.  Of two status updates of one task the later one wins, and
    status updates of two different tasks can be made in either order. *)
Theorem update_task_status_compose (d : DB) (i j : Z) (s1 s2 n1 n2 : string) :
  snd (update_task_status (snd (update_task_status d i s1 n1)) i s2 n2)
  = snd (update_task_status d i s2 n2) /\
  (i <> j ->
   snd (update_task_status (snd (update_task_status d i s1 n1)) j s2 n2)
   = snd (update_task_status (snd (update_task_status d j s2 n2)) i s1 n1)).
Proof.
  split.
  - unfold update_task_status, ensure_schema.
    destruct (fits_int64 i); simpl; [|reflexivity].
    apply db_eq; simpl; [reflexivity| |reflexivity].
    rewrite map_map. apply map_ext. intros t.
    destruct (Z.eqb_spec (id t) i) as [E|E]; simpl.
    + apply Z.eqb_eq in E. now rewrite E.
    + apply Z.eqb_neq in E. now rewrite E.
  - intros Hij. unfold update_task_status, ensure_schema.
    destruct (fits_int64 i), (fits_int64 j); simpl; try reflexivity.
    apply db_eq; simpl; [reflexivity| |reflexivity].
    rewrite !map_map. apply map_ext. intros t.
    destruct (Z.eqb_spec (id t) i) as [Ei|Ei], (Z.eqb_spec (id t) j) as [Ej|Ej];
      simpl; try congruence.
    + apply Z.eqb_eq in Ei. apply Z.eqb_neq in Ej. now rewrite ?Ei, ?Ej.
    + apply Z.eqb_neq in Ei. apply Z.eqb_eq in Ej. now rewrite ?Ei, ?Ej.
    + apply Z.eqb_neq in Ei. apply Z.eqb_neq in Ej. now rewrite ?Ei, ?Ej.
Qed.

(** *** The invariant of the task table *)

Lemma store_ok_add_task (d : DB) (title description : string) (priority : Z)
    (now : string) :
  store_ok d -> store_ok (snd (add_task d title description priority now)).
Proof.
  intros [Hnd Hall].
  destruct (add_task d title description priority now) as [[i|e] d'] eqn:H.
  - pose proof (add_task_distinct_ids _ _ _ _ _ _ _ Hnd H) as Hnd'.
    apply add_task_inv in H as (Hlt & Ht & _ & Hseq). simpl.
    split; [exact Hnd'|]. rewrite Ht, Hseq. apply List.Forall_app. split.
    + eapply List.Forall_impl; [|exact Hall]. simpl. intros t Ht'. lia.
    + repeat constructor; simpl; try lia.
      assert (0 <= max_rowid (tasks d)).
      { clear. induction (tasks d) as [|r rows IH]; simpl; lia. }
      lia.
  - unfold add_task, ensure_schema in H.
    destruct (negb _); [injection H as _ <-; now split|].
    destruct (_ <=? _); [injection H as _ <-; now split|discriminate].
Qed.

Lemma store_ok_update (d : DB) (task_id : Z) (new_status now : string) :
  store_ok d -> store_ok (snd (update_task_status d task_id new_status now)).
Proof.
  intros [Hnd Hall]. split.
  - now rewrite update_task_status_ids.
  - unfold update_task_status, ensure_schema.
    destruct (negb _); simpl; [exact Hall|].
    apply List.Forall_map. eapply List.Forall_impl; [|exact Hall].
    intros t Ht. now destruct (id t =? task_id).
Qed.

(** X8.  Starting from an empty database, whatever sequence of
    [add_task], [update_task_status] and [upsert_memory] calls is made, the
    ids of the task table stay distinct, positive and at most the
    AUTOINCREMENT counter; more generally every operation keeps that
    invariant. *)
Theorem store_invariant (dict_str : list (string * string) -> string)
    (ops : list StoreOp) :
  store_ok (run_ops dict_str ops empty_db) /\
  (forall d, store_ok d -> store_ok (run_ops dict_str ops d)).
Proof.
  assert (Hgen : forall d, store_ok d -> store_ok (run_ops dict_str ops d)).
  { induction ops as [|op ops IH]; intros d Hd; [exact Hd|].
    simpl. apply IH. destruct op; simpl.
    - now apply store_ok_add_task.
    - now apply store_ok_update.
    - exact Hd. }
  split; [|exact Hgen]. apply Hgen. split; constructor.
Qed.

Lemma add_task_then_list_witness :
  In {| id := 1; title := "t1"; description := "d1"; status := "queued";
        priority := 1; task_created_at := "2023-11-14T22:13:30";
        updated_at := None |}
    (list_tasks (snd (add_task empty_db "t1" "d1" 1 "2023-11-14T22:13:30")) None).
Proof.
  destruct (add_task_then_list empty_db "t1" "d1" 1 "2023-11-14T22:13:30" 1
              (snd (add_task empty_db "t1" "d1" 1 "2023-11-14T22:13:30")) eq_refl)
    as (H & _).
  exact H.
Defined.

Lemma update_then_list_by_status_witness :
  In (set_status "completed" "2023-11-14T22:20:00"
        {| id := 2; title := "t2"; description := "d2"; status := "queued";
           priority := 5; task_created_at := "2023-11-14T22:13:31";
           updated_at := None |})
    (list_tasks (snd (update_task_status Reference.db_two_tasks 2
                        "completed" "2023-11-14T22:20:00"))
       (Some "completed")).
Proof.
  assert (Hne : "completed" <> "") by discriminate.
  destruct (update_then_list_by_status Reference.db_two_tasks 2 "completed"
              "2023-11-14T22:20:00"
              {| id := 2; title := "t2"; description := "d2"; status := "queued";
                 priority := 5; task_created_at := "2023-11-14T22:13:31";
                 updated_at := None |}
              eq_refl Hne (or_intror (or_introl eq_refl)) eq_refl) as (H & _).
  exact H.
Defined.

Lemma update_task_status_compose_witness :
  snd (update_task_status
         (snd (update_task_status Reference.db_two_tasks 1 "failed" "n1"))
         2 "completed" "n2")
  = snd (update_task_status
           (snd (update_task_status Reference.db_two_tasks 2 "completed" "n2"))
           1 "failed" "n1").
Proof.
  destruct (update_task_status_compose Reference.db_two_tasks 1 2
              "failed" "completed" "n1" "n2") as (_ & H).
  apply H. discriminate.
Defined.

Lemma store_invariant_witness :
  store_ok (run_ops Samples.dict_text
              [UpdateTaskStatus 1 "failed" "n1"] Reference.db_two_tasks).
Proof.
  destruct (store_invariant Samples.dict_text [UpdateTaskStatus 1 "failed" "n1"])
    as (_ & H).
  apply H.
  destruct (store_invariant Samples.dict_text
              [AddTask "t1" "d1" 1 "2023-11-14T22:13:30";
               AddTask "t2" "d2" 5 "2023-11-14T22:13:31"]) as (H0 & _).
  exact H0.
Defined.

End StoreExtras.

(** ** The authenticator: what acceptance means *)

Module AuthExtras.

Import Main.

Section Verify.
Variable int : string -> option Z.
Variable hmac_sha256_hexdigest : string -> string -> string.
Variable cfg : Config.

Abbreviation verify := (verify_signature int hmac_sha256_hexdigest cfg).

Abbreviation expected x_timestamp body_bytes :=
  (hmac_sha256_hexdigest (AGENT_SHARED_SECRET cfg)
     (x_timestamp ++ "." ++ body_bytes)%string).

(** What [verify_signature] has checked when it returns. *)
Lemma verify_signature_returns (now : Z) (timestamp signature : option string)
    (body : string) :
  verify now timestamp signature body = Return tt <->
  exists x_timestamp x_signature ts,
    timestamp = Some x_timestamp /\ signature = Some x_signature /\
    x_timestamp <> "" /\ x_signature <> "" /\
    int x_timestamp = Some ts /\ Z.abs (now - ts) <= 300 /\
    PyStr.isascii (expected x_timestamp body) = true /\
    PyStr.isascii x_signature = true /\
    x_signature = expected x_timestamp body.
Proof.
  assert (Htruthy : forall x, PyStr.truthy x = true <-> x <> "").
  { intros [|c x]; simpl; split; congruence. }
  unfold verify_signature, compare_digest. split.
  - destruct timestamp as [x_timestamp|], signature as [x_signature|];
      cbn [PyStr.truthy_opt negb orb];
      try (destruct (PyStr.truthy x_timestamp); discriminate);
      try discriminate.
    destruct (PyStr.truthy x_timestamp) eqn:Ht; [|discriminate].
    destruct (PyStr.truthy x_signature) eqn:Hs; [|discriminate].
    cbn [negb orb default from_option id].
    destruct (int x_timestamp) as [ts|] eqn:Hint; [|discriminate].
    destruct (Z.abs (now - ts) >? 300) eqn:E; [discriminate|].
    destruct (PyStr.isascii (expected x_timestamp body)) eqn:Ha; [|discriminate].
    destruct (PyStr.isascii x_signature) eqn:Hb; [|discriminate].
    cbn [andb].
    destruct (String.eqb_spec (expected x_timestamp body) x_signature) as [Heq|];
      [|discriminate].
    intros _. exists x_timestamp, x_signature, ts.
    rewrite Z.gtb_ltb in E. apply Z.ltb_ge in E.
    apply Htruthy in Ht, Hs. auto 12.
  - intros (x_timestamp & x_signature & ts & -> & -> & Ht & Hs & Hint & Hw & Ha & Hb & Heq).
    apply Htruthy in Ht, Hs.
    cbn [PyStr.truthy_opt]. rewrite Ht, Hs.
    cbn [negb orb default from_option id]. rewrite Hint.
    assert (E : (Z.abs (now - ts) >? 300) = false).
    { rewrite Z.gtb_ltb. apply Z.ltb_ge. lia. }
    rewrite E, Ha, Hb. cbn [andb]. rewrite <- Heq. now rewrite String.eqb_refl.
Qed.

(** X9.  [verify_signature] returns without raising only for a request
    that carries both headers, whose timestamp parses to an instant at most
    300 seconds from [now], and whose signature header is, character for
    character, the hex digest of the HMAC of [timestamp ++ "." ++ body]
    under the shared secret. *)
Theorem verify_signature_accepts_only (now : Z) (timestamp signature : option string)
    (body : string) :
  verify now timestamp signature body = Return tt ->
  exists x_timestamp x_signature ts,
    timestamp = Some x_timestamp /\ signature = Some x_signature /\
    x_timestamp <> "" /\ x_signature <> "" /\
    int x_timestamp = Some ts /\ Z.abs (now - ts) <= 300 /\
    x_signature = expected x_timestamp body.
Proof.
  intros H. apply verify_signature_returns in H
    as (x_timestamp & x_signature & ts & H1 & H2 & H3 & H4 & H5 & H6 & _ & _ & H7).
  exists x_timestamp, x_signature, ts. auto 10.
Qed.

(** X10.  Nothing in a request is used up by its acceptance: a request
    accepted at one instant is accepted again, unchanged, at every instant
    within 300 seconds of its timestamp. *)
Theorem verify_signature_replay (now later ts : Z) (x_timestamp x_signature body : string) :
  verify now (Some x_timestamp) (Some x_signature) body = Return tt ->
  int x_timestamp = Some ts ->
  Z.abs (later - ts) <= 300 ->
  verify later (Some x_timestamp) (Some x_signature) body = Return tt.
Proof.
  intros H Hint Hw. apply verify_signature_returns in H
    as (t & s & ts' & [= <-] & [= <-] & H3 & H4 & H5 & _ & Ha & Hb & H7).
  apply verify_signature_returns. exists x_timestamp, x_signature, ts. auto 12.
Qed.

End Verify.

Lemma verify_signature_accepts_only_witness :
  exists x_timestamp x_signature ts,
    Some "1700000000" = Some x_timestamp /\
    Some Reference.shell_signature = Some x_signature /\
    x_timestamp <> "" /\ x_signature <> "" /\
    PyStr.int x_timestamp = Some ts /\ Z.abs (1700000010 - ts) <= 300 /\
    x_signature
    = Sha256.hmac_hexdigest (AGENT_SHARED_SECRET Reference.cfg)
        (x_timestamp ++ "." ++ Reference.shell_body)%string.
Proof.
  apply (verify_signature_accepts_only PyStr.int Sha256.hmac_hexdigest Reference.cfg
           1700000010 (Some "1700000000") (Some Reference.shell_signature)
           Reference.shell_body).
  vm_compute. reflexivity.
Defined.

Lemma verify_signature_replay_witness :
  verify_signature PyStr.int Sha256.hmac_hexdigest Reference.cfg
    1700000300 (Some "1700000000") (Some Reference.shell_signature)
    Reference.shell_body
  = Return tt.
Proof.
  assert (Hfirst : verify_signature PyStr.int Sha256.hmac_hexdigest Reference.cfg
                     1700000010 (Some "1700000000") (Some Reference.shell_signature)
                     Reference.shell_body = Return tt)
    by (vm_compute; reflexivity).
  assert (Hw : Z.abs (1700000300 - 1700000000) <= 300) by lia.
  exact (verify_signature_replay PyStr.int Sha256.hmac_hexdigest Reference.cfg
           1700000010 1700000300 1700000000 "1700000000" Reference.shell_signature
           Reference.shell_body Hfirst eq_refl Hw).
Defined.

End AuthExtras.

(** ** The in-process limiter over time and across clients *)

Module LimiterExtras.

Import Main Traces RateLimitFacts.

Section Limiter.
Variable cfg : Config.

Abbreviation rps := (RATE_LIMIT_RPS cfg).
Abbreviation rate_limit := (Main.rate_limit None cfg).
Abbreviation too_many := (HTTPException 429 "rate limit").

(** X11.  A capacity strictly between 0 and 1 locks everybody out: every
    call of every client, the first one included, is refused with 429, and
    nothing is stored. *)
Theorem fractional_capacity_refuses_all (now : F64.float) (client : option string)
    (w : World) :
  F64.ltb F64.zero rps = true -> F64.ltb rps F64.one = true ->
  rate_limit now client w = (Raise too_many, w).
Proof.
  intros Hpos Hlt.
  rewrite rate_limit_step by (now apply F64Facts.ltb_zero_leb).
  match goal with
  | |- context [F64.ltb ?x F64.one] =>
      assert (E : F64.ltb x F64.one = true)
  end.
  { unfold F64.py_min.
    match goal with
    | |- context [if F64.ltb ?x rps then _ else _] =>
        destruct (F64.ltb x rps) eqn:Hx; [|exact Hlt]
    end.
    eapply F64Facts.ltb_trans; eassumption. }
  now rewrite E.
Qed.

(** A call reads and writes the bucket of its own key only. *)
Lemma rate_limit_same_key (now : F64.float) (client : option string) (w w' : World) :
  last_seen w !! bucket_key client = last_seen w' !! bucket_key client ->
  fst (rate_limit now client w) = fst (rate_limit now client w') /\
  last_seen (snd (rate_limit now client w)) !! bucket_key client
  = last_seen (snd (rate_limit now client w')) !! bucket_key client.
Proof.
  unfold bucket_key, Main.rate_limit. intros H.
  destruct (F64.leb rps F64.zero); [now split|]. rewrite H.
  destruct (default (now, rps) _) as [ts tok].
  destruct (F64.ltb _ _); simpl; [now split|].
  split; [reflexivity|]. now rewrite !lookup_insert_eq.
Qed.

Lemma rate_limit_other_key (now : F64.float) (client : option string) (w : World)
    (k : string) :
  bucket_key client <> k ->
  last_seen (snd (rate_limit now client w)) !! k = last_seen w !! k.
Proof.
  unfold bucket_key, Main.rate_limit. intros Hne.
  destruct (F64.leb rps F64.zero); [reflexivity|].
  destruct (default (now, rps) _) as [ts tok].
  destruct (F64.ltb _ _); simpl; [reflexivity|].
  now apply lookup_insert_ne.
Qed.

Lemma admit_all_isolated (k : string) (calls : list (F64.float * option string))
    (w w' : World) :
  last_seen w !! k = last_seen w' !! k ->
  map snd (List.filter (fun p => String.eqb (bucket_key (snd (fst p))) k)
             (combine calls (fst (admit_all cfg calls w))))
  = fst (admit_all cfg
           (List.filter (fun c => String.eqb (bucket_key (snd c)) k) calls) w').
Proof.
  revert w w'. induction calls as [|[now client] calls IH]; intros w w' Hk;
    [reflexivity|].
  cbn [admit_all List.filter].
  destruct (Main.rate_limit None cfg now client w) as [o w1] eqn:Hstep.
  destruct (admit_all cfg calls w1) as [os w2] eqn:Hrest.
  cbn [fst combine List.filter snd].
  destruct (String.eqb_spec (bucket_key client) k) as [Heq|Hne].
  - cbn [admit_all].
    destruct (Main.rate_limit None cfg now client w') as [o' w1'] eqn:Hstep'.
    destruct (admit_all cfg (List.filter _ calls) w1') as [os' w2'] eqn:Hrest'.
    cbn [map snd fst].
    subst k.
    destruct (rate_limit_same_key now client w w' Hk) as (Ho & Hk1).
    rewrite Hstep, Hstep' in Ho, Hk1. simpl in Ho, Hk1. subst o'.
    f_equal. specialize (IH w1 w1' Hk1).
    rewrite Hrest, Hrest' in IH. exact IH.
  - specialize (IH w1 w').
    rewrite Hrest in IH. apply IH.
    pose proof (rate_limit_other_key now client w k Hne) as H1.
    rewrite Hstep in H1. simpl in H1. now rewrite H1.
Qed.

(** X14.  What a client is answered does not depend on the traffic of the
    others: the answers to the calls of one bucket key, picked out of any
    interleaving, are the answers those calls get when made alone. *)
Theorem clients_are_isolated (k : string) (calls : list (F64.float * option string))
    (w : World) :
  map snd (List.filter (fun p => String.eqb (bucket_key (snd (fst p))) k)
             (combine calls (fst (admit_all cfg calls w))))
  = fst (admit_all cfg
           (List.filter (fun c => String.eqb (bucket_key (snd c)) k) calls) w).
Proof. now apply admit_all_isolated. Qed.

End Limiter.

Lemma fractional_capacity_refuses_all_witness :
  Main.rate_limit None Samples.cfg_half (F64.of_Z 1700000000) (Some "10.0.0.1")
    Reference.world0
  = (Raise (HTTPException 429 "rate limit"), Reference.world0).
Proof.
  apply (fractional_capacity_refuses_all Samples.cfg_half); reflexivity.
Defined.

End LimiterExtras.

(** ** The gateway: what each route can do to the world *)

Module GatewayExtras.

Import TaskEngine SemanticStore Main.

Section Pipeline.
Variable int : string -> option Z.
Variable hmac_sha256_hexdigest : string -> string -> string.
Variable shlex_split : string -> option (list string).
Variable os_exec : list string -> Z -> proc_result.
Variable _invoke_http : string -> string -> option string.
Variable exc_str : exn -> string.
Variable fts5_match : list MemoryEntry -> string -> option (list MemoryEntry).
Variable redis_client : option (string -> F64.float -> bool).
Variable cfg : Config.

Abbreviation serve :=
  (Main.serve int hmac_sha256_hexdigest shlex_split os_exec
     _invoke_http exc_str fts5_match redis_client cfg).

Abbreviation guard r clk :=
  (guarded int hmac_sha256_hexdigest redis_client cfg r clk).

(** What has happened when the common prefix of the privileged handlers
    lets a request through. *)
Lemma guarded_returns {B : Type} (r : Request B) (clk : Clock) (w w1 : World) :
  guard r clk w = (Return tt, w1) ->
  rate_limit redis_client cfg (admit_time clk) (client_host r) w = (Return tt, w1) /\
  verify_signature int hmac_sha256_hexdigest cfg
    (PyStr.int_of_float (verify_time clk))
    (x_timestamp r) (x_signature r) (raw_body r) = Return tt.
Proof.
  unfold guarded, bind, lift.
  destruct (rate_limit _ _ _ _ _) as [[[]|e] w'] eqn:Hrl; [|discriminate].
  destruct (verify_signature _ _ _ _ _ _ _) as [[]|e]; [|discriminate].
  now intros [= <-].
Qed.

Lemma guarded_world {B : Type} (r : Request B) (clk : Clock) (w : World) :
  db (snd (guard r clk w)) = db w /\
  spawned (snd (guard r clk w)) = spawned w /\
  records (snd (guard r clk w)) = records w.
Proof.
  unfold guarded, bind, lift.
  pose proof (GatewayFacts.rate_limit_frame redis_client cfg
                (admit_time clk) (client_host r) w) as F.
  destruct (rate_limit _ _ _ _ _) as [[[]|e] w1]; simpl in *; exact F.
Qed.

(** What [/partner] asks the model, given what was recalled. *)
Abbreviation partner_prompt instruction recalls :=
  ("You are APEX partner. Instruction: " ++ instruction ++ newline ++
   "Relevant context:" ++ newline ++
   String.concat newline (map content recalls) ++ newline ++
   "Plan concise next steps as a numbered list.")%string.

Abbreviation default_model := (getenv (environ cfg) "OLLAMA_MODEL" "llama3").

(** X15.  Which argument vectors the gateway hands to [subprocess.run].
    Serving a call adds at most one, and adds one only for a call that the
    limiter has admitted and the authenticator accepted: on [/shell], the
    token vector of a command that the allowlist lets through; on
    [/invoke] and on [/partner], when the HTTP call to the model gives
    nothing usable, the [bash -lc] command line of the client's fallback,
    with the prompt and the model name pasted in, which the allowlist does
    not govern.  [/health], [/stream], [/tasks] and [/memory/search] add
    none. *)
Theorem spawns_after_admission_and_auth (c : Call) (clk : Clock) (w : World) :
  spawned (snd (serve c clk w)) = spawned w \/
  exists args,
    spawned (snd (serve c clk w)) = spawned w ++ [args] /\
    fst (rate_limit redis_client cfg (admit_time clk) (peer c) w) = Return tt /\
    verify_signature int hmac_sha256_hexdigest cfg
      (PyStr.int_of_float (verify_time clk))
      (timestamp_header c) (signature_header c) (body_bytes_of c) = Return tt /\
    ((exists r,
         c = POST_shell r /\
         _is_allowed shlex_split (shell cfg) (command (req r)) = true /\
         shlex_split (command (req r)) = Some args) \/
     (exists r,
         c = POST_invoke r /\
         LlmOrchestrator.falls_back _invoke_http
           (model_or_default cfg (model (req r))) (prompt (req r)) = true /\
         args = OllamaCli.cli_argv (model_or_default cfg (model (req r)))
                  (prompt (req r))) \/
     (exists r recalls,
         c = POST_partner r /\
         LlmOrchestrator.falls_back _invoke_http default_model
           (partner_prompt (instruction (req r)) recalls) = true /\
         args = OllamaCli.cli_argv default_model
                  (partner_prompt (instruction (req r)) recalls))).
Proof.
  destruct c as [|r|r|r|r|r|r]; cbn [Main.serve peer timestamp_header
                                      signature_header body_bytes_of].
  - now left.
  - unfold invoke, bind, llm_invoke, logger_info, ret.
    pose proof (guarded_world r clk w) as (_ & Hs & _).
    destruct (guard r clk w) as [[[]|e] w1] eqn:Hg; cbn [snd] in Hs; [|now left].
    apply guarded_returns in Hg as (Hrl & Hauth).
    destruct (LlmOrchestrator.falls_back _invoke_http
                (model_or_default cfg (model (req r))) (prompt (req r))) eqn:Hfb.
    + right. eexists. cbn [snd spawned with_record with_spawned].
      rewrite Hs, Hrl. split; [reflexivity|]. split; [reflexivity|].
      split; [exact Hauth|]. right. left. exists r. auto.
    + left. cbn [snd spawned with_record with_spawned].
      now rewrite app_nil_r.
  - unfold run_shell, bind.
    pose proof (guarded_world r clk w) as (_ & Hs & _).
    destruct (guard r clk w) as [[[]|e] w1] eqn:Hg; cbn [snd] in Hs; [|now left].
    apply guarded_returns in Hg as (Hrl & Hauth).
    unfold shell_run.
    destruct (TaskEngine._is_allowed shlex_split (shell cfg) (command (req r))) eqn:A.
    + right.
      destruct (TaskEngineFacts.run_allowed shlex_split os_exec (shell cfg)
                  (command (req r)) A) as (args & Hsplit & Hrun).
      exists args. rewrite Hrl, Hrun. split.
      * destruct (match subprocess_run os_exec args (timeout_seconds (shell cfg)) with
                  | Return stdout => Return (PyStr.strip stdout)
                  | Raise TimeoutExpired => Return timeout_message
                  | Raise (CalledProcessError _ _ stderr) =>
                      Return (error_prefix ++ PyStr.strip stderr)%string
                  | Raise e => Raise e
                  end); simpl; now rewrite Hs.
      * split; [reflexivity|]. split; [exact Hauth|]. left. exists r. auto.
    + left.
      rewrite (TaskEngineFacts.run_not_allowed shlex_split os_exec (shell cfg)
                 (command (req r)) A).
      simpl. now rewrite app_nil_r.
  - left. unfold stream, bind.
    pose proof (guarded_world r clk w) as (_ & Hs & _).
    destruct (guard r clk w) as [[[]|e] w1]; simpl in *; exact Hs.
  - unfold partner, daemon_partner, bind, store_add_task, store_search_memory,
      llm_invoke, ret.
    pose proof (guarded_world r clk w) as (_ & Hs & _).
    destruct (guard r clk w) as [[[]|e] w1] eqn:Hg; cbn [snd] in Hs; [|now left].
    apply guarded_returns in Hg as (Hrl & Hauth).
    destruct (add_task _ _ _ _ _) as [[i|e] d1]; cbn [snd]; [|now left].
    destruct (search_memory _ _ _ _) as [rows|e]; cbn [snd]; [|now left].
    destruct (LlmOrchestrator.falls_back _invoke_http default_model
                (partner_prompt (instruction (req r)) rows)) eqn:Hfb.
    + right. eexists. cbn [snd spawned with_db with_spawned].
      rewrite Hs, Hrl. split; [reflexivity|]. split; [reflexivity|].
      split; [exact Hauth|]. right. right. exists r, rows. auto.
    + left. cbn [snd spawned with_db with_spawned]. now rewrite app_nil_r.
  - now left.
  - left. unfold memory_search, bind, store_search_memory.
    now destruct (search_memory _ _ _ _).
Qed.

(** The plan [/partner] asks the model for, given what was recalled, and
    what the model's client hands to [subprocess.run] for it. *)
Abbreviation partner_plan instruction recalls :=
  (LlmOrchestrator.invoke _invoke_http (OllamaCli._invoke_cli os_exec exc_str)
     default_model (partner_prompt instruction recalls)).

Abbreviation partner_calls instruction recalls :=
  (if LlmOrchestrator.falls_back _invoke_http default_model
        (partner_prompt instruction recalls)
   then [OllamaCli.cli_argv default_model (partner_prompt instruction recalls)]
   else []).

(** X16.  A [/partner] request that passes the limiter and the
    authenticator adds exactly one task, queued, of priority 5, titled with
    the first 80 characters of the instruction and described by all of it;
    when the search then succeeds, the answer carries the id of that task,
    at most three recalled entries and the plan drafted from them. *)
Theorem partner_creates_task (r : Request PartnerRequest) (clk : Clock)
    (w w1 : World) (i : Z) (d1 : DB) (rows : list MemoryEntry) :
  guard r clk w = (Return tt, w1) ->
  add_task (db w) (take_codepoints 80 (instruction (req r))) (instruction (req r))
    5 (utcnow clk) = (Return i, d1) ->
  fts5_match (memory_fts d1) (instruction (req r)) = Some rows ->
  serve (POST_partner r) clk w
  = (Return (Partner i (partner_plan (instruction (req r)) (firstn 3 rows))
               (firstn 3 rows)),
     with_spawned (partner_calls (instruction (req r)) (firstn 3 rows))
       (with_db d1 w1)) /\
  SemanticStore.tasks d1 = SemanticStore.tasks (db w) ++
    [{| id := i; title := take_codepoints 80 (instruction (req r));
        description := instruction (req r); status := "queued"; priority := 5;
        task_created_at := utcnow clk; updated_at := None |}] /\
  memory_fts d1 = memory_fts (db w).
Proof.
  intros Hg Hadd Hfts.
  pose proof (guarded_world r clk w) as (Hdb & _). rewrite Hg in Hdb. simpl in Hdb.
  split.
  - simpl.
    unfold partner, daemon_partner, bind, store_add_task, store_search_memory,
      llm_invoke.
    rewrite Hg, Hdb, Hadd. simpl. unfold search_memory, ensure_schema. simpl.
    now rewrite Hfts.
  - apply SemanticStoreFacts.add_task_inv in Hadd as (_ & Ht & Hm & _). now split.
Qed.

(** X17.  When the instruction of a [/partner] request is not a query the
    full-text engine accepts, the request fails with the engine's error, a
    server error for the client, after its task has been inserted: the task
    stays in the table. *)
Theorem partner_failed_search_keeps_task (r : Request PartnerRequest) (clk : Clock)
    (w w1 : World) (i : Z) (d1 : DB) :
  guard r clk w = (Return tt, w1) ->
  add_task (db w) (take_codepoints 80 (instruction (req r))) (instruction (req r))
    5 (utcnow clk) = (Return i, d1) ->
  fts5_match (memory_fts d1) (instruction (req r)) = None ->
  serve (POST_partner r) clk w = (Raise OperationalError, with_db d1 w1) /\
  http_status (fst (serve (POST_partner r) clk w)) = 500 /\
  exists row,
    SemanticStore.tasks (db (snd (serve (POST_partner r) clk w)))
    = SemanticStore.tasks (db w) ++ [row] /\
    id row = i /\ description row = instruction (req r).
Proof.
  intros Hg Hadd Hfts.
  pose proof (guarded_world r clk w) as (Hdb & _). rewrite Hg in Hdb. simpl in Hdb.
  assert (E : serve (POST_partner r) clk w = (Raise OperationalError, with_db d1 w1)).
  { simpl. unfold partner, daemon_partner, bind, store_add_task, store_search_memory.
    rewrite Hg, Hdb, Hadd. simpl. unfold search_memory, ensure_schema. simpl.
    now rewrite Hfts. }
  rewrite E. split; [reflexivity|]. split; [reflexivity|]. simpl.
  apply SemanticStoreFacts.add_task_inv in Hadd as (_ & Ht & _ & _).
  eexists. split; [exact Ht|]. now split.
Qed.

(** X18.  How many results [/memory/search] returns: the best five when
    the request gives no limit or the limit 0, the best [n] for a positive
    limit [n], and every match, without a bound, for a negative one. *)
Theorem memory_search_limits (r : Request MemoryQuery) (clk : Clock) (w : World)
    (rows : list MemoryEntry) :
  fts5_match (memory_fts (db w)) (q (req r)) = Some rows ->
  (limit (req r) = None \/ limit (req r) = Some 0 ->
   fst (serve (POST_memory_search r) clk w) = Return (Results (firstn 5 rows))) /\
  (forall n, limit (req r) = Some n -> 0 < n -> fits_int64 n = true ->
             fst (serve (POST_memory_search r) clk w)
             = Return (Results (firstn (Z.to_nat n) rows))) /\
  (forall n, limit (req r) = Some n -> n < 0 -> fits_int64 n = true ->
             fst (serve (POST_memory_search r) clk w) = Return (Results rows)).
Proof.
  intros Hfts.
  simpl. unfold memory_search, bind, store_search_memory, search_memory, ensure_schema.
  split; [|split].
  - intros [Hl|Hl]; rewrite Hl; simpl; now rewrite Hfts.
  - intros n Hl Hn Hfit. rewrite Hl. simpl.
    destruct (Z.eqb_spec n 0) as [->|_]; [lia|]. rewrite Hfit. simpl. rewrite Hfts.
    simpl. unfold sql_limit. destruct (Z.ltb_spec n 0); [lia|reflexivity].
  - intros n Hl Hn Hfit. rewrite Hl. simpl.
    destruct (Z.eqb_spec n 0) as [->|_]; [lia|]. rewrite Hfit. simpl. rewrite Hfts.
    simpl. unfold sql_limit. destruct (Z.ltb_spec n 0); [reflexivity|lia].
Qed.

End Pipeline.

Lemma partner_creates_task_witness :
  SemanticStore.tasks
    (snd (add_task empty_db (take_codepoints 80 "tidy logs") "tidy logs" 5
            "2023-11-14T22:13:30"))
  = SemanticStore.tasks (db Reference.world0) ++
    [{| id := 1; title := take_codepoints 80 "tidy logs";
        description := "tidy logs"; status := "queued"; priority := 5;
        task_created_at := "2023-11-14T22:13:30"; updated_at := None |}].
Proof.
  assert (Hg : guarded PyStr.int Sha256.hmac_hexdigest None Reference.cfg
                 Samples.signed_partner (Reference.clock 1700000010) Reference.world0
               = (Return tt,
                  snd (guarded PyStr.int Sha256.hmac_hexdigest None Reference.cfg
                         Samples.signed_partner (Reference.clock 1700000010)
                         Reference.world0)))
    by (vm_compute; reflexivity).
  destruct (partner_creates_task PyStr.int Sha256.hmac_hexdigest Shlex.split
              Reference.os_hello Reference.no_http Reference.exc_text
              Reference.fts_exact None Reference.cfg
              Samples.signed_partner (Reference.clock 1700000010)
              Reference.world0 _ 1 _ [] Hg eq_refl eq_refl) as (_ & Htasks & _).
  exact Htasks.
Defined.

Lemma partner_failed_search_keeps_task_witness :
  http_status
    (fst (serve PyStr.int Sha256.hmac_hexdigest Shlex.split Reference.os_hello
            Reference.no_http Reference.exc_text Samples.fts_reject None
            Reference.cfg (POST_partner Samples.signed_partner)
            (Reference.clock 1700000010) Reference.world0))
  = 500.
Proof.
  assert (Hg : guarded PyStr.int Sha256.hmac_hexdigest None Reference.cfg
                 Samples.signed_partner (Reference.clock 1700000010) Reference.world0
               = (Return tt,
                  snd (guarded PyStr.int Sha256.hmac_hexdigest None Reference.cfg
                         Samples.signed_partner (Reference.clock 1700000010)
                         Reference.world0)))
    by (vm_compute; reflexivity).
  destruct (partner_failed_search_keeps_task PyStr.int Sha256.hmac_hexdigest
              Shlex.split Reference.os_hello Reference.no_http Reference.exc_text
              Samples.fts_reject None Reference.cfg
              Samples.signed_partner (Reference.clock 1700000010)
              Reference.world0 _ 1 _ Hg eq_refl eq_refl) as (_ & Hstatus & _).
  exact Hstatus.
Defined.

Lemma memory_search_limits_witness :
  fst (Reference.serve_ref Reference.os_hello
         (POST_memory_search (Samples.search_hello (Some (-1))))
         (Reference.clock 1700000000) Samples.world_hello)
  = Return (Results (memory_fts Samples.db_hello)).
Proof.
  assert (Hneg : -1 < 0) by lia.
  destruct (memory_search_limits PyStr.int Sha256.hmac_hexdigest Shlex.split
              Reference.os_hello Reference.no_http Reference.exc_text
              Reference.fts_exact None Reference.cfg
              (Samples.search_hello (Some (-1))) (Reference.clock 1700000000)
              Samples.world_hello (memory_fts Samples.db_hello) eq_refl)
    as (_ & _ & Hall).
  exact (Hall (-1) eq_refl Hneg eq_refl).
Defined.

(** A signed [/invoke] request when the Ollama server does not answer:
    [bash] is started, though it is not on the allowlist. *)
Example invoke_starts_bash :
  spawned
    (snd (Reference.serve_ref Reference.os_hello
            (POST_invoke Samples.signed_invoke) (Reference.clock 1700000010)
            Reference.world0))
  = [["bash"; "-lc";
      ("printf %s " ++ String "034" ("hi" ++ String "034" " | ollama run llama3"))%string]]
  /\ "bash" ∉ allowed_commands (shell Reference.cfg).
Proof.
  split; [vm_compute; reflexivity|].
  intros H. apply list_elem_of_In in H. simpl in H.
  repeat (destruct H as [H|H]; [discriminate H|]). exact H.
Qed.

(** Seven entries match; without a limit five come back. *)
Example memory_search_default_limit :
  match fst (Reference.serve_ref Reference.os_hello
               (POST_memory_search (Samples.search_hello None))
               (Reference.clock 1700000000) Samples.world_hello) with
  | Return (Results rows) => List.length rows
  | _ => 0%nat
  end = 5%nat.
Proof. reflexivity. Qed.

End GatewayExtras.

(** ** The console daemon and its short-term memory *)

Module ConsoleExtras.

Import TaskEngine SemanticStore.

(** *** [ContextStore] *)

Lemma remember_all (newer logs : list string) :
  fold_left ContextStore.remember newer logs = logs ++ newer.
Proof.
  revert logs. induction newer as [|e newer IH]; intros logs; simpl.
  - now rewrite app_nil_r.
  - rewrite IH. unfold ContextStore.remember. now rewrite <- app_assoc.
Qed.

(** X19.  [recall] returns the last five entries remembered, oldest
    first, or all of them when there are fewer. *)
Theorem recall_window (logs : list string) :
  exists older,
    logs = older ++ ContextStore.recall logs /\
    List.length (ContextStore.recall logs) = Nat.min 5 (List.length logs).
Proof.
  exists (firstn (List.length logs - 5) logs).
  unfold ContextStore.recall, ContextStore.last_five. split.
  - symmetry. apply firstn_skipn.
  - rewrite length_skipn. lia.
Qed.

(** X20.  An entry is recalled right after it is remembered, as the last
    one, and as long as at most four entries have been remembered since;
    once five have, [recall] returns just those five. *)
Theorem remember_then_recall (logs newer : list string) (entry : string) :
  (exists earlier,
      ContextStore.recall (ContextStore.remember logs entry) = earlier ++ [entry]) /\
  ((List.length newer <= 4)%nat ->
   In entry (ContextStore.recall
               (fold_left ContextStore.remember newer
                  (ContextStore.remember logs entry)))) /\
  (List.length newer = 5%nat ->
   ContextStore.recall
     (fold_left ContextStore.remember newer (ContextStore.remember logs entry))
   = newer).
Proof.
  unfold ContextStore.recall, ContextStore.last_five. split; [|split].
  - unfold ContextStore.remember. rewrite length_app. simpl.
    rewrite skipn_app.
    replace (List.length logs + 1 - 5 - List.length logs)%nat with 0%nat by lia.
    simpl. eauto.
  - intros Hn. rewrite remember_all. unfold ContextStore.remember.
    rewrite <- app_assoc. simpl. rewrite length_app. simpl.
    rewrite skipn_app. apply in_or_app. right.
    replace (List.length logs + S (List.length newer) - 5 - List.length logs)%nat
      with 0%nat by lia.
    simpl. now left.
  - intros Hn. rewrite remember_all. unfold ContextStore.remember.
    rewrite <- app_assoc. simpl. rewrite length_app. simpl.
    rewrite skipn_app, Hn.
    replace (List.length logs + 6 - 5)%nat with (S (List.length logs)) by lia.
    rewrite skipn_all2 by lia.
    replace (S (List.length logs) - List.length logs)%nat with 1%nat by lia.
    reflexivity.
Qed.

(** *** [LotlOpsDaemon.execute] *)

Section Daemon.
Variable shlex_split : string -> option (list string).
Variable os_exec : list string -> Z -> proc_result.
Variable _invoke_http : string -> string -> option string.
Variable _invoke_cli : string -> string -> string.
Variable dict_str : list (string * string) -> string.
Variable executor : ShellExecutor.
Variable model_name : string.

Abbreviation execute :=
  (Lotl.execute shlex_split os_exec _invoke_http _invoke_cli dict_str
     executor model_name).

(** X21.  When [execute] returns, it has printed one output, remembered
    the command with that output in the daemon's context, and appended one
    memory entry whose content is that output, with a non-empty metadata
    text, without touching the task table; when it raises, nothing was
    printed, remembered or stored. *)
Theorem execute_outcomes (cmd now : string) (c : Lotl.Console) :
  (forall c',
      execute cmd now c = (Return tt, c') ->
      exists output meta,
        Lotl.printed c' = Lotl.printed c ++ [output] /\
        Lotl.logs c' = Lotl.logs c ++ [("$ " ++ cmd ++ String "010" output)%string] /\
        memory_fts (Lotl.store c')
        = memory_fts (Lotl.store c) ++
          [{| content := output; metadata := meta; created_at := now |}] /\
        meta <> "" /\
        tasks (Lotl.store c') = tasks (Lotl.store c)) /\
  (forall e c',
      execute cmd now c = (Raise e, c') ->
      Lotl.printed c' = Lotl.printed c /\
      Lotl.logs c' = Lotl.logs c /\
      Lotl.store c' = Lotl.store c).
Proof.
  unfold Lotl.execute.
  destruct (if PyStr.startswith cmd "!" then _ else _) as [[output|e] calls].
  - split; [|discriminate]. intros c' [= <-]. simpl.
    exists output. eexists. split; [reflexivity|]. split; [reflexivity|].
    split; [reflexivity|]. split; [|reflexivity].
    now destruct (dict_str _).
  - split; [discriminate|]. intros e' c' [= _ <-]. simpl. auto.
Qed.

(** X22.  The console remembers its refusals: a command that the
    allowlist denies starts no process, and the denial text is printed and
    stored as a memory entry like any other output. *)
Theorem execute_remembers_denial (cmd now : string) (c : Lotl.Console) :
  PyStr.startswith cmd "!" = false ->
  _is_allowed shlex_split executor cmd = false ->
  exists c' meta,
    execute cmd now c = (Return tt, c') /\
    Lotl.launched c' = Lotl.launched c /\
    Lotl.printed c' = Lotl.printed c ++ [denied_message] /\
    memory_fts (Lotl.store c')
    = memory_fts (Lotl.store c) ++
      [{| content := denied_message; metadata := meta; created_at := now |}].
Proof.
  intros Hbang Hden. unfold Lotl.execute. rewrite Hbang.
  rewrite (TaskEngineFacts.run_not_allowed shlex_split os_exec executor cmd Hden).
  eexists. eexists. split; [reflexivity|]. simpl.
  split; [now rewrite app_nil_r|]. split; reflexivity.
Qed.

End Daemon.


(** *** [_HistoryHandler.on_modified] *)

Lemma append_nil_r (s : string) : (s ++ "")%string = s.
Proof.
  induction s as [|c s IH]; [reflexivity|].
  now rewrite ExecutorExtras.append_cons, IH.
Qed.

Lemma rev_string_append (acc s t : string) :
  (PyStr.rev_string acc s ++ t)%string = PyStr.rev_string (acc ++ t)%string s.
Proof.
  revert acc. induction s as [|c s IH]; intros acc; [reflexivity|].
  cbn [PyStr.rev_string]. now rewrite IH.
Qed.

Lemma concat_cons (x : string) (xs : list string) :
  String.concat "" (x :: xs) = (x ++ String.concat "" xs)%string.
Proof.
  destruct xs as [|y ys]; cbn [String.concat].
  - now rewrite append_nil_r.
  - reflexivity.
Qed.

Lemma concat_app (xs ys : list string) :
  String.concat "" (xs ++ ys)
  = (String.concat "" xs ++ String.concat "" ys)%string.
Proof.
  induction xs as [|x xs IH]; [reflexivity|].
  change ((x :: xs) ++ ys) with (x :: (xs ++ ys)).
  rewrite !concat_cons, IH. apply ExecutorExtras.append_assoc.
Qed.

Lemma readlines_from_concat (cur text : string) :
  String.concat "" (CoreDaemon.readlines_from cur text)
  = (PyStr.reverse cur ++ text)%string.
Proof.
  revert cur. induction text as [|c rest IH]; intros cur.
  - cbn [CoreDaemon.readlines_from]. rewrite append_nil_r.
    destruct cur; reflexivity.
  - cbn [CoreDaemon.readlines_from]. unfold PyStr.reverse in *.
    destruct (Ascii.eqb c "010").
    + rewrite concat_cons, IH. cbn [PyStr.rev_string].
      change ("" ++ rest)%string with rest.
      now rewrite !rev_string_append.
    + rewrite IH. cbn [PyStr.rev_string]. now rewrite !rev_string_append.
Qed.

(** X24.  [readlines] loses nothing: the lines put together again are the
    text.  So what [on_modified] remembers for a readable file is its
    label followed by the end of the file's text, the last five lines or
    all of them when there are fewer; a directory or an unreadable file
    leaves the memory as it is. *)
Theorem on_modified_remembers_tail (path_label text : string) (logs : list string) :
  String.concat "" (CoreDaemon.readlines text) = text /\
  (exists older tail,
      CoreDaemon.readlines text = older ++ tail /\
      List.length tail = Nat.min 5 (List.length (CoreDaemon.readlines text)) /\
      text = (String.concat "" older ++ String.concat "" tail)%string /\
      CoreDaemon.on_modified path_label false (Some text) logs
      = logs ++ [("[HISTORY][" ++ path_label ++ "]" ++
                  String "010" (String.concat "" tail))%string]) /\
  CoreDaemon.on_modified path_label true (Some text) logs = logs /\
  CoreDaemon.on_modified path_label false None logs = logs.
Proof.
  assert (Hcat : String.concat "" (CoreDaemon.readlines text) = text).
  { unfold CoreDaemon.readlines. now rewrite readlines_from_concat. }
  split; [exact Hcat|]. split; [|split; reflexivity].
  exists (firstn (List.length (CoreDaemon.readlines text) - 5) (CoreDaemon.readlines text)),
    (ContextStore.last_five (CoreDaemon.readlines text)).
  unfold ContextStore.last_five. split; [symmetry; apply firstn_skipn|].
  split; [rewrite length_skipn; lia|]. split; [|reflexivity].
  now rewrite <- concat_app, firstn_skipn.
Qed.

(** *** [OllamaModel.invoke] with its command-line fallback *)

Lemma startswith_append (p s : string) : PyStr.startswith (p ++ s) p = true.
Proof.
  unfold PyStr.startswith.
  assert (H : PyStr.drop_prefix p (p ++ s)%string = Some s).
  { induction p as [|c p IH]; [reflexivity|].
    rewrite ExecutorExtras.append_cons. cbn [PyStr.drop_prefix].
    now rewrite Ascii.eqb_refl. }
  now rewrite H.
Qed.

(** X25.  When the HTTP call gives nothing usable (no answer, or one that
    starts with the cross mark) and the [ollama] command does not end with
    exit code 0, [invoke] still returns a text: the command-line diagnostic,
    which replaces whatever the HTTP call had reported. *)
Theorem invoke_failures_are_text
    (os_exec : list string -> Z -> proc_result) (exc_str : exn -> string)
    (_invoke_http : string -> string -> option string)
    (model_name prompt : string) :
  (_invoke_http model_name prompt = None \/
   exists answer, _invoke_http model_name prompt = Some answer /\
                  PyStr.startswith answer "❌" = true) ->
  (forall stdout stderr,
      os_exec (OllamaCli.cli_argv model_name prompt) 120 <> Exited 0 stdout stderr) ->
  LlmOrchestrator.invoke _invoke_http (OllamaCli._invoke_cli os_exec exc_str)
    model_name prompt
  = OllamaCli._invoke_cli os_exec exc_str model_name prompt /\
  PyStr.startswith
    (LlmOrchestrator.invoke _invoke_http (OllamaCli._invoke_cli os_exec exc_str)
       model_name prompt)
    OllamaCli.cli_error_prefix = true.
Proof.
  intros Hhttp Hcli.
  assert (E : LlmOrchestrator.invoke _invoke_http
                (OllamaCli._invoke_cli os_exec exc_str) model_name prompt
              = OllamaCli._invoke_cli os_exec exc_str model_name prompt).
  { unfold LlmOrchestrator.invoke.
    destruct Hhttp as [-> | (answer & -> & ->)]; reflexivity. }
  split; [exact E|]. rewrite E.
  unfold OllamaCli._invoke_cli, subprocess_run.
  destruct (existsb PyStr.has_nul _); [apply startswith_append|].
  change (timeout_overflows 120) with false. change (120 <=? 0) with false.
  destruct (os_exec (OllamaCli.cli_argv model_name prompt) 120)
    as [rc out err| |] eqn:Hos; try apply startswith_append.
  destruct (text_of out) as [stdout|]; [|apply startswith_append].
  destruct (text_of err) as [stderr|]; [|apply startswith_append].
  destruct (Z.eqb_spec rc 0) as [->|_].
  - exfalso. exact (Hcli out err eq_refl).
  - apply startswith_append.
Qed.

Lemma remember_then_recall_witness :
  ContextStore.recall
    (fold_left ContextStore.remember ["c"; "d"; "e"; "f"; "g"]
       (ContextStore.remember ["a"] "b"))
  = ["c"; "d"; "e"; "f"; "g"].
Proof.
  destruct (remember_then_recall ["a"] ["c"; "d"; "e"; "f"; "g"] "b") as (_ & _ & H).
  apply H. reflexivity.
Defined.

Lemma execute_outcomes_witness :
  exists output meta,
    Lotl.printed
      (snd (Lotl.execute Shlex.split Reference.os_hello Reference.no_http
              Reference.cli_echo Samples.dict_text Reference.executor "llama3"
              "echo hello" "2023-11-14T22:13:30" Samples.console0))
    = Lotl.printed Samples.console0 ++ [output] /\
    Lotl.logs
      (snd (Lotl.execute Shlex.split Reference.os_hello Reference.no_http
              Reference.cli_echo Samples.dict_text Reference.executor "llama3"
              "echo hello" "2023-11-14T22:13:30" Samples.console0))
    = Lotl.logs Samples.console0 ++
      [("$ " ++ "echo hello" ++ String "010" output)%string] /\
    memory_fts
      (Lotl.store
         (snd (Lotl.execute Shlex.split Reference.os_hello Reference.no_http
                 Reference.cli_echo Samples.dict_text Reference.executor "llama3"
                 "echo hello" "2023-11-14T22:13:30" Samples.console0)))
    = memory_fts (Lotl.store Samples.console0) ++
      [{| content := output; metadata := meta;
          created_at := "2023-11-14T22:13:30" |}] /\
    meta <> "" /\
    tasks
      (Lotl.store
         (snd (Lotl.execute Shlex.split Reference.os_hello Reference.no_http
                 Reference.cli_echo Samples.dict_text Reference.executor "llama3"
                 "echo hello" "2023-11-14T22:13:30" Samples.console0)))
    = tasks (Lotl.store Samples.console0).
Proof.
  destruct (execute_outcomes Shlex.split Reference.os_hello Reference.no_http
              Reference.cli_echo Samples.dict_text Reference.executor "llama3"
              "echo hello" "2023-11-14T22:13:30" Samples.console0) as (Hret & _).
  apply Hret. reflexivity.
Defined.

Lemma execute_remembers_denial_witness :
  exists c' meta,
    Lotl.execute Shlex.split Reference.os_hello Reference.no_http
      Reference.cli_echo Samples.dict_text Reference.executor "llama3"
      "rm -rf /tmp/x" "2023-11-14T22:13:30" Samples.console0
    = (Return tt, c') /\
    Lotl.launched c' = Lotl.launched Samples.console0 /\
    Lotl.printed c' = Lotl.printed Samples.console0 ++ [denied_message] /\
    memory_fts (Lotl.store c')
    = memory_fts (Lotl.store Samples.console0) ++
      [{| content := denied_message; metadata := meta;
          created_at := "2023-11-14T22:13:30" |}].
Proof.
  apply (execute_remembers_denial Shlex.split Reference.os_hello Reference.no_http
           Reference.cli_echo Samples.dict_text Reference.executor "llama3"
           "rm -rf /tmp/x" "2023-11-14T22:13:30" Samples.console0);
    reflexivity.
Defined.


Example execute_bang_prompt :
  PyStr.strip (PyStr.slice_from 1 "! what next? ") = "what next?".
Proof. reflexivity. Qed.

Lemma invoke_failures_are_text_witness :
  PyStr.startswith
    (LlmOrchestrator.invoke Reference.no_http
       (OllamaCli._invoke_cli Samples.os_down Reference.exc_text) "llama3" "hi")
    OllamaCli.cli_error_prefix
  = true.
Proof.
  assert (Hcli : forall stdout stderr,
             Samples.os_down (OllamaCli.cli_argv "llama3" "hi") 120
             <> Exited 0 stdout stderr) by (intros; discriminate).
  destruct (invoke_failures_are_text Samples.os_down Reference.exc_text
              Reference.no_http "llama3" "hi" (or_introl eq_refl) Hcli) as (_ & H).
  exact H.
Defined.

Example readlines_keeps_newlines :
  CoreDaemon.readlines ("ls" ++ String "010" ("" ++ String "010" "cd x"))%string
  = [String "l" (String "s" (String "010" "")); String "010" ""; "cd x"].
Proof. reflexivity. Qed.

End ConsoleExtras.
